(** * HARMin: the request minimizer, its delta-debugging engine and its
      response comparator

    A shallow embedding of [har_minimizer/minimizer.py],
    [har_minimizer/comparator.py], [har_minimizer/models.py] and the
    [send] method of [har_minimizer/http_client.py].

    Conventions of the embedding.
    - A Python [str] is a [string]; [len] is [String.length].
    - A Python [dict] is an insertion-ordered association list with unique
      keys (module [PyDict]): [json.dumps] and [urlencode] emit the fields
      in that order, so the order is part of the data.
    - A test closure that assigns a [nonlocal] variable and talks to the
      network is a state-passing function [list A -> St -> bool * St].
    - [while] loops are functions with fuel that return [None] when the
      fuel runs out; [ddmin_gas] is shown to be always enough.
    - Functions of the Python standard library ([str.lower], [re],
      [json], [urllib.parse]) are the fields of the class [PyLib]. *)

From Stdlib Require Import ZArith Lia Floats Bool.
From stdpp Require Import base list strings.
From Stdlib Require Import Ascii.

Local Open Scope nat_scope.

(** ** Python dictionaries *)

Module PyDict.
Section Dict.
Context {V : Type}.

Definition t := list (string * V).

Definition empty : t := [].

Fixpoint get (k : string) (d : t) : option V :=
  match d with
  | [] => None
  | (k', v) :: d' => if String.eqb k k' then Some v else get k d'
  end.

Definition mem (k : string) (d : t) : bool :=
  match get k d with Some _ => true | None => false end.

(** [d[k] = v]: an existing key keeps its position, a new key goes last. *)
Fixpoint set (k : string) (v : V) (d : t) : t :=
  match d with
  | [] => [(k, v)]
  | (k', v') :: d' =>
      if String.eqb k k' then (k, v) :: d' else (k', v') :: set k v d'
  end.

Definition keys (d : t) : list string := map fst d.

Definition items (d : t) : list (string * V) := d.

(** [dict(pairs)] and the comprehension [{k: v for k, v in pairs}]. *)
Definition of_list (l : list (string * V)) : t :=
  fold_left (fun d kv => set (fst kv) (snd kv) d) l empty.

(** [{k: v for k, v in d.items() if keep(k)}] *)
Definition filter_keys (keep : string -> bool) (d : t) : t :=
  List.filter (fun kv => keep (fst kv)) d.

Definition is_empty (d : t) : bool :=
  match d with [] => true | _ => false end.
End Dict.
Arguments t : clear implicits.
End PyDict.

(** [x in xs] for a list or a set of strings. *)
Definition str_in (x : string) (xs : list string) : bool :=
  existsb (String.eqb x) xs.

(** [needle in haystack] for two strings. *)
Fixpoint str_prefix (p s : string) : bool :=
  match p, s with
  | EmptyString, _ => true
  | String a p', String b s' => if Ascii.eqb a b then str_prefix p' s' else false
  | String _ _, EmptyString => false
  end.

Fixpoint str_contains (needle haystack : string) : bool :=
  if str_prefix needle haystack then true
  else match haystack with
       | EmptyString => false
       | String _ rest => str_contains needle rest
       end.

(** ** The delta-debugging engine: [_ddmin] *)

Section Ddmin.
Context {A St : Type}.

(** [test_func]: the caller's predicate, with the state it reads and
    writes (the remote endpoint, the closure's [best_state]). *)
Variable test_func : list A -> St -> bool * St.

(** [max_tests: Optional[int]] *)
Variable max_tests : option Z.

(** [math.ceil(len(collection) / n)], for [n >= 1] *)
Definition ceil_div (len n : nat) : nat := (len + n - 1) / n.

(** [max_tests is not None and tests >= max_tests] *)
Definition budget_spent (tests : nat) : bool :=
  match max_tests with
  | Some m => (m <=? Z.of_nat tests)%Z
  | None => false
  end.

(** How one pass of the inner [while start < len(collection)] ends. *)
Inductive scan_result : Type :=
| ScanExhausted (tests : nat) (st : St)
    (* [return collection, tests] from inside the pass *)
| ScanRemoved (remainder : list A) (tests : nat) (st : St)
    (* a chunk was removed: [break] with [removed = True] *)
| ScanDone (tests : nat) (st : St).
    (* the pass ran to the end with [removed = False] *)

Fixpoint ddmin_scan (fuel : nat) (collection : list A)
    (subset_size start tests : nat) (st : St) : option scan_result :=
  match fuel with
  | 0 => None
  | S fuel' =>
      if start <? length collection then
        if budget_spent tests then Some (ScanExhausted tests st)
        else
          let remainder :=
            take start collection ++ drop (start + subset_size) collection in
          let tests := S tests in
          let '(ok, st) := test_func remainder st in
          if ok then Some (ScanRemoved remainder tests st)
          else ddmin_scan fuel' collection subset_size
                 (start + subset_size) tests st
      else Some (ScanDone tests st)
  end.

(** How one round of the outer [while len(collection) >= 1] ends. *)
Inductive round_result : Type :=
| RoundReturn (collection : list A) (tests : nat) (st : St)
| RoundNext (collection : list A) (n tests : nat) (st : St).

Definition ddmin_round (fuel : nat) (collection : list A) (n tests : nat)
    (st : St) : option round_result :=
  if 1 <=? length collection then
    let subset_size := ceil_div (length collection) n in
    match ddmin_scan fuel collection subset_size 0 tests st with
    | None => None
    | Some (ScanExhausted tests st) => Some (RoundReturn collection tests st)
    | Some (ScanRemoved remainder tests st) =>
        Some (RoundNext remainder (Nat.max (n - 1) 2) tests st)
    | Some (ScanDone tests st) =>
        if length collection <=? n
        then Some (RoundReturn collection tests st)
        else Some (RoundNext collection
                     (Nat.min (length collection) (n * 2)) tests st)
    end
  else Some (RoundReturn collection tests st).

Fixpoint ddmin_rounds (fuel : nat) (collection : list A) (n tests : nat)
    (st : St) : option (list A * nat * St) :=
  match fuel with
  | 0 => None
  | S fuel' =>
      match ddmin_round fuel collection n tests st with
      | None => None
      | Some (RoundReturn collection tests st) => Some (collection, tests, st)
      | Some (RoundNext collection n tests st) =>
          ddmin_rounds fuel' collection n tests st
      end
  end.

(** [_ddmin], with fuel for its two loops. *)
Definition ddmin_fuel (fuel : nat) (items : list A) (st : St)
    : option (list A * nat * St) :=
  let collection := items in
  match collection with
  | [] => Some ([], 0, st)
  | _ =>
      match max_tests with
      | Some m =>
          if (m <=? 0)%Z then Some (collection, 0, st)
          else ddmin_rounds fuel collection 2 0 st
      | None => ddmin_rounds fuel collection 2 0 st
      end
  end.

(** Fuel that is enough for a collection of [len] items. *)
Definition ddmin_gas (len : nat) : nat := len * (len + 1) + len + 1.

(** [_ddmin]: [(collection, tests)] and the state the predicate left. *)
Definition _ddmin (items : list A) (st : St) : list A * nat * St :=
  match ddmin_fuel (ddmin_gas (length items)) items st with
  | Some r => r
  | None => (items, 0, st)
  end.
End Ddmin.

(** ** The Python standard library, as far as the program calls it *)

Inductive re_flag : Type := IGNORECASE | MULTILINE.

(** What [json.loads] gives, seen through [isinstance(parsed, dict)]. *)
Inductive json_loaded (V : Type) : Type :=
| JsonDecodeError                       (* raises [json.JSONDecodeError] *)
| JsonNotDict                           (* a list, a string, a number, ... *)
| JsonDict (d : PyDict.t V).
Arguments JsonDecodeError {V}.
Arguments JsonNotDict {V}.
Arguments JsonDict {V} d.

Class PyLib : Type := {
  (** what a decoded body field holds: any JSON value, or a [str] *)
  value : Type;
  v_str : string -> value;
  str_lower : string -> string;
  str_upper : string -> string;
  (** [re.compile(pattern, flag).search(s) is not None]; the patterns of a
      configuration are taken to compile *)
  re_search : re_flag -> string -> string -> bool;
  json_loads : string -> json_loaded value;
  (** [json.dumps(data, separators=(",", ":"))] *)
  json_dumps : PyDict.t value -> string;
  (** [parse_qsl(body, keep_blank_values=True)] *)
  parse_qsl : string -> list (string * string);
  urlencode : PyDict.t value -> string;
}.

(** ** models.py *)

(** An entry of a HAR header list: a dictionary read through
    [header.get("name")] and [header.get("value", "")]. *)
Module Header.
Record t : Type := mk { name : option string; value : option string }.

Definition eqb (a b : t) : bool :=
  bool_decide (name a = name b) && bool_decide (value a = value b).
End Header.

Fixpoint headers_eqb (a b : list Header.t) : bool :=
  match a, b with
  | [], [] => true
  | x :: a', y :: b' => Header.eqb x y && headers_eqb a' b'
  | _, _ => false
  end.

(** [RequestData]; [query] and [raw_entry] are carried through unread by
    the code below and are left out. *)
Module RequestData.
Record t : Type := mk {
  index : Z;
  method : string;
  url : string;
  path : string;
  headers : list Header.t;
  body_text : option string;
  mime_type : option string;
}.
End RequestData.

Module ResponseSnapshot.
Record t : Type := mk {
  status_code : option Z;
  body : option string;
  error : option string;
  elapsed : float;
  headers : PyDict.t string;
}.

Definition length (self : t) : nat :=
  match body self with
  | None => 0
  | Some b => String.length b
  end.

Definition ok (self : t) : bool :=
  match error self, status_code self with
  | None, Some _ => true
  | _, _ => false
  end.
End ResponseSnapshot.

Module MinimizationResult.
Record t : Type := mk {
  headers : list Header.t;
  body_text : option string;
  response : option ResponseSnapshot.t;
  matched : bool;
  header_candidates : nat;
  body_candidates : nat;
  minimized_headers : nat;
  minimized_body_fields : nat;
}.
End MinimizationResult.

(** ** config.py, as the code reads it

    The module is not part of the sources at hand; these are the
    attributes the minimizer and the comparator read. *)

Module ComparatorConfig.
Record t : Type := mk {
  status_code : bool;
  length_check : bool;
  length_tolerance : float;
  need_all : list string;
  need_any : list string;
  regex : list string;
  logic : string;
}.
End ComparatorConfig.

Module HeadersConfig.
Record t : Type := mk {
  enabled : bool;
  protected : list string;
  ignore : list string;
  candidate_regex : list string;
}.
End HeadersConfig.

Module BodyConfig.
Record t : Type := mk {
  enabled : bool;
  body_type : string;
  protected_keys : list string;
  only_keys : list string;
  treat_empty_as_absent : bool;
  try_blank_values : bool;
}.
End BodyConfig.

Module MinimizationConfig.
Record t : Type := mk {
  order : list string;
  headers : HeadersConfig.t;
  body : BodyConfig.t;
}.
End MinimizationConfig.

Module Config.
Record t : Type := mk {
  max_rounds_per_request : Z;
  minimization : MinimizationConfig.t;
}.
End Config.

(** ** comparator.py *)

Module ResponseComparator.
Section Comparator.
Context `{PyLib}.
Variable config : ComparatorConfig.t.

(** [int / int] is the correctly rounded binary64 quotient; for operands
    below [2^53], the only ones a body length can be, it is the quotient
    of the two converted operands. *)
Definition float_of_len (n : nat) : float :=
  PrimFloat.of_uint63 (Uint63.of_Z (Z.of_nat n)).

Definition len_abs_diff (a b : nat) : nat :=
  Z.to_nat (Z.abs (Z.of_nat a - Z.of_nat b)).

Definition _status_equal (base cand : ResponseSnapshot.t) : bool :=
  bool_decide (ResponseSnapshot.status_code base
               = ResponseSnapshot.status_code cand).

Definition _length_within (base cand : ResponseSnapshot.t) : bool :=
  if ResponseSnapshot.length base =? 0 then
    ResponseSnapshot.length cand =? 0
  else
    let delta :=
      PrimFloat.div
        (float_of_len (len_abs_diff (ResponseSnapshot.length base)
                                    (ResponseSnapshot.length cand)))
        (float_of_len (ResponseSnapshot.length base)) in
    PrimFloat.leb delta (ComparatorConfig.length_tolerance config).

Definition _need_all (cand : ResponseSnapshot.t) : bool :=
  match ResponseSnapshot.body cand with
  | None => false
  | Some body =>
      forallb (fun token => str_contains token body)
              (ComparatorConfig.need_all config)
  end.

Definition _need_any (cand : ResponseSnapshot.t) : bool :=
  match ResponseSnapshot.body cand with
  | None => false
  | Some body =>
      existsb (fun token => str_contains token body)
              (ComparatorConfig.need_any config)
  end.

(** [self._regex]: the patterns of the configuration, compiled with
    [re.MULTILINE]. *)
Definition _regex_match (cand : ResponseSnapshot.t) : bool :=
  match ResponseSnapshot.body cand with
  | None => false
  | Some body =>
      forallb (fun pattern => re_search MULTILINE pattern body)
              (ComparatorConfig.regex config)
  end.

(** [bool(xs)] for a list *)
Definition nonempty {X : Type} (xs : list X) : bool :=
  match xs with [] => false | _ => true end.

Definition checks (baseline candidate : ResponseSnapshot.t)
    : list (bool * bool) :=
  [ (ComparatorConfig.status_code config, _status_equal baseline candidate);
    (ComparatorConfig.length_check config, _length_within baseline candidate);
    (nonempty (ComparatorConfig.need_all config), _need_all candidate);
    (nonempty (ComparatorConfig.need_any config), _need_any candidate);
    (nonempty (ComparatorConfig.regex config), _regex_match candidate) ].

Definition equivalent (baseline candidate : ResponseSnapshot.t) : bool :=
  if negb (ResponseSnapshot.ok baseline) || negb (ResponseSnapshot.ok candidate)
  then false
  else
    let active :=
      map snd (List.filter (fun c => fst c) (checks baseline candidate)) in
    match active with
    | [] => true
    | _ =>
        if String.eqb (str_upper (ComparatorConfig.logic config)) "OR"
        then existsb id active
        else forallb id active
    end.
End Comparator.
End ResponseComparator.

(** ** http_client.py: [HttpClient.send] *)

(** What [session.request] is called with. *)
Module Exchange.
Record t : Type := mk {
  method : string;
  url : string;
  headers : PyDict.t string;
  data : option string;
}.
End Exchange.

(** What [session.request] does: it returns a response, or raises a
    [requests.RequestException]. [elapsed] is the time [send] measured. *)
Inductive net_result : Type :=
| NetResponse (status_code : Z) (text : string)
              (headers : PyDict.t string) (elapsed : float)
| NetError (msg : string) (elapsed : float).

Module HttpClient.
(** The client with the endpoint it talks to. [sent] records, oldest
    first, the exchanges issued so far; the program does not read it.
    The rate limiter only delays a call and is not modelled. *)
Record t (Server : Type) : Type := mk {
  server : Server;
  sent : list Exchange.t;
}.
Arguments mk {Server}.
Arguments server {Server}.
Arguments sent {Server}.

Section Client.
Context {Server : Type}.
Variable session_request : Server -> Exchange.t -> net_result * Server.

Definition send (request : RequestData.t) (headers : PyDict.t string)
    (body : option string) (self : t Server)
    : ResponseSnapshot.t * t Server :=
  let x :=
    Exchange.mk (RequestData.method request) (RequestData.url request)
      headers
      (match body with
       | Some b => Some b
       | None => RequestData.body_text request
       end) in
  let '(r, srv) := session_request (server self) x in
  let self := mk srv (sent self ++ [x]) in
  match r with
  | NetResponse status text hs elapsed =>
      (ResponseSnapshot.mk (Some status) (Some text) None elapsed hs, self)
  | NetError msg elapsed =>
      (ResponseSnapshot.mk None None (Some msg) elapsed PyDict.empty, self)
  end.
End Client.
End HttpClient.

(** ** minimizer.py: the helpers *)

Definition str_is_empty (s : string) : bool :=
  match s with EmptyString => true | _ => false end.

(** [not body] for an [Optional[str]] *)
Definition opt_str_falsy (s : option string) : bool :=
  match s with
  | None => true
  | Some s => str_is_empty s
  end.

Definition _headers_list_to_dict (headers : list Header.t) : PyDict.t string :=
  fold_left
    (fun result header =>
       match Header.name header with
       | None => result
       | Some name =>
           if str_is_empty name then result
           else PyDict.set name (default "" (Header.value header)) result
       end)
    headers PyDict.empty.

Section BodyHelpers.
Context `{PyLib}.

Definition resolve_body_kind (request : RequestData.t) (mode : string)
    : string :=
  let mime := str_lower (default "" (RequestData.mime_type request)) in
  if String.eqb mode "auto" then
    if str_contains "json" mime then "json"
    else if str_contains "x-www-form-urlencoded" mime then "form"
    else "raw"
  else mode.

Definition _parse_body (request : RequestData.t) (mode : string)
    : string * option (PyDict.t value) :=
  let body := default "" (RequestData.body_text request) in
  let kind := resolve_body_kind request mode in
  if String.eqb kind "json" then
    match (if str_is_empty body then JsonDict PyDict.empty
           else json_loads body) with
    | JsonDecodeError => ("raw", None)
    | JsonDict parsed => ("json", Some parsed)
    | JsonNotDict => ("raw", None)
    end
  else if String.eqb kind "form" then
    let pairs :=
      PyDict.of_list (map (fun kv => (fst kv, v_str (snd kv))) (parse_qsl body)) in
    ("form", Some pairs)
  else ("raw", None).

Definition _build_body_text (kind : string) (data : option (PyDict.t value))
    : option string :=
  match data with
  | None => None
  | Some data =>
      if String.eqb kind "json" then Some (json_dumps data)
      else if String.eqb kind "form" then Some (urlencode data)
      else None
  end.

Definition count_body_fields (kind : string) (body_text : option string)
    : nat :=
  match body_text with
  | None => 0
  | Some text =>
      if str_is_empty text then 0
      else if String.eqb kind "json" then
        match json_loads text with
        | JsonDecodeError => 0
        | JsonDict parsed => length parsed
        | JsonNotDict => 0
        end
      else if String.eqb kind "form" then length (parse_qsl text)
      else 0
  end.
End BodyHelpers.

(** ** minimizer.py: [RequestMinimizer] *)

Module RequestMinimizer.
Section Minimizer.
Context `{PyLib} {Server : Type}.
Variable session_request : Server -> Exchange.t -> net_result * Server.

(** [self.config] and the configuration of [self.comparator];
    [self.client] is the [HttpClient.t] passed from call to call. *)
Variable config : Config.t.
Variable comparator : ComparatorConfig.t.

Local Abbreviation Net := (HttpClient.t Server).
Local Abbreviation send := (HttpClient.send session_request).
Local Abbreviation equivalent := (ResponseComparator.equivalent comparator).
Local Abbreviation nonempty := ResponseComparator.nonempty.

(** *** Header reduction *)

(** The two tests of the sorting loop that end in [fixed.append(header)]:
    a protected or ignored name, or a name no candidate pattern finds. *)
Definition header_is_fixed (cfg : HeadersConfig.t) (header : Header.t) : bool :=
  let protected := map str_lower (HeadersConfig.protected cfg) in
  let ignored := map str_lower (HeadersConfig.ignore cfg) in
  let regexes := HeadersConfig.candidate_regex cfg in
  let name := str_lower (default "" (Header.name header)) in
  if str_in name protected || str_in name ignored then true
  else if nonempty regexes
          && negb (existsb (fun r => re_search IGNORECASE r name) regexes)
  then true
  else false.

(** The loop that sorts [current_headers] into [(candidates, fixed)]. *)
Definition split_headers (cfg : HeadersConfig.t)
    (current_headers : list Header.t) : list Header.t * list Header.t :=
  fold_left
    (fun acc header =>
       let '(candidates, fixed) := acc in
       if header_is_fixed cfg header
       then (candidates, fixed ++ [header])
       else (candidates ++ [header], fixed))
    current_headers ([], []).

(** The closure [test] of [_minimize_headers]; its state is
    [best_state] and the client. *)
Definition header_test (request : RequestData.t)
    (baseline : ResponseSnapshot.t) (fixed active_headers : list Header.t)
    (st : (list Header.t * ResponseSnapshot.t) * Net)
    : bool * ((list Header.t * ResponseSnapshot.t) * Net) :=
  let '(best_state, net) := st in
  let headers := fixed ++ active_headers in
  let '(response, net) :=
    send request (_headers_list_to_dict headers)
         (RequestData.body_text request) net in
  if equivalent baseline response
  then (true, ((headers, response), net))
  else (false, (best_state, net)).

Definition _minimize_headers (request : RequestData.t)
    (current_headers : list Header.t) (baseline : ResponseSnapshot.t)
    (max_tests : Z) (net : Net)
    : (list Header.t * nat * (list Header.t * ResponseSnapshot.t) * nat) * Net :=
  let cfg := MinimizationConfig.headers (Config.minimization config) in
  let '(candidates, fixed) := split_headers cfg current_headers in
  match candidates with
  | [] => ((current_headers, 0, (current_headers, baseline), 0), net)
  | _ =>
      let best_state := (current_headers, baseline) in
      let '(minimized, tests, (best_state, net)) :=
        _ddmin (header_test request baseline fixed) (Some max_tests)
               candidates (best_state, net) in
      let minimized_headers := fixed ++ minimized in
      let minimized_headers :=
        if negb (headers_eqb (fst best_state) minimized_headers)
        then fst best_state else minimized_headers in
      ((minimized_headers, length candidates, best_state, tests), net)
  end.

(** *** Body reduction *)

(** [k not in protected and (not only or k in only)] *)
Definition body_key_is_candidate (cfg : BodyConfig.t) (k : string) : bool :=
  negb (str_in k (BodyConfig.protected_keys cfg))
  && (negb (nonempty (BodyConfig.only_keys cfg))
      || str_in k (BodyConfig.only_keys cfg)).

(** The closure [build_body] of [_minimize_body]. *)
Definition build_body (cfg : BodyConfig.t) (fixed : PyDict.t value)
    (candidate_keys : list string) (active_items : list (string * value))
    : PyDict.t value :=
  let merged := fixed in
  let active_lookup := PyDict.of_list active_items in
  let merged :=
    fold_left (fun merged kv => PyDict.set (fst kv) (snd kv) merged)
              (PyDict.items active_lookup) merged in
  if negb (BodyConfig.treat_empty_as_absent cfg) then
    fold_left
      (fun merged key =>
         if negb (PyDict.mem key active_lookup)
         then PyDict.set key (v_str "") merged else merged)
      candidate_keys merged
  else merged.

(** The closure [test] of [_minimize_body] and of
    [_try_blank_body_values], over the body map it built. *)
Definition send_body_map {B : Type} (request : RequestData.t)
    (headers : list Header.t) (baseline : ResponseSnapshot.t)
    (kind : string) (accept : option string -> ResponseSnapshot.t -> B)
    (body_map : PyDict.t value) (st : B * Net) : bool * (B * Net) :=
  let '(best_state, net) := st in
  let body_text := _build_body_text kind (Some body_map) in
  let '(response, net) :=
    send request (_headers_list_to_dict headers) body_text net in
  if equivalent baseline response
  then (true, (accept body_text response, net))
  else (false, (best_state, net)).

Definition body_test (request : RequestData.t) (headers : list Header.t)
    (baseline : ResponseSnapshot.t) (kind : string) (cfg : BodyConfig.t)
    (fixed : PyDict.t value) (candidate_keys : list string)
    (active_items : list (string * value))
    (st : (option string * ResponseSnapshot.t) * Net)
    : bool * ((option string * ResponseSnapshot.t) * Net) :=
  send_body_map request headers baseline kind (fun b r => (b, r))
    (build_body cfg fixed candidate_keys active_items) st.

Definition _minimize_body (request : RequestData.t)
    (headers : list Header.t) (baseline : ResponseSnapshot.t)
    (max_tests : Z) (net : Net)
    : (option string * nat * (option string * ResponseSnapshot.t) * nat) * Net :=
  let cfg := MinimizationConfig.body (Config.minimization config) in
  let body_text := RequestData.body_text request in
  let skip := ((body_text, 0, (body_text, baseline), 0), net) in
  let '(kind, parsed) := _parse_body request (BodyConfig.body_type cfg) in
  match parsed with
  | None => skip
  | Some parsed =>
      if PyDict.is_empty parsed then skip
      else
        let candidates :=
          PyDict.filter_keys (body_key_is_candidate cfg) parsed in
        if PyDict.is_empty candidates then skip
        else
          let fixed :=
            PyDict.filter_keys (fun k => negb (PyDict.mem k candidates))
                               parsed in
          let candidate_items := PyDict.items candidates in
          let best_state := (body_text, baseline) in
          let candidate_keys := map fst candidate_items in
          let '(minimized, tests, (best_state, net)) :=
            _ddmin (body_test request headers baseline kind cfg fixed
                              candidate_keys)
                   (Some max_tests) candidate_items (best_state, net) in
          let final_body :=
            match fst best_state with
            | Some b => Some b
            | None =>
                _build_body_text kind
                  (Some (build_body cfg fixed candidate_keys minimized))
            end in
          ((final_body, length candidate_items, best_state, tests), net)
  end.


(** *** Blank-value refinement *)

(** The closure [build_body] of [_try_blank_body_values]: the keys of
    [active_keys] keep their value, the other candidate keys get [""]. *)
Definition blank_build_body (parsed : PyDict.t value)
    (candidate_keys active_keys : list string) : PyDict.t value :=
  let body_map := parsed in
  let keep := active_keys in
  fold_left
    (fun body_map key =>
       if negb (str_in key keep)
       then PyDict.set key (v_str "") body_map else body_map)
    candidate_keys body_map.

Definition blank_test (request : RequestData.t) (headers : list Header.t)
    (baseline : ResponseSnapshot.t) (body_kind : string)
    (parsed : PyDict.t value) (candidate_keys active_keys : list string)
    (st : (option string * option ResponseSnapshot.t) * Net)
    : bool * ((option string * option ResponseSnapshot.t) * Net) :=
  send_body_map request headers baseline body_kind (fun b r => (b, Some r))
    (blank_build_body parsed candidate_keys active_keys) st.

Definition _try_blank_body_values (request : RequestData.t)
    (headers : list Header.t) (baseline : ResponseSnapshot.t)
    (body_kind : string) (current_body : option string) (net : Net)
    : option (option string * ResponseSnapshot.t) * Net :=
  if negb (str_in body_kind ["json"; "form"]) || opt_str_falsy current_body
  then (None, net)
  else
    let cfg := MinimizationConfig.body (Config.minimization config) in
    let text := default "" current_body in
    let parsed :=
      if String.eqb body_kind "json" then
        match json_loads text with
        | JsonDict parsed => Some parsed
        | JsonNotDict => None
        | JsonDecodeError => None
        end
      else
        Some (PyDict.of_list
                (map (fun kv => (fst kv, v_str (snd kv))) (parse_qsl text))) in
    match parsed with
    | None => (None, net)
    | Some parsed =>
        let candidate_keys :=
          List.filter (body_key_is_candidate cfg) (PyDict.keys parsed) in
        match candidate_keys with
        | [] => (None, net)
        | _ =>
            let best_state := (current_body, None) in
            let '(minimized_keep, _, st) :=
              _ddmin (blank_test request headers baseline body_kind parsed
                                 candidate_keys)
                     None candidate_keys (best_state, net) in
            let body_map :=
              blank_build_body parsed candidate_keys minimized_keep in
            let '(_, (best_state, net)) :=
              send_body_map request headers baseline body_kind
                (fun b r => (b, Some r)) body_map st in
            match snd best_state with
            | Some response =>
                if negb (bool_decide (fst best_state = current_body))
                then (Some (fst best_state, response), net)
                else (None, net)
            | None => (None, net)
            end
        end
    end.

(** *** The orchestrator *)

(** What [minimize] holds after the header and the body phase. *)
Record phases : Type := mk_phases {
  headers_state : list Header.t;
  header_candidates : nat;
  best_header_combo : list Header.t * ResponseSnapshot.t;
  body_state : option string;
  body_candidates : nat;
  best_body_combo : option string * ResponseSnapshot.t;
}.

(** Lines 140 to 165 of [minimize]: the two reductions. *)
Definition run_phases (request : RequestData.t)
    (original_headers : list Header.t) (baseline : ResponseSnapshot.t)
    (net : Net) : phases * Net :=
  let minimization := Config.minimization config in
  let remaining_tests := Config.max_rounds_per_request config in
  let headers_state := original_headers in
  let header_candidates := 0 in
  let best_header_combo := (headers_state, baseline) in
  let '(headers_state, header_candidates, best_header_combo,
        remaining_tests, net) :=
    if str_in "headers" (MinimizationConfig.order minimization)
       && HeadersConfig.enabled (MinimizationConfig.headers minimization)
    then
      let '((headers_state, header_candidates, best_header_combo, tests), net) :=
        _minimize_headers request headers_state baseline
                          (Z.max 0 remaining_tests) net in
      (headers_state, header_candidates, best_header_combo,
       Z.max 0 (remaining_tests - Z.of_nat tests), net)
    else (headers_state, header_candidates, best_header_combo,
          remaining_tests, net) in
  let body_state := RequestData.body_text request in
  let body_candidates := 0 in
  let best_body_combo := (body_state, snd best_header_combo) in
  let '(body_state, body_candidates, best_body_combo, net) :=
    if str_in "body" (MinimizationConfig.order minimization)
       && BodyConfig.enabled (MinimizationConfig.body minimization)
    then
      let '((body_state, body_candidates, best_body_combo, _), net) :=
        _minimize_body request headers_state baseline
                       (Z.max 0 remaining_tests) net in
      (body_state, body_candidates, best_body_combo, net)
    else (body_state, body_candidates, best_body_combo, net) in
  (mk_phases headers_state header_candidates best_header_combo
             body_state body_candidates best_body_combo, net).

(** Lines 171 to 189 of [minimize]: the fallback, entered when the final
    check failed. A snapshot is an object without [__bool__] or
    [__len__], so the tests [fallback_body_response and ...] and
    [fallback_response and ...] reduce to the comparator's answer. *)
Definition fallback (request : RequestData.t)
    (original_headers : list Header.t) (baseline : ResponseSnapshot.t)
    (final_headers : list Header.t)
    (best_header_combo : list Header.t * ResponseSnapshot.t)
    (best_body_combo : option string * ResponseSnapshot.t)
    : list Header.t * option string * ResponseSnapshot.t * bool :=
  let '(fallback_headers, fallback_response) := best_header_combo in
  let '(fallback_body, fallback_body_response) := best_body_combo in
  if equivalent baseline fallback_body_response then
    (final_headers, fallback_body, fallback_body_response, true)
  else if equivalent baseline fallback_response then
    (fallback_headers, RequestData.body_text request, fallback_response, true)
  else
    (original_headers, RequestData.body_text request, baseline, true).

(** Lines 167 to 189 of [minimize]: the final check and the fallback. *)
Definition cross_validate (request : RequestData.t)
    (original_headers : list Header.t) (baseline : ResponseSnapshot.t)
    (p : phases) (net : Net)
    : (list Header.t * option string * ResponseSnapshot.t * bool) * Net :=
  let final_headers := headers_state p in
  let final_body := body_state p in
  let '(final_response, net) :=
    send request (_headers_list_to_dict final_headers) final_body net in
  let matched := equivalent baseline final_response in
  if negb matched then
    (fallback request original_headers baseline final_headers
              (best_header_combo p) (best_body_combo p), net)
  else ((final_headers, final_body, final_response, matched), net).

Definition minimize (request : RequestData.t) (net : Net)
    : (ResponseSnapshot.t * MinimizationResult.t) * Net :=
  let original_headers := RequestData.headers request in
  let base_headers_dict := _headers_list_to_dict original_headers in
  let '(baseline, net) :=
    send request base_headers_dict (RequestData.body_text request) net in
  if negb (ResponseSnapshot.ok baseline) then
    let result :=
      MinimizationResult.mk original_headers (RequestData.body_text request)
        (Some baseline) false (length original_headers) 0
        (length original_headers) 0 in
    ((baseline, result), net)
  else
    let body_cfg := MinimizationConfig.body (Config.minimization config) in
    let body_kind := resolve_body_kind request (BodyConfig.body_type body_cfg) in
    let '(p, net) := run_phases request original_headers baseline net in
    let '((final_headers, final_body, final_response, matched), net) :=
      cross_validate request original_headers baseline p net in
    let '(final_body, final_response, matched, net) :=
      if matched && BodyConfig.try_blank_values body_cfg then
        match _try_blank_body_values request final_headers baseline
                body_kind final_body net with
        | (Some (blank_body, blank_response), net) =>
            (blank_body, blank_response,
             equivalent baseline blank_response, net)
        | (None, net) => (final_body, final_response, matched, net)
        end
      else (final_body, final_response, matched, net) in
    let final_body_fields := count_body_fields body_kind final_body in
    let result :=
      MinimizationResult.mk final_headers final_body (Some final_response)
        matched (header_candidates p) (body_candidates p)
        (length final_headers) final_body_fields in
    ((baseline, result), net).
End Minimizer.
End RequestMinimizer.

(** ** A small standard library for the worked examples

    An instance of [PyLib] that agrees with Python on what the examples
    use: ASCII text, compact JSON objects whose keys and values are
    strings without escapes, query strings without percent-encoding, and
    patterns that are plain words. *)

Module ExampleLib.
Definition ascii_lower (c : Ascii.ascii) : Ascii.ascii :=
  let n := Ascii.nat_of_ascii c in
  if (65 <=? n) && (n <=? 90) then Ascii.ascii_of_nat (n + 32) else c.

Definition ascii_upper (c : Ascii.ascii) : Ascii.ascii :=
  let n := Ascii.nat_of_ascii c in
  if (97 <=? n) && (n <=? 122) then Ascii.ascii_of_nat (n - 32) else c.

Fixpoint str_map (f : Ascii.ascii -> Ascii.ascii) (s : string) : string :=
  match s with
  | EmptyString => EmptyString
  | String c s' => String (f c) (str_map f s')
  end.

Definition lower : string -> string := str_map ascii_lower.
Definition upper : string -> string := str_map ascii_upper.

Definition search (flag : re_flag) (pattern s : string) : bool :=
  match flag with
  | IGNORECASE => str_contains (lower pattern) (lower s)
  | MULTILINE => str_contains pattern s
  end.

Definition quote : string := String (Ascii.ascii_of_nat 34) EmptyString.

Definition quoted (s : string) : string := quote +:+ s +:+ quote.

Fixpoint join (sep : string) (l : list string) : string :=
  match l with
  | [] => EmptyString
  | [x] => x
  | x :: l' => x +:+ sep +:+ join sep l'
  end.

Definition dumps (d : PyDict.t string) : string :=
  "{" +:+ join "," (map (fun kv => quoted (fst kv) +:+ ":" +:+ quoted (snd kv)) d)
      +:+ "}".

(** Reads up to the closing quote: the text read and what follows it. *)
Fixpoint read_string (s : string) : option (string * string) :=
  match s with
  | EmptyString => None
  | String c s' =>
      if Ascii.eqb c (Ascii.ascii_of_nat 34) then Some (EmptyString, s')
      else match read_string s' with
           | Some (w, rest) => Some (String c w, rest)
           | None => None
           end
  end.

Definition read_quoted (s : string) : option (string * string) :=
  match s with
  | String c s' =>
      if Ascii.eqb c (Ascii.ascii_of_nat 34) then read_string s' else None
  | EmptyString => None
  end.

Fixpoint loads_members (fuel : nat) (s : string) (acc : PyDict.t string)
    : json_loaded string :=
  match fuel with
  | 0 => JsonDecodeError
  | S fuel' =>
      match read_quoted s with
      | Some (k, String ":"%char s1) =>
          match read_quoted s1 with
          | Some (v, String ","%char s2) =>
              loads_members fuel' s2 (PyDict.set k v acc)
          | Some (v, String "}"%char EmptyString) => JsonDict (PyDict.set k v acc)
          | _ => JsonDecodeError
          end
      | _ => JsonDecodeError
      end
  end.

Definition loads (s : string) : json_loaded string :=
  match s with
  | String "{"%char (String "}"%char EmptyString) => JsonDict PyDict.empty
  | String "{"%char s' => loads_members (String.length s') s' PyDict.empty
  | String "["%char _ => JsonNotDict
  | _ => JsonDecodeError
  end.

(** Splits at the first [sep]: [None] when there is none. *)
Fixpoint split_at (sep : Ascii.ascii) (s : string) : option (string * string) :=
  match s with
  | EmptyString => None
  | String c s' =>
      if Ascii.eqb c sep then Some (EmptyString, s')
      else match split_at sep s' with
           | Some (a, b) => Some (String c a, b)
           | None => None
           end
  end.

Definition qsl_pair (field : string) : list (string * string) :=
  if str_is_empty field then []
  else match split_at "="%char field with
       | Some (k, v) => [(k, v)]
       | None => [(field, EmptyString)]
       end.

Fixpoint qsl_fields (fuel : nat) (s : string) : list (string * string) :=
  match fuel with
  | 0 => []
  | S fuel' =>
      match split_at "&"%char s with
      | Some (a, rest) => qsl_pair a ++ qsl_fields fuel' rest
      | None => qsl_pair s
      end
  end.

Definition qsl (s : string) : list (string * string) :=
  qsl_fields (S (String.length s)) s.

Definition encode (d : PyDict.t string) : string :=
  join "&" (map (fun kv => fst kv +:+ "=" +:+ snd kv) d).

#[export] Instance lib : PyLib := {|
  value := string;
  v_str := fun s => s;
  str_lower := lower;
  str_upper := upper;
  re_search := search;
  json_loads := loads;
  json_dumps := dumps;
  parse_qsl := qsl;
  urlencode := encode;
|}.
End ExampleLib.

(** ** Vocabulary of the statements *)

(** A predicate that also records each call: the collection it was asked
    about and its verdict, oldest first. *)
Definition logged {A St : Type} (test_func : list A -> St -> bool * St)
    (remainder : list A) (st : St * list (list A * bool))
    : bool * (St * list (list A * bool)) :=
  let '(ok, st') := test_func remainder (fst st) in
  (ok, (st', snd st ++ [(remainder, ok)])).

(** The collection of the last accepted call of a record, [items] when no
    call was accepted. *)
Definition last_accepted {A : Type} (items : list A)
    (calls : list (list A * bool)) : list A :=
  fold_left (fun cur (call : list A * bool) =>
               if snd call then fst call else cur) calls items.

(** The measure that decreases from round to round of [_ddmin]. *)
Definition round_measure (len n : nat) : nat := len * (len + 1) + (len - n).

(** A view [proj] of the predicate's state, carried over the answers of
    a pass and of a round. *)
Definition scan_view {A St St' : Type} (proj : St -> St')
    (r : @scan_result A St) : @scan_result A St' :=
  match r with
  | ScanExhausted t s => ScanExhausted t (proj s)
  | ScanRemoved c t s => ScanRemoved c t (proj s)
  | ScanDone t s => ScanDone t (proj s)
  end.

Definition round_view {A St St' : Type} (proj : St -> St')
    (r : @round_result A St) : @round_result A St' :=
  match r with
  | RoundReturn c t s => RoundReturn c t (proj s)
  | RoundNext c n t s => RoundNext c n t (proj s)
  end.

Definition result_view {A St St' : Type} (proj : St -> St')
    (r : list A * nat * St) : list A * nat * St' :=
  (r.1.1, r.1.2, proj r.2).

(** At least one of the comparator's five signals is switched on. *)
Definition signals_enabled (config : ComparatorConfig.t) : bool :=
  ComparatorConfig.status_code config
  || ComparatorConfig.length_check config
  || ResponseComparator.nonempty (ComparatorConfig.need_all config)
  || ResponseComparator.nonempty (ComparatorConfig.need_any config)
  || ResponseComparator.nonempty (ComparatorConfig.regex config).

(** A snapshot meets the requirements the configuration makes of a body:
    the required substrings, one of the "any" substrings, the patterns,
    each where the list is not empty. *)
Definition meets_requirements `{PyLib} (config : ComparatorConfig.t)
    (s : ResponseSnapshot.t) : bool :=
  (negb (ResponseComparator.nonempty (ComparatorConfig.need_all config))
   || ResponseComparator._need_all config s)
  && (negb (ResponseComparator.nonempty (ComparatorConfig.need_any config))
      || ResponseComparator._need_any config s)
  && (negb (ResponseComparator.nonempty (ComparatorConfig.regex config))
      || ResponseComparator._regex_match config s).

(** The binary64 number nearest to 0.1: what Python reads [0.1] as. *)
Definition tenth : float := 0x1.999999999999ap-4%float.

(** A comparator that checks the length only, with the given tolerance. *)
Definition length_only (tolerance : float) : ComparatorConfig.t :=
  ComparatorConfig.mk false true tolerance [] [] [] "AND".

(** A healthy snapshot: status 200 and the body [text]. *)
Definition snapshot_200 (text : string) : ResponseSnapshot.t :=
  ResponseSnapshot.mk (Some 200%Z) (Some text) None 0%float PyDict.empty.

(** A body of [n] characters. *)
Fixpoint filler (n : nat) : string :=
  match n with
  | 0 => EmptyString
  | S n' => String "x"%char (filler n')
  end.

(** The length signal on two lengths, as [_length_within] computes it
    when the baseline is not empty. *)
Definition length_ratio_ok (base_len cand_len : nat) (tolerance : float)
    : bool :=
  PrimFloat.leb
    (PrimFloat.div
       (ResponseComparator.float_of_len
          (ResponseComparator.len_abs_diff base_len cand_len))
       (ResponseComparator.float_of_len base_len))
    tolerance.

(** The value a header list gives the name [n]: that of the last entry
    named [n], the empty string standing for a missing value. *)
Definition header_value_for (n : string) (hs : list Header.t)
    : option string :=
  fold_left
    (fun acc h =>
       if bool_decide (Header.name h = Some n)
       then Some (default "" (Header.value h)) else acc)
    hs None.

(** [net'] is [net] after some more exchanges, each of them a [P]. *)
Definition sends {Server : Type} (P : Exchange.t -> Prop)
    (net net' : HttpClient.t Server) : Prop :=
  exists new,
    HttpClient.sent net' = HttpClient.sent net ++ new /\ Forall P new.

(** An exchange of the header reduction: the mapping of the fixed
    entries followed by some of the candidates, in their order. *)
Definition header_probe (fixed candidates : list Header.t) (x : Exchange.t)
    : Prop :=
  exists active,
    active `sublist_of` candidates
    /\ Exchange.headers x = _headers_list_to_dict (fixed ++ active).

(** An exchange whose headers are the mapping of a header list made of
    entries of [orig]. *)
Definition sends_mapping (orig : list Header.t) (x : Exchange.t) : Prop :=
  exists hs, hs ⊆ orig /\ Exchange.headers x = _headers_list_to_dict hs.

(** The entries named [n]. *)
Definition named (n : string) (h : Header.t) : bool :=
  bool_decide (Header.name h = Some n).

(** [hs] is made of entries of [orig], none more often than there, and
    the entries of one name come in [hs] in the order they have in
    [orig]. *)
Definition in_request_order (orig hs : list Header.t) : Prop :=
  hs ⊆+ orig
  /\ forall n, List.filter (named n) hs `sublist_of` List.filter (named n) orig.


(** ** Data of the worked examples *)

Module Example.
(** An endpoint that answers everything with 200 and the body [ok]. *)
Definition always_ok (srv : unit) (x : Exchange.t) : net_result * unit :=
  (NetResponse 200 "ok" PyDict.empty 0%float, tt).

(** A comparator that checks the status code only. *)
Definition status_only : ComparatorConfig.t :=
  ComparatorConfig.mk true false 0%float [] [] [] "AND".

Definition header (name value : string) : Header.t :=
  Header.mk (Some name) (Some value).

(** Two [Cookie] entries, both protected, and one candidate. *)
Definition cookie_headers : list Header.t :=
  [header "Cookie" "a"; header "Cookie" "b"; header "X-Trace" "1"].

Definition cookie_request : RequestData.t :=
  RequestData.mk 0 "GET" "http://example.test/" "/" cookie_headers None None.

Definition config_with (protected : list string) (body_type : string)
    (treat_empty_as_absent : bool) : Config.t :=
  Config.mk 50
    (MinimizationConfig.mk ["headers"; "body"]
       (HeadersConfig.mk true protected [] [])
       (BodyConfig.mk true body_type [] [] treat_empty_as_absent false)).

Definition protect_cookie : Config.t := config_with ["Cookie"] "auto" true.

Definition fresh : HttpClient.t unit := HttpClient.mk tt [].

(** An endpoint that answers its first [k] requests with 200 and the
    body [ok], and every later one with 500; its state is the number of
    requests it has answered. *)
Definition flaky (k : nat) (served : nat) (x : Exchange.t)
    : net_result * nat :=
  (if served <? k
   then NetResponse 200 "ok" PyDict.empty 0%float
   else NetResponse 500 "down" PyDict.empty 0%float,
   S served).

(** A comparator that requires a word the endpoint never sends. *)
Definition needs_word : ComparatorConfig.t :=
  ComparatorConfig.mk true false 0%float ["zzz"] [] [] "AND".

(** The body of the JSON scenario, written with [ExampleLib.dumps]: the
    text of an opening brace, the fields as quoted key, colon, quoted
    value, separated by commas, and a closing brace. *)
Definition body_abc : string :=
  ExampleLib.dumps [("a", "1"); ("b", "2"); ("c", "3")].

(** The same fields with [a] and [b] blank, in the order of the original
    body, and in the order the reduction builds them. *)
Definition body_blank_in_place : string :=
  ExampleLib.dumps [("a", ""); ("b", ""); ("c", "3")].

Definition body_blank_after : string :=
  ExampleLib.dumps [("c", "3"); ("a", ""); ("b", "")].

Definition body_only_c : string := ExampleLib.dumps [("c", "3")].

(** An endpoint for which only the field [c] matters: 200 when the body
    has the field [c] with the value [3], 400 otherwise. *)
Definition requires_c (srv : unit) (x : Exchange.t) : net_result * unit :=
  (if str_contains
        (ExampleLib.quoted "c" +:+ ":" +:+ ExampleLib.quoted "3")
        (default "" (Exchange.data x))
   then NetResponse 200 "ok" PyDict.empty 0%float
   else NetResponse 400 "bad" PyDict.empty 0%float,
   tt).

Definition json_headers : list Header.t :=
  [header "Content-Type" "application/json"].

Definition abc_request : RequestData.t :=
  RequestData.mk 0 "POST" "http://example.test/" "/" json_headers
    (Some body_abc) (Some "application/json").

(** Removed means blank ([false]) or absent ([true]). *)
Definition json_config (treat_empty_as_absent : bool) : Config.t :=
  config_with ["Content-Type"] "auto" treat_empty_as_absent.

(** A comparator that only requires a word of the candidate. *)
Definition words_only : ComparatorConfig.t :=
  ComparatorConfig.mk false false 0%float ["zzz"] [] [] "AND".

(** A property of a list of numbers: it holds the numbers of [wanted]. *)
Definition holds_all (wanted l : list nat) : bool :=
  forallb (fun n => existsb (Nat.eqb n) l) wanted.

(** A predicate without a state of its own. *)
Definition stateless (P : list nat -> bool) (l : list nat) (st : unit)
    : bool * unit :=
  (P l, st).

(** What [minimize] holds after reductions that kept everything but
    remember an accepted body [b]. *)
Definition remembered_body : RequestMinimizer.phases :=
  RequestMinimizer.mk_phases cookie_headers 1
    (cookie_headers, snapshot_200 "ok") (Some "b") 1
    (Some "b", snapshot_200 "ok").
End Example.

(** * Properties *)

(** ** The engine always returns *)

Section DdminFacts.
Context {A St : Type}.
Variable test_func : list A -> St -> bool * St.
Variable max_tests : option Z.

Local Abbreviation scan := (ddmin_scan test_func max_tests).
Local Abbreviation round := (ddmin_round test_func max_tests).
Local Abbreviation rounds := (ddmin_rounds test_func max_tests).

Lemma ceil_div_pos (len n : nat) : 1 <= len -> 1 <= n -> 1 <= ceil_div len n.
Proof.
  intros Hlen Hn. unfold ceil_div.
  apply Nat.div_le_lower_bound; lia.
Qed.

Lemma remainder_sublist (c : list A) (start size : nat) :
  take start c ++ drop (start + size) c `sublist_of` c.
Proof.
  rewrite <- (take_drop start c) at 3.
  apply sublist_app; [reflexivity|].
  rewrite <- drop_drop. apply sublist_drop.
Qed.

Lemma remainder_shorter (c : list A) (start size : nat) :
  start < length c -> 1 <= size ->
  length (take start c ++ drop (start + size) c) < length c.
Proof.
  intros Hs Hz. rewrite length_app, length_take, length_drop. lia.
Qed.

(** One pass ends, given fuel for the chunks that are left. *)
Lemma ddmin_scan_total (fuel : nat) :
  forall (c : list A) (size start tests : nat) (st : St),
    1 <= size -> length c - start < fuel ->
    exists r, scan fuel c size start tests st = Some r.
Proof.
  induction fuel as [|fuel IH]; intros c size start tests st Hsize Hfuel;
    [lia|].
  simpl. destruct (start <? length c) eqn:Hlt; [|eauto].
  apply Nat.ltb_lt in Hlt.
  destruct (budget_spent max_tests tests); [eauto|].
  destruct (test_func _ st) as [[] st']; [eauto|].
  apply IH; lia.
Qed.

Lemma ddmin_scan_more_fuel (fuel fuel' : nat) :
  forall (c : list A) (size start tests : nat) (st : St) r,
    scan fuel c size start tests st = Some r -> fuel <= fuel' ->
    scan fuel' c size start tests st = Some r.
Proof.
  revert fuel'.
  induction fuel as [|fuel IH]; intros fuel' c size start tests st r Hr Hle;
    [discriminate|].
  destruct fuel' as [|fuel']; [lia|].
  simpl in *. destruct (start <? length c); [|assumption].
  destruct (budget_spent max_tests tests); [assumption|].
  destruct (test_func _ st) as [[] st']; [assumption|].
  apply IH; [assumption|lia].
Qed.

(** What a pass can answer: a removal leaves a shorter subsequence. *)
Lemma ddmin_scan_removed (fuel : nat) :
  forall (c : list A) (size start tests : nat) (st : St) r tests' st',
    1 <= size ->
    scan fuel c size start tests st = Some (ScanRemoved r tests' st') ->
    r `sublist_of` c /\ length r < length c.
Proof.
  induction fuel as [|fuel IH]; intros c size start tests st r tests' st' Hsize Hr;
    [discriminate|].
  simpl in Hr. destruct (start <? length c) eqn:Hlt; [|discriminate].
  apply Nat.ltb_lt in Hlt.
  destruct (budget_spent max_tests tests); [discriminate|].
  destruct (test_func _ st) as [[] st''].
  - inversion Hr; subst.
    split; [apply remainder_sublist|apply remainder_shorter; assumption].
  - eapply IH; eassumption.
Qed.

Lemma ddmin_round_total (fuel : nat) (c : list A) (n tests : nat) (st : St) :
  1 <= n -> length c < fuel -> exists r, round fuel c n tests st = Some r.
Proof.
  intros Hn Hfuel. unfold ddmin_round.
  destruct (1 <=? length c) eqn:Hlen; [|eauto].
  apply Nat.leb_le in Hlen.
  destruct (ddmin_scan_total fuel c (ceil_div (length c) n) 0 tests st)
    as [r Hr]; [apply ceil_div_pos; lia|lia|].
  rewrite Hr. destruct r; eauto.
  destruct (length c <=? n); eauto.
Qed.

Lemma ddmin_round_more_fuel (fuel fuel' : nat) (c : list A) (n tests : nat)
    (st : St) r :
  round fuel c n tests st = Some r -> fuel <= fuel' ->
  round fuel' c n tests st = Some r.
Proof.
  unfold ddmin_round. intros Hr Hle.
  destruct (1 <=? length c); [|assumption].
  destruct (scan fuel c _ 0 tests st) as [sr|] eqn:Hs; [|discriminate].
  rewrite (ddmin_scan_more_fuel _ _ _ _ _ _ _ _ Hs Hle). assumption.
Qed.

(** A round that goes on either shrank the collection or raised [n],
    never above the length of the collection. *)
Lemma ddmin_round_progress (fuel : nat) (c : list A) (n tests : nat) (st : St)
    c' n' tests' st' :
  2 <= n ->
  round fuel c n tests st = Some (RoundNext c' n' tests' st') ->
  2 <= n' /\
  ((c' `sublist_of` c /\ length c' < length c)
   \/ (c' = c /\ n < n' /\ n' <= length c)).
Proof.
  intros Hn Hr. unfold ddmin_round in Hr.
  destruct (1 <=? length c) eqn:Hlen; [|discriminate].
  apply Nat.leb_le in Hlen.
  destruct (scan fuel c _ 0 tests st) as [[t s|r t s|t s]|] eqn:Hs;
    try discriminate.
  - inversion Hr; subst. split; [lia|left].
    eapply ddmin_scan_removed; [|eassumption]. apply ceil_div_pos; lia.
  - destruct (length c <=? n) eqn:Hcap; [discriminate|].
    apply Nat.leb_gt in Hcap.
    inversion Hr; subst. split; [lia|right]. split; [reflexivity|lia].
Qed.

Lemma round_measure_shrink (len len' n n' : nat) :
  len' < len -> round_measure len' n' < round_measure len n.
Proof. unfold round_measure. nia. Qed.

Lemma ddmin_rounds_total (fuel : nat) :
  forall (c : list A) (n tests : nat) (st : St),
    2 <= n -> round_measure (length c) n < fuel ->
    exists r, rounds fuel c n tests st = Some r.
Proof.
  induction fuel as [|fuel IH]; intros c n tests st Hn Hfuel; [lia|].
  cbn [ddmin_rounds].
  destruct (ddmin_round_total (S fuel) c n tests st) as [r Hr];
    [lia|unfold round_measure in Hfuel; nia|].
  rewrite Hr. destruct r as [c' t' s'|c' n' t' s']; [eauto|].
  destruct (ddmin_round_progress _ _ _ _ _ _ _ _ _ Hn Hr)
    as [Hn' [[_ Hshrink]|[-> [Hlt Hcap]]]].
  - apply IH; [assumption|].
    pose proof (round_measure_shrink _ _ n n' Hshrink). lia.
  - apply IH; [assumption|]. unfold round_measure in *. lia.
Qed.

Lemma ddmin_rounds_more_fuel (fuel : nat) :
  forall (fuel' : nat) (c : list A) (n tests : nat) (st : St) r,
    rounds fuel c n tests st = Some r -> fuel <= fuel' ->
    rounds fuel' c n tests st = Some r.
Proof.
  induction fuel as [|fuel IH]; intros fuel' c n tests st r Hr Hle;
    [discriminate|].
  destruct fuel' as [|fuel']; [lia|].
  cbn [ddmin_rounds] in *.
  destruct (round (S fuel) c n tests st) as [rr|] eqn:Hround; [|discriminate].
  rewrite (ddmin_round_more_fuel _ (S fuel') _ _ _ _ _ Hround) by lia.
  destruct rr; [assumption|]. apply IH; [assumption|lia].
Qed.

Lemma ddmin_fuel_total (items : list A) (st : St) :
  exists r, ddmin_fuel test_func max_tests (ddmin_gas (length items)) items st
            = Some r.
Proof.
  unfold ddmin_fuel. destruct items as [|x items]; [eauto|].
  assert (Hgas : round_measure (length (x :: items)) 2
                 < ddmin_gas (length (x :: items)))
    by (unfold round_measure, ddmin_gas; lia).
  pose proof (ddmin_rounds_total _ (x :: items) 2 0 st (le_n 2) Hgas) as Hr.
  destruct max_tests as [m|]; [destruct (m <=? 0)%Z; [eauto|]|]; exact Hr.
Qed.

Lemma ddmin_fuel_more_fuel (fuel fuel' : nat) (items : list A) (st : St) r :
  ddmin_fuel test_func max_tests fuel items st = Some r -> fuel <= fuel' ->
  ddmin_fuel test_func max_tests fuel' items st = Some r.
Proof.
  unfold ddmin_fuel. intros Hr Hle. destruct items as [|x items]; [assumption|].
  pose proof (ddmin_rounds_more_fuel fuel fuel' (x :: items) 2 0 st r) as Hmore.
  destruct max_tests as [m|]; [destruct (m <=? 0)%Z; [assumption|]|];
    apply Hmore; assumption.
Qed.

(** [_ddmin] is what the loops return as soon as they have fuel enough. *)
Lemma ddmin_fuel_enough (fuel : nat) (items : list A) (st : St) :
  ddmin_gas (length items) <= fuel ->
  ddmin_fuel test_func max_tests fuel items st
  = Some (_ddmin test_func max_tests items st).
Proof.
  intros Hle. unfold _ddmin.
  destruct (ddmin_fuel_total items st) as [r Hr]. rewrite Hr.
  eapply ddmin_fuel_more_fuel; eassumption.
Qed.
End DdminFacts.

(** ** An induction principle for the engine

    A property [J] of the current collection, the tests counted so far
    and the predicate's state holds when [_ddmin] returns, if it holds at
    the start and every call of the predicate keeps it: the call is made
    with budget left, on a shorter subsequence [r] of the collection [c],
    and the collection becomes [r] exactly when the call accepts. *)

Section DdminInvariant.
Context {A St : Type}.
Variable test_func : list A -> St -> bool * St.
Variable max_tests : option Z.
Variable J : list A -> nat -> St -> Prop.

Hypothesis J_step : forall c tests st r ok st',
  J c tests st -> budget_spent max_tests tests = false ->
  r `sublist_of` c -> length r < length c ->
  test_func r st = (ok, st') ->
  J (if ok then r else c) (S tests) st'.

Lemma ddmin_scan_inv (fuel : nat) :
  forall (c : list A) (size start tests : nat) (st : St) res,
    1 <= size -> J c tests st ->
    ddmin_scan test_func max_tests fuel c size start tests st = Some res ->
    match res with
    | ScanExhausted t s => J c t s
    | ScanRemoved r t s => J r t s
    | ScanDone t s => J c t s
    end.
Proof.
  induction fuel as [|fuel IH]; intros c size start tests st res Hsize HJ Hres;
    [discriminate|].
  simpl in Hres. destruct (start <? length c) eqn:Hlt.
  - apply Nat.ltb_lt in Hlt.
    destruct (budget_spent max_tests tests) eqn:Hb.
    + inversion Hres; subst. exact HJ.
    + destruct (test_func _ st) as [ok st'] eqn:Ht.
      pose proof (J_step _ _ _ _ _ _ HJ Hb (remainder_sublist c start size)
                    (remainder_shorter c start size Hlt Hsize) Ht) as HJ'.
      destruct ok.
      * inversion Hres; subst. exact HJ'.
      * eapply IH; eassumption.
  - inversion Hres; subst. exact HJ.
Qed.

Lemma ddmin_round_inv (fuel : nat) (c : list A) (n tests : nat) (st : St) rr :
  1 <= n -> J c tests st ->
  ddmin_round test_func max_tests fuel c n tests st = Some rr ->
  match rr with
  | RoundReturn c' t s => J c' t s
  | RoundNext c' _ t s => J c' t s
  end.
Proof.
  intros Hn HJ Hrr. unfold ddmin_round in Hrr.
  destruct (1 <=? length c) eqn:Hlen.
  - apply Nat.leb_le in Hlen.
    destruct (ddmin_scan _ _ fuel c _ 0 tests st) as [sr|] eqn:Hs;
      [|discriminate].
    pose proof (ddmin_scan_inv _ _ _ _ _ _ _
                  (ceil_div_pos _ _ Hlen Hn) HJ Hs) as Hsr.
    destruct sr as [t s|r t s|t s].
    + inversion Hrr; subst. exact Hsr.
    + inversion Hrr; subst. exact Hsr.
    + destruct (length c <=? n); inversion Hrr; subst; exact Hsr.
  - inversion Hrr; subst. exact HJ.
Qed.

Lemma ddmin_rounds_inv (fuel : nat) :
  forall (c : list A) (n tests : nat) (st : St) c' tests' st',
    2 <= n -> J c tests st ->
    ddmin_rounds test_func max_tests fuel c n tests st = Some (c', tests', st') ->
    J c' tests' st'.
Proof.
  induction fuel as [|fuel IH]; intros c n tests st c' tests' st' Hn HJ Hr;
    [discriminate|].
  cbn [ddmin_rounds] in Hr.
  destruct (ddmin_round _ _ (S fuel) c n tests st) as [rr|] eqn:Hround;
    [|discriminate].
  assert (Hn1 : 1 <= n) by lia.
  pose proof (ddmin_round_inv _ _ _ _ _ _ Hn1 HJ Hround) as Hrr.
  destruct rr as [c1 t1 s1|c1 n1 t1 s1].
  - inversion Hr; subst. exact Hrr.
  - destruct (ddmin_round_progress _ _ _ _ _ _ _ _ _ _ _ Hn Hround) as [Hn' _].
    eapply IH; eassumption.
Qed.

Lemma ddmin_inv (items : list A) (st : St) :
  J items 0 st ->
  J (_ddmin test_func max_tests items st).1.1
    (_ddmin test_func max_tests items st).1.2
    (_ddmin test_func max_tests items st).2.
Proof.
  intros HJ.
  pose proof (ddmin_fuel_enough test_func max_tests _ items st (le_n _)) as Hr.
  destruct (_ddmin test_func max_tests items st) as [[c t] s]. simpl.
  unfold ddmin_fuel in Hr. destruct items as [|x items].
  - inversion Hr; subst. exact HJ.
  - assert (Hrounds : ddmin_rounds test_func max_tests
                        (ddmin_gas (length (x :: items))) (x :: items) 2 0 st
                      = Some (c, t, s) -> J c t s)
      by (intros H; eapply ddmin_rounds_inv; [| |exact H]; [lia|exact HJ]).
    destruct max_tests as [m|]; [destruct (m <=? 0)%Z|]; auto.
    inversion Hr; subst. exact HJ.
Qed.
End DdminInvariant.

(** ** Two predicates that agree through a view of their states

    When [test2] answers on the view [proj s] what [test1] answers on
    [s], and leaves the view of what [test1] leaves, the engine runs the
    same way on both. *)

Section DdminSimulation.
Context {A St1 St2 : Type}.
Variable test1 : list A -> St1 -> bool * St1.
Variable test2 : list A -> St2 -> bool * St2.
Variable proj : St1 -> St2.
Variable max_tests : option Z.

Hypothesis agree : forall r s,
  test2 r (proj s) = ((test1 r s).1, proj (test1 r s).2).

Lemma ddmin_scan_view (fuel : nat) :
  forall (c : list A) (size start tests : nat) (s : St1),
    ddmin_scan test2 max_tests fuel c size start tests (proj s)
    = option_map (scan_view proj)
        (ddmin_scan test1 max_tests fuel c size start tests s).
Proof.
  induction fuel as [|fuel IH]; intros c size start tests s; [reflexivity|].
  simpl. destruct (start <? length c); [|reflexivity].
  destruct (budget_spent max_tests tests); [reflexivity|].
  rewrite agree. destruct (test1 _ s) as [[] s']; simpl; [reflexivity|].
  apply IH.
Qed.

Lemma ddmin_round_view (fuel : nat) (c : list A) (n tests : nat) (s : St1) :
  ddmin_round test2 max_tests fuel c n tests (proj s)
  = option_map (round_view proj)
      (ddmin_round test1 max_tests fuel c n tests s).
Proof.
  unfold ddmin_round. destruct (1 <=? length c); [|reflexivity].
  rewrite ddmin_scan_view.
  destruct (ddmin_scan test1 _ fuel c _ 0 tests s) as [[| |]|]; simpl;
    try reflexivity.
  destruct (length c <=? n); reflexivity.
Qed.

Lemma ddmin_rounds_view (fuel : nat) :
  forall (c : list A) (n tests : nat) (s : St1),
    ddmin_rounds test2 max_tests fuel c n tests (proj s)
    = option_map (result_view proj)
        (ddmin_rounds test1 max_tests fuel c n tests s).
Proof.
  induction fuel as [|fuel IH]; intros c n tests s; [reflexivity|].
  cbn [ddmin_rounds]. rewrite ddmin_round_view.
  destruct (ddmin_round test1 _ (S fuel) c n tests s) as [[|]|]; simpl;
    try reflexivity.
  apply IH.
Qed.

Lemma ddmin_view (items : list A) (s : St1) :
  _ddmin test2 max_tests items (proj s)
  = result_view proj (_ddmin test1 max_tests items s).
Proof.
  pose proof (ddmin_fuel_enough test1 max_tests _ items s (le_n _)) as H1.
  pose proof (ddmin_fuel_enough test2 max_tests _ items (proj s) (le_n _)) as H2.
  destruct (_ddmin test1 max_tests items s) as [[c1 t1] s1].
  destruct (_ddmin test2 max_tests items (proj s)) as [[c2 t2] s2].
  unfold ddmin_fuel in H1, H2.
  assert (Hv : forall fuel,
             ddmin_rounds test2 max_tests fuel items 2 0 (proj s)
             = option_map (result_view proj)
                 (ddmin_rounds test1 max_tests fuel items 2 0 s))
    by (intros; apply ddmin_rounds_view).
  destruct items as [|x items].
  - inversion H1; inversion H2; subst. reflexivity.
  - destruct max_tests as [m|]; [destruct (m <=? 0)%Z|].
    + inversion H1; inversion H2; subst. reflexivity.
    + rewrite Hv, H1 in H2. inversion H2; subst. reflexivity.
    + rewrite Hv, H1 in H2. inversion H2; subst. reflexivity.
Qed.
End DdminSimulation.

(** ** What the engine returns *)

Section DdminResults.
Context {A St : Type}.
Variable test_func : list A -> St -> bool * St.
Variable max_tests : option Z.

Lemma ddmin_sublist (items : list A) (st : St) :
  (_ddmin test_func max_tests items st).1.1 `sublist_of` items.
Proof.
  apply (ddmin_inv test_func max_tests (fun c _ _ => c `sublist_of` items));
    [|reflexivity].
  intros c tests s r ok s' Hc _ Hr _ _.
  destruct ok; [|assumption]. etransitivity; eassumption.
Qed.

Lemma ddmin_empty (st : St) : _ddmin test_func max_tests [] st = ([], 0, st).
Proof. reflexivity. Qed.

Lemma ddmin_tests_bound (b : Z) (items : list A) (st : St) :
  max_tests = Some b -> (0 < b)%Z ->
  (Z.of_nat (_ddmin test_func max_tests items st).1.2 <= b)%Z.
Proof.
  intros Hmt Hb.
  apply (ddmin_inv test_func max_tests (fun _ t _ => (Z.of_nat t <= b)%Z));
    [|simpl; lia].
  intros c tests s r ok s' Ht Hspent _ _ _.
  unfold budget_spent in Hspent. rewrite Hmt in Hspent.
  apply Z.leb_gt in Hspent. lia.
Qed.

(** A property of the predicate's state alone survives the engine. *)
Lemma ddmin_state_inv (I : St -> Prop) (items : list A) (st : St) :
  (forall r s, I s -> I (test_func r s).2) ->
  I st -> I (_ddmin test_func max_tests items st).2.
Proof.
  intros Hkeep Hst.
  apply (ddmin_inv test_func max_tests (fun _ _ s => I s)); [|assumption].
  intros c tests s r ok s' Hs _ _ _ Ht.
  specialize (Hkeep r s Hs). rewrite Ht in Hkeep. exact Hkeep.
Qed.

(** The same, for a property that may mention the collections the
    predicate is asked about: subsequences of [items]. *)
Lemma ddmin_state_inv_sub (I : St -> Prop) (items : list A) (st : St) :
  (forall r s, r `sublist_of` items -> I s -> I (test_func r s).2) ->
  I st -> I (_ddmin test_func max_tests items st).2.
Proof.
  intros Hkeep Hst.
  apply (ddmin_inv test_func max_tests
           (fun c _ s => c `sublist_of` items /\ I s)); [|split; auto].
  intros c tests s r ok s' [Hc Hs] _ Hr _ Ht.
  assert (Hri : r `sublist_of` items) by (etransitivity; eassumption).
  specialize (Hkeep r s Hri Hs). rewrite Ht in Hkeep.
  destruct ok; auto.
Qed.
End DdminResults.

Lemma ddmin_nonpositive_budget {A St : Type}
    (test_func : list A -> St -> bool * St) (b : Z) (items : list A) (st : St) :
  (b <= 0)%Z -> _ddmin test_func (Some b) items st = (items, 0, st).
Proof.
  intros Hb. unfold _ddmin, ddmin_fuel.
  destruct items as [|x items]; [reflexivity|].
  apply Z.leb_le in Hb. rewrite Hb. reflexivity.
Qed.

Lemma last_accepted_snoc {A : Type} (items : list A) calls r (ok : bool) :
  last_accepted items (calls ++ [(r, ok)])
  = if ok then r else last_accepted items calls.
Proof. unfold last_accepted. rewrite fold_left_app. reflexivity. Qed.

(** With the calls recorded: the count of tests is the number of calls,
    and the collection returned is the one last accepted. *)
Lemma ddmin_logged_calls {A St : Type} (test_func : list A -> St -> bool * St)
    (max_tests : option Z) (items : list A) (st : St) :
  let r := _ddmin (logged test_func) max_tests items (st, []) in
  r.1.2 = length r.2.2 /\ r.1.1 = last_accepted items r.2.2.
Proof.
  apply (ddmin_inv (logged test_func) max_tests
           (fun c t s => t = length s.2 /\ c = last_accepted items s.2));
    [|split; reflexivity].
  intros c tests [s calls] r ok s' [Ht Hc] _ _ _ Hcall.
  unfold logged in Hcall. simpl in Hcall.
  destruct (test_func r s) as [ok' s1]. inversion Hcall; subst. simpl.
  rewrite length_app, last_accepted_snoc. simpl.
  split; [lia|]. destruct ok; reflexivity.
Qed.

Lemma ddmin_logged_same {A St : Type} (test_func : list A -> St -> bool * St)
    (max_tests : option Z) (items : list A) (st : St) calls :
  _ddmin test_func max_tests items st
  = result_view fst (_ddmin (logged test_func) max_tests items (st, calls)).
Proof.
  assert (Hagree : forall r (s : St * list (list A * bool)),
             test_func r s.1
             = ((logged test_func r s).1, (logged test_func r s).2.1)).
  { intros r [s l]. unfold logged. simpl.
    destruct (test_func r s); reflexivity. }
  exact (ddmin_view (logged test_func) test_func fst max_tests
           Hagree items (st, calls)).
Qed.


(** C3. For every input sequence, predicate and budget, [_ddmin] returns
    a subsequence of its input (some of its elements, in their original
    order); for the empty sequence it returns the empty sequence with
    zero tests and without calling the predicate; and for a budget that
    is zero or negative it returns the input unchanged with zero tests,
    again without calling the predicate. *)
Theorem ddmin_returns_subsequence {A St : Type}
    (test_func : list A -> St -> bool * St) (max_tests : option Z)
    (items : list A) (st : St) :
  (_ddmin test_func max_tests items st).1.1 `sublist_of` items
  /\ _ddmin test_func max_tests [] st = ([], 0, st)
  /\ (forall b : Z, (b <= 0)%Z ->
        _ddmin test_func (Some b) items st = (items, 0, st)).
Proof.
  split; [apply ddmin_sublist|].
  split; [apply ddmin_empty|].
  intros b Hb. apply ddmin_nonpositive_budget. exact Hb.
Qed.

Lemma ddmin_returns_subsequence_witness :
  _ddmin (fun (_ : list nat) (st : unit) => (true, st)) (Some (-1)%Z)
         [1; 2; 3] tt
  = ([1; 2; 3], 0, tt).
Proof.
  apply (proj2 (proj2 (ddmin_returns_subsequence
                         (fun (_ : list nat) (st : unit) => (true, st))
                         None [1; 2; 3] tt))).
  lia.
Defined.

(** C4. In [_ddmin] every call of the predicate counts as one test: the
    count returned is the number of calls made (seen by recording the
    calls, which changes nothing else). With a positive budget [b] the
    count never exceeds [b]. The collection returned is the one of the
    last accepted call, the input when none was accepted; and a pass that
    finds the budget spent stops at once, before any further call, and
    makes the engine return the collection it holds at that moment. *)
Theorem ddmin_budget {A St : Type}
    (test_func : list A -> St -> bool * St) (max_tests : option Z)
    (items : list A) (st : St) :
  let run := _ddmin (logged test_func) max_tests items (st, []) in
  _ddmin test_func max_tests items st = result_view fst run
  /\ run.1.2 = length run.2.2
  /\ run.1.1 = last_accepted items run.2.2
  /\ (forall b : Z, max_tests = Some b -> (0 < b)%Z ->
        (Z.of_nat (_ddmin test_func max_tests items st).1.2 <= b)%Z)
  /\ (forall fuel c size start tests s,
        budget_spent max_tests tests = true -> start < length c ->
        ddmin_scan test_func max_tests (S fuel) c size start tests s
        = Some (ScanExhausted tests s))
  /\ (forall fuel c n tests s tests' s',
        1 <= length c ->
        ddmin_scan test_func max_tests (S fuel) c (ceil_div (length c) n)
                   0 tests s
        = Some (ScanExhausted tests' s') ->
        ddmin_rounds test_func max_tests (S fuel) c n tests s
        = Some (c, tests', s')).
Proof.
  intros run.
  split; [apply ddmin_logged_same|].
  split; [apply (ddmin_logged_calls test_func max_tests items st)|].
  split; [apply (ddmin_logged_calls test_func max_tests items st)|].
  split; [intros b Hmt Hb; apply ddmin_tests_bound; assumption|].
  split.
  - intros fuel c size start tests s Hspent Hlt.
    apply Nat.ltb_lt in Hlt. simpl. rewrite Hlt, Hspent. reflexivity.
  - intros fuel c n tests s tests' s' Hlen Hscan.
    apply Nat.leb_le in Hlen.
    cbn [ddmin_rounds]. unfold ddmin_round. rewrite Hlen, Hscan. reflexivity.
Qed.

Lemma ddmin_budget_witness :
  Z.le (Z.of_nat (_ddmin (fun (_ : list nat) (st : unit) => (true, st))
                         (Some 1%Z) [1; 2; 3; 4] tt).1.2) 1%Z.
Proof.
  apply (proj1 (proj2 (proj2 (proj2
           (ddmin_budget (fun (_ : list nat) (st : unit) => (true, st))
                         (Some 1%Z) [1; 2; 3; 4] tt))))
           1%Z); [reflexivity|lia].
Defined.

(** With a budget of one test and a predicate that accepts everything,
    four items lose their first half and the engine stops there: the
    partial result is returned, not the input. *)
Example ddmin_partial_progress :
  _ddmin (fun (_ : list nat) (st : unit) => (true, st)) (Some 1%Z)
         [1; 2; 3; 4] tt
  = ([3; 4], 1, tt).
Proof. vm_compute. reflexivity. Qed.

(** C10. [_ddmin] returns for every finite input and every predicate,
    with a budget or without one ([max_tests = None], as in the
    blank-value pass): its loops, run with [ddmin_gas] units of fuel or
    more, give the result. A round that does not return either leaves a
    strictly shorter collection or leaves the collection as it is and
    strictly raises [n], never above the length of the collection; so the
    measure [round_measure] strictly decreases from round to round. *)
Theorem ddmin_terminates {A St : Type}
    (test_func : list A -> St -> bool * St) (max_tests : option Z)
    (items : list A) (st : St) :
  (forall fuel, ddmin_gas (length items) <= fuel ->
     ddmin_fuel test_func max_tests fuel items st
     = Some (_ddmin test_func max_tests items st))
  /\ (forall fuel c n tests s c' n' tests' s',
        2 <= n ->
        ddmin_round test_func max_tests fuel c n tests s
        = Some (RoundNext c' n' tests' s') ->
        2 <= n'
        /\ (length c' < length c \/ (c' = c /\ n < n' /\ n' <= length c))
        /\ round_measure (length c') n' < round_measure (length c) n).
Proof.
  split; [intros fuel Hfuel; apply ddmin_fuel_enough; exact Hfuel|].
  intros fuel c n tests s c' n' tests' s' Hn Hround.
  destruct (ddmin_round_progress _ _ _ _ _ _ _ _ _ _ _ Hn Hround)
    as [Hn' [[_ Hshrink]|[-> [Hlt Hcap]]]].
  - split; [exact Hn'|]. split; [left; exact Hshrink|].
    apply round_measure_shrink. exact Hshrink.
  - split; [exact Hn'|]. split; [right; auto|].
    unfold round_measure. lia.
Qed.

Lemma ddmin_terminates_witness :
  ddmin_fuel (fun (_ : list nat) (st : unit) => (false, st)) None
             (ddmin_gas 3) [1; 2; 3] tt
  = Some (_ddmin (fun (_ : list nat) (st : unit) => (false, st)) None
                 [1; 2; 3] tt).
Proof.
  apply (proj1 (ddmin_terminates
                  (fun (_ : list nat) (st : unit) => (false, st)) None
                  [1; 2; 3] tt)).
  simpl. lia.
Defined.

(** ** Binary64: a zero quotient

    [0 / n] is [+0.0] for every positive integer [n] below [2^63]: the
    conversion of [n] is positive, finite or infinite, never zero or NaN. *)

Section ZeroQuotient.
Local Open Scope Z_scope.

Lemma shr_1_m r : 0 <= shr_m r -> shr_m (shr_1 r) = shr_m r / 2.
Proof.
  destruct r as [m r s]. simpl. intros Hm.
  destruct m as [|p|p]; [reflexivity| |lia].
  destruct p as [p|p|]; simpl shr_m.
  - rewrite Pos2Z.inj_xI. apply (Z.div_unique _ 2 _ 1); lia.
  - rewrite Pos2Z.inj_xO. apply (Z.div_unique _ 2 _ 0); lia.
  - reflexivity.
Qed.

Lemma pow2_xI k : 2 ^ Zpos k~1 = 2 * (2 ^ Zpos k * 2 ^ Zpos k).
Proof.
  assert (Zpos k~1 = 1 + (Zpos k + Zpos k)) as -> by lia.
  rewrite !Z.pow_add_r by lia. reflexivity.
Qed.

Lemma pow2_xO k : 2 ^ Zpos k~0 = 2 ^ Zpos k * 2 ^ Zpos k.
Proof.
  assert (Zpos k~0 = Zpos k + Zpos k) as -> by lia.
  rewrite Z.pow_add_r by lia. reflexivity.
Qed.

Lemma iter_shr_m k : forall r, 0 <= shr_m r ->
  shr_m (SpecFloat.iter_pos shr_1 k r) = shr_m r / 2 ^ Zpos k.
Proof.
  induction k as [k IH|k IH|]; intros r Hr; simpl SpecFloat.iter_pos.
  - assert (H1 : 0 <= shr_m (shr_1 r))
      by (rewrite shr_1_m by assumption; apply Z.div_pos; lia).
    assert (H2 : 0 <= shr_m (SpecFloat.iter_pos shr_1 k (shr_1 r)))
      by (rewrite IH by assumption; apply Z.div_pos; lia).
    rewrite IH, IH, shr_1_m by assumption.
    rewrite pow2_xI, !Z.div_div by lia. reflexivity.
  - assert (H2 : 0 <= shr_m (SpecFloat.iter_pos shr_1 k r))
      by (rewrite IH by assumption; apply Z.div_pos; lia).
    rewrite IH, IH by assumption.
    rewrite pow2_xO, !Z.div_div by lia. reflexivity.
  - rewrite shr_1_m by assumption. reflexivity.
Qed.

Lemma digits2_lower m : 2 ^ (Zpos (digits2_pos m) - 1) <= Zpos m.
Proof.
  induction m as [m IH|m IH|]; simpl digits2_pos.
  - rewrite Pos2Z.inj_succ.
    replace (Z.succ (Zpos (digits2_pos m)) - 1)
      with (Z.succ (Zpos (digits2_pos m) - 1)) by lia.
    rewrite Z.pow_succ_r by lia. lia.
  - rewrite Pos2Z.inj_succ.
    replace (Z.succ (Zpos (digits2_pos m)) - 1)
      with (Z.succ (Zpos (digits2_pos m) - 1)) by lia.
    rewrite Z.pow_succ_r by lia. lia.
  - simpl. lia.
Qed.

(** Shifting out fewer bits than the mantissa has leaves it positive. *)
Lemma shr_keeps_positive m r s e k :
  k < Zpos (digits2_pos m) ->
  exists m', shr_m (fst (shr (Build_shr_record (Zpos m) r s) e k)) = Zpos m'.
Proof.
  intros Hk. unfold shr.
  destruct k as [|k|k]; simpl fst; try (eexists; reflexivity).
  rewrite iter_shr_m by (simpl; lia). simpl shr_m.
  assert (Hle : 2 ^ Zpos k <= Zpos m).
  { etransitivity; [|apply digits2_lower]. apply Z.pow_le_mono_r; lia. }
  assert (Hq : 1 <= Zpos m / 2 ^ Zpos k)
    by (apply Z.div_le_lower_bound; lia).
  destruct (Zpos m / 2 ^ Zpos k) as [|q|q]; try lia. eexists; reflexivity.
Qed.

Lemma shr_exp mrs e k : e <= snd (shr mrs e k).
Proof. unfold shr. destruct k; simpl; lia. Qed.

Lemma shr_fexp_positive m e :
  -1000 <= e ->
  exists m', shr_m (fst (shr_fexp prec emax (Zpos m) e loc_Exact)) = Zpos m'
             /\ e <= snd (shr_fexp prec emax (Zpos m) e loc_Exact).
Proof.
  intros He. unfold shr_fexp. simpl shr_record_of_loc. simpl Zdigits2.
  destruct (shr_keeps_positive m false false e
              (fexp prec emax (Zpos (digits2_pos m) + e) - e)) as [m' Hm'].
  { unfold fexp, emin, prec, emax. lia. }
  exists m'. split; [exact Hm'|apply shr_exp].
Qed.

Lemma round_nearest_even_positive m l :
  exists m', round_nearest_even (Zpos m) l = Zpos m'.
Proof.
  unfold round_nearest_even.
  destruct l as [|[]]; try (eexists; reflexivity).
  destruct (Z.even (Zpos m)); eexists; reflexivity.
Qed.

Lemma binary_round_aux_positive m e :
  -1000 <= e ->
  match binary_round_aux prec emax false (Zpos m) e loc_Exact with
  | S754_finite false _ _ | S754_infinity false => True
  | _ => False
  end.
Proof.
  intros He. unfold binary_round_aux.
  destruct (shr_fexp_positive m e He) as [m1 [Hm1 He1]].
  destruct (shr_fexp prec emax (Zpos m) e loc_Exact) as [mrs1 e1].
  simpl in Hm1, He1. rewrite Hm1.
  destruct (round_nearest_even_positive m1 (loc_of_shr_record mrs1))
    as [m2 Hm2].
  rewrite Hm2.
  destruct (shr_fexp_positive m2 e1 ltac:(lia)) as [m3 [Hm3 _]].
  destruct (shr_fexp prec emax (Zpos m2) e1 loc_Exact) as [mrs3 e3].
  simpl in Hm3. rewrite Hm3.
  destruct (e3 <=? emax - prec); exact I.
Qed.

Lemma binary_normalize_positive z :
  0 < z ->
  match binary_normalize prec emax z 0 false with
  | S754_finite false _ _ | S754_infinity false => True
  | _ => False
  end.
Proof.
  intros Hz. destruct z as [|p|p]; try lia. simpl binary_normalize.
  unfold binary_round.
  destruct (shl_align p 0 (fexp prec emax (Zpos (digits2_pos p) + 0)))
    as [mz ez] eqn:Hal.
  apply binary_round_aux_positive.
  unfold shl_align in Hal.
  destruct (fexp prec emax (Zpos (digits2_pos p) + 0) - 0) eqn:Hd;
    inversion Hal; subst; try lia.
  unfold fexp, emin, prec, emax. lia.
Qed.

Lemma zero_div_of_uint63 n :
  0 < Uint63.to_Z n ->
  PrimFloat.div (PrimFloat.of_uint63 (Uint63.of_Z 0)) (PrimFloat.of_uint63 n)
  = PrimFloat.zero.
Proof.
  intros Hn. apply Prim2SF_inj.
  rewrite FloatAxioms.div_spec, !of_uint63_spec.
  pose proof (binary_normalize_positive _ Hn) as Hy.
  destruct (binary_normalize prec emax (Uint63.to_Z n) 0 false)
    as [s|s| |s m e];
    try contradiction; destruct s; try contradiction; reflexivity.
Qed.
End ZeroQuotient.

(** ** The comparator *)

Import ResponseComparator.

Lemma float_of_len_zero : float_of_len 0 = PrimFloat.of_uint63 (Uint63.of_Z 0).
Proof. reflexivity. Qed.

Lemma len_abs_diff_self n : len_abs_diff n n = 0.
Proof. unfold len_abs_diff. lia. Qed.

Lemma length_within_self (config : ComparatorConfig.t) (s : ResponseSnapshot.t) :
  PrimFloat.leb 0 (ComparatorConfig.length_tolerance config) = true ->
  (Z.of_nat (ResponseSnapshot.length s) < 2 ^ 63)%Z ->
  _length_within config s s = true.
Proof.
  intros Htol Hlen. unfold _length_within.
  destruct (ResponseSnapshot.length s =? 0) eqn:Hz; [reflexivity|].
  apply Nat.eqb_neq in Hz.
  rewrite len_abs_diff_self, float_of_len_zero.
  unfold float_of_len. rewrite zero_div_of_uint63; [exact Htol|].
  rewrite Uint63.of_Z_spec, Z.mod_small; [lia|].
  split; [lia|exact Hlen].
Qed.

Section Facts.
Context `{PyLib}.

Lemma equivalent_unhealthy config a b :
  ResponseSnapshot.ok a = false \/ ResponseSnapshot.ok b = false ->
  equivalent config a b = false.
Proof.
  intros [Ha|Hb]; unfold equivalent.
  - rewrite Ha. reflexivity.
  - rewrite Hb, orb_true_r. reflexivity.
Qed.

Lemma equivalent_no_signal config a b :
  signals_enabled config = false ->
  ResponseSnapshot.ok a = true -> ResponseSnapshot.ok b = true ->
  equivalent config a b = true.
Proof.
  unfold signals_enabled, equivalent, checks. intros Hs Ha Hb.
  rewrite Ha, Hb. simpl.
  repeat (apply orb_false_elim in Hs; destruct Hs as [Hs ?]).
  repeat match goal with H : _ = false |- _ => rewrite H end.
  reflexivity.
Qed.

Lemma all_true_combine (active : list bool) (is_or : bool) :
  Forall (fun b => b = true) active ->
  match active with
  | [] => true
  | _ => if is_or then existsb id active else forallb id active
  end = true.
Proof.
  intros Hall. destruct active as [|b active]; [reflexivity|].
  destruct is_or.
  - inversion Hall; subst. reflexivity.
  - induction Hall as [|x l Hx _ IH]; [reflexivity|]. simpl. rewrite Hx. exact IH.
Qed.

Lemma equivalent_self config s :
  ResponseSnapshot.ok s = true ->
  meets_requirements config s = true ->
  (ComparatorConfig.length_check config = true -> _length_within config s s = true) ->
  equivalent config s s = true.
Proof.
  intros Hok Hreq Hlen. unfold equivalent. rewrite Hok. simpl negb. simpl orb. cbv iota.
  apply all_true_combine.
  unfold meets_requirements in Hreq.
  apply andb_prop in Hreq. destruct Hreq as [Hreq Hre].
  apply andb_prop in Hreq. destruct Hreq as [Hall Hany].
  unfold checks. simpl List.filter.
  assert (Hst : _status_equal s s = true) by (unfold _status_equal; apply bool_decide_eq_true; reflexivity).
  destruct (ComparatorConfig.status_code config);
  destruct (ComparatorConfig.length_check config);
  destruct (nonempty (ComparatorConfig.need_all config));
  destruct (nonempty (ComparatorConfig.need_any config));
  destruct (nonempty (ComparatorConfig.regex config)); simpl in *;
  repeat constructor; auto.
Qed.
End Facts.

(** The claim of C6 as it stands fails at a negative tolerance: with only
    the length signal enabled and a tolerance of -0.5, a healthy snapshot
    with a body of one character, which has no requirement to meet, is
    not equivalent to itself ([0.0 <= -0.5] is false). *)
Lemma equivalent_self_negative_tolerance :
  ~ (forall (L : PyLib) (config : ComparatorConfig.t) (s : ResponseSnapshot.t),
       ResponseSnapshot.ok s = true ->
       meets_requirements config s = true ->
       signals_enabled config = true ->
       equivalent config s s = true).
Proof.
  intros Hclaim.
  specialize (Hclaim ExampleLib.lib (length_only (-0.5)%float)
                (snapshot_200 "x") eq_refl eq_refl eq_refl).
  vm_compute in Hclaim. discriminate.
Qed.

(** C6, amended. A healthy snapshot that meets the configured
    requirements (required substrings, "any" substrings, patterns) is
    equivalent to itself, with any set of signals enabled, provided that
    the tolerance is not negative ([0.0 <= tolerance]) when the length
    signal is enabled; lengths are below [2^63], as every Python length
    is. With no signal enabled any two healthy snapshots are equivalent.
    And whenever one of the two snapshots is unhealthy the answer is
    false, whatever the configuration. *)
Theorem equivalent_reflexive_health `{PyLib} (config : ComparatorConfig.t)
    (a b s : ResponseSnapshot.t) :
  (ResponseSnapshot.ok s = true ->
   meets_requirements config s = true ->
   (ComparatorConfig.length_check config = true ->
    PrimFloat.leb 0 (ComparatorConfig.length_tolerance config) = true
    /\ (Z.of_nat (ResponseSnapshot.length s) < 2 ^ 63)%Z) ->
   equivalent config s s = true)
  /\ (signals_enabled config = false ->
      ResponseSnapshot.ok a = true -> ResponseSnapshot.ok b = true ->
      equivalent config a b = true)
  /\ (ResponseSnapshot.ok a = false \/ ResponseSnapshot.ok b = false ->
      equivalent config a b = false).
Proof.
  split; [|split].
  - intros Hok Hreq Htol. apply equivalent_self; [assumption..|].
    intros Hlen. destruct (Htol Hlen) as [H0 Hbound].
    apply length_within_self; assumption.
  - apply equivalent_no_signal.
  - apply equivalent_unhealthy.
Qed.

Lemma equivalent_reflexive_health_witness :
  @equivalent ExampleLib.lib (length_only tenth)
    (snapshot_200 "ok") (snapshot_200 "ok") = true.
Proof.
  apply (proj1 (@equivalent_reflexive_health ExampleLib.lib
                  (length_only tenth) (snapshot_200 "ok") (snapshot_200 "ok")
                  (snapshot_200 "ok"))).
  - reflexivity.
  - reflexivity.
  - intros _. split; [vm_compute; reflexivity|vm_compute; reflexivity].
Defined.

(** ** The length signal *)

Lemma length_within_nonempty (config : ComparatorConfig.t)
    (base cand : ResponseSnapshot.t) :
  ResponseSnapshot.length base <> 0 ->
  _length_within config base cand
  = length_ratio_ok (ResponseSnapshot.length base)
      (ResponseSnapshot.length cand)
      (ComparatorConfig.length_tolerance config).
Proof.
  intros Hlen. apply Nat.eqb_neq in Hlen.
  unfold _length_within. rewrite Hlen. reflexivity.
Qed.

(** Against a baseline of 100 characters and a tolerance of 0.1, the
    candidates of up to 1000 characters that pass are those of 90 to 110
    characters. *)
Lemma length_ratio_ok_100 (n : nat) :
  n <= 1000 -> length_ratio_ok 100 n tenth = (90 <=? n) && (n <=? 110).
Proof.
  intros Hn.
  assert (Hall : forallb
                   (fun c => Bool.eqb (length_ratio_ok 100 c tenth)
                                      ((90 <=? c) && (c <=? 110)))
                   (seq 0 1001) = true)
    by (vm_compute; reflexivity).
  rewrite forallb_forall in Hall.
  apply Bool.eqb_prop, Hall, in_seq. lia.
Qed.

(** C7. The length signal passes exactly when the binary64 quotient
    [|len(base) - len(cand)| / len(base)] is at most the tolerance, for a
    baseline that is not empty; an empty baseline passes exactly when the
    candidate is empty. With a baseline of 100 characters and the
    tolerance 0.1, a candidate of 110 characters passes and one of 111
    fails (of the candidates of up to 1000 characters, those of 90 to 110
    pass); and when both bodies are empty the signal passes whatever the
    tolerance is. *)
Theorem length_within_tolerance (config : ComparatorConfig.t)
    (base cand : ResponseSnapshot.t) :
  (ResponseSnapshot.length base <> 0 ->
   _length_within config base cand
   = PrimFloat.leb
       (PrimFloat.div
          (float_of_len (len_abs_diff (ResponseSnapshot.length base)
                                      (ResponseSnapshot.length cand)))
          (float_of_len (ResponseSnapshot.length base)))
       (ComparatorConfig.length_tolerance config))
  /\ (ResponseSnapshot.length base = 0 ->
      _length_within config base cand
      = (ResponseSnapshot.length cand =? 0))
  /\ (ComparatorConfig.length_tolerance config = tenth ->
      ResponseSnapshot.length base = 100 ->
      (ResponseSnapshot.length cand = 110 ->
       _length_within config base cand = true)
      /\ (ResponseSnapshot.length cand = 111 ->
          _length_within config base cand = false)
      /\ (ResponseSnapshot.length cand <= 1000 ->
          _length_within config base cand
          = (90 <=? ResponseSnapshot.length cand)
            && (ResponseSnapshot.length cand <=? 110)))
  /\ (ResponseSnapshot.length base = 0 ->
      ResponseSnapshot.length cand = 0 ->
      _length_within config base cand = true).
Proof.
  split; [apply length_within_nonempty|].
  split; [intros Hb; unfold _length_within; rewrite Hb; reflexivity|].
  split.
  - intros Htol Hb.
    assert (Hne : ResponseSnapshot.length base <> 0) by lia.
    rewrite (length_within_nonempty _ _ _ Hne), Htol, Hb.
    split; [|split].
    + intros ->. apply length_ratio_ok_100. lia.
    + intros ->. apply length_ratio_ok_100. lia.
    + apply length_ratio_ok_100.
  - intros Hb Hc. unfold _length_within. rewrite Hb, Hc. reflexivity.
Qed.

Lemma length_within_tolerance_witness :
  _length_within (length_only tenth) (snapshot_200 (filler 100))
                 (snapshot_200 (filler 110)) = true
  /\ _length_within (length_only tenth) (snapshot_200 (filler 100))
                    (snapshot_200 (filler 111)) = false.
Proof.
  pose proof (proj1 (proj2 (proj2
                (length_within_tolerance (length_only tenth)
                   (snapshot_200 (filler 100)) (snapshot_200 (filler 110)))))
                eq_refl eq_refl) as H110.
  pose proof (proj1 (proj2 (proj2
                (length_within_tolerance (length_only tenth)
                   (snapshot_200 (filler 100)) (snapshot_200 (filler 111)))))
                eq_refl eq_refl) as H111.
  split.
  - apply (proj1 H110). reflexivity.
  - apply (proj1 (proj2 H111)). reflexivity.
Defined.

(** ** Dictionaries and header lists *)

Section DictFacts.
Context {V : Type}.

Lemma dict_get_set (n k : string) (v : V) (d : PyDict.t V) :
  PyDict.get n (PyDict.set k v d)
  = if String.eqb n k then Some v else PyDict.get n d.
Proof.
  induction d as [|[k' v'] d IH]; simpl.
  - reflexivity.
  - destruct (String.eqb k k') eqn:Hk; simpl.
    + apply String.eqb_eq in Hk. subst k'.
      destruct (String.eqb n k); reflexivity.
    + destruct (String.eqb n k') eqn:Hn; [|exact IH].
      apply String.eqb_eq in Hn. subst k'.
      rewrite String.eqb_sym, Hk. reflexivity.
Qed.

Lemma dict_keys_set (k k' : string) (v : V) (d : PyDict.t V) :
  k' ∈ PyDict.keys (PyDict.set k v d) <-> k' = k \/ k' ∈ PyDict.keys d.
Proof.
  unfold PyDict.keys. induction d as [|[k0 v0] d IH]; simpl.
  - rewrite list_elem_of_singleton, elem_of_nil. tauto.
  - destruct (String.eqb k k0) eqn:Hk; simpl.
    + apply String.eqb_eq in Hk. subst k0. rewrite !elem_of_cons. tauto.
    + rewrite !elem_of_cons, IH. tauto.
Qed.

Lemma dict_set_nodup (k : string) (v : V) (d : PyDict.t V) :
  NoDup (PyDict.keys d) -> NoDup (PyDict.keys (PyDict.set k v d)).
Proof.
  unfold PyDict.keys. induction d as [|[k0 v0] d IH]; simpl; intros Hd.
  - apply NoDup_singleton.
  - apply NoDup_cons in Hd. destruct Hd as [Hk0 Hd].
    destruct (String.eqb k k0) eqn:Hk; simpl.
    + apply String.eqb_eq in Hk. subst k0. apply NoDup_cons. auto.
    + apply NoDup_cons. split; [|auto].
      intros Hin. apply (dict_keys_set k k0 v d) in Hin.
      destruct Hin as [->|Hin]; [|contradiction].
      rewrite String.eqb_refl in Hk. discriminate.
Qed.
End DictFacts.

(** One step of [_headers_list_to_dict]. *)
Lemma headers_dict_snoc (hs : list Header.t) (h : Header.t) :
  _headers_list_to_dict (hs ++ [h])
  = match Header.name h with
    | None => _headers_list_to_dict hs
    | Some name =>
        if str_is_empty name then _headers_list_to_dict hs
        else PyDict.set name (default "" (Header.value h))
               (_headers_list_to_dict hs)
    end.
Proof. unfold _headers_list_to_dict. rewrite fold_left_app. reflexivity. Qed.

Lemma header_value_for_snoc (n : string) (hs : list Header.t) (h : Header.t) :
  header_value_for n (hs ++ [h])
  = if bool_decide (Header.name h = Some n)
    then Some (default "" (Header.value h)) else header_value_for n hs.
Proof. unfold header_value_for. rewrite fold_left_app. reflexivity. Qed.


(** The value it has for a name is that of the last entry of that name. *)
Lemma headers_dict_get (n : string) (hs : list Header.t) :
  n <> EmptyString ->
  PyDict.get n (_headers_list_to_dict hs) = header_value_for n hs.
Proof.
  intros Hn. induction hs as [|h hs IH] using rev_ind; [reflexivity|].
  rewrite headers_dict_snoc, header_value_for_snoc.
  destruct (Header.name h) as [name|] eqn:Hname.
  - destruct (str_is_empty name) eqn:Hempty.
    + destruct name; [|discriminate].
      rewrite bool_decide_eq_false_2 by congruence. exact IH.
    + rewrite dict_get_set.
      destruct (String.eqb n name) eqn:Heq.
      * apply String.eqb_eq in Heq. subst name.
        rewrite bool_decide_eq_true_2 by reflexivity. reflexivity.
      * apply String.eqb_neq in Heq.
        rewrite bool_decide_eq_false_2 by congruence. exact IH.
  - rewrite bool_decide_eq_false_2 by congruence. exact IH.
Qed.

(** Entries of other names do not change the value of [n]. *)
Lemma header_value_for_app_others (n : string) (hs others : list Header.t) :
  Forall (fun h => Header.name h <> Some n) others ->
  header_value_for n (hs ++ others) = header_value_for n hs.
Proof.
  induction others as [|h others IH] using rev_ind; intros Hothers.
  - rewrite app_nil_r. reflexivity.
  - rewrite Forall_app, Forall_singleton in Hothers.
    destruct Hothers as [Hothers Hh].
    rewrite app_assoc, header_value_for_snoc.
    rewrite bool_decide_eq_false_2 by exact Hh. apply IH. exact Hothers.
Qed.

(** An entry that no later entry repeats is sent with its own value. *)
Lemma header_value_for_last (n : string) (before after : list Header.t)
    (h : Header.t) :
  Header.name h = Some n ->
  Forall (fun h' => Header.name h' <> Some n) after ->
  header_value_for n (before ++ h :: after)
  = Some (default "" (Header.value h)).
Proof.
  intros Hname Hafter.
  change (before ++ h :: after) with (before ++ [h] ++ after).
  rewrite app_assoc, header_value_for_app_others by exact Hafter.
  rewrite header_value_for_snoc, bool_decide_eq_true_2 by exact Hname.
  reflexivity.
Qed.

(** ** The exchanges a run issues *)

Section Exchanges.
Context {Server : Type}.
Variable session_request : Server -> Exchange.t -> net_result * Server.

Local Abbreviation Net := (HttpClient.t Server).
Local Abbreviation send := (HttpClient.send session_request).

Lemma sends_refl (P : Exchange.t -> Prop) (net : Net) : sends P net net.
Proof. exists []. rewrite app_nil_r. split; [reflexivity|constructor]. Qed.

Lemma sends_trans (P : Exchange.t -> Prop) (net1 net2 net3 : Net) :
  sends P net1 net2 -> sends P net2 net3 -> sends P net1 net3.
Proof.
  intros [new1 [H1 HP1]] [new2 [H2 HP2]]. exists (new1 ++ new2).
  rewrite H2, H1, app_assoc. split; [reflexivity|].
  apply Forall_app. split; assumption.
Qed.

Lemma sends_weaken (P Q : Exchange.t -> Prop) (net net' : Net) :
  (forall x, P x -> Q x) -> sends P net net' -> sends Q net net'.
Proof.
  intros HPQ [new [Hnew HP]]. exists new. split; [exact Hnew|].
  eapply Forall_impl; eassumption.
Qed.

(** [send] issues one exchange: the headers it is given, and the body it
    is given or, for [None], the body of the request. *)
Lemma send_sent (request : RequestData.t) (headers : PyDict.t string)
    (body : option string) (net : Net) :
  HttpClient.sent (send request headers body net).2
  = HttpClient.sent net
    ++ [Exchange.mk (RequestData.method request) (RequestData.url request)
          headers
          (match body with
           | Some b => Some b
           | None => RequestData.body_text request
           end)].
Proof.
  unfold HttpClient.send.
  destruct (session_request _ _) as [[status text hs elapsed|msg elapsed] srv];
    reflexivity.
Qed.

Lemma send_sends (P : Exchange.t -> Prop) (request : RequestData.t)
    (headers : PyDict.t string) (body : option string) (net : Net) :
  (forall x, Exchange.headers x = headers -> P x) ->
  sends P net (send request headers body net).2.
Proof.
  intros HP. eexists. split; [apply send_sent|].
  apply Forall_singleton, HP. reflexivity.
Qed.

(** What [send] returns is healthy with a body, or unhealthy without. *)
Lemma send_snapshot (request : RequestData.t) (headers : PyDict.t string)
    (body : option string) (net : Net) :
  let r := (send request headers body net).1 in
  (ResponseSnapshot.ok r = true /\ ResponseSnapshot.body r <> None)
  \/ (ResponseSnapshot.ok r = false /\ ResponseSnapshot.body r = None
      /\ ResponseSnapshot.status_code r = None).
Proof.
  unfold HttpClient.send.
  destruct (session_request _ _) as [[status text hs elapsed|msg elapsed] srv];
    simpl; [left|right]; auto.
Qed.
End Exchanges.

(** ** Sorting the headers *)

Section HeaderSplit.
Context `{PyLib}.

Lemma split_headers_fold (cfg : HeadersConfig.t) (hs cs fs : list Header.t) :
  fold_left
    (fun acc header =>
       let '(candidates, fixed) := acc in
       if RequestMinimizer.header_is_fixed cfg header
       then (candidates, fixed ++ [header])
       else (candidates ++ [header], fixed))
    hs (cs, fs)
  = (cs ++ List.filter (fun h => negb (RequestMinimizer.header_is_fixed cfg h)) hs,
     fs ++ List.filter (RequestMinimizer.header_is_fixed cfg) hs).
Proof.
  revert cs fs. induction hs as [|h hs IH]; intros cs fs; simpl.
  - rewrite !app_nil_r. reflexivity.
  - destruct (RequestMinimizer.header_is_fixed cfg h); simpl;
      rewrite IH, <- app_assoc; reflexivity.
Qed.

(** The loop is a partition by [header_is_fixed]. *)
Lemma split_headers_filter (cfg : HeadersConfig.t) (hs : list Header.t) :
  RequestMinimizer.split_headers cfg hs
  = (List.filter (fun h => negb (RequestMinimizer.header_is_fixed cfg h)) hs,
     List.filter (RequestMinimizer.header_is_fixed cfg) hs).
Proof. unfold RequestMinimizer.split_headers. apply split_headers_fold. Qed.

(** The class of an entry depends on its name alone. *)
Lemma header_is_fixed_name (cfg : HeadersConfig.t) (h h' : Header.t) :
  Header.name h = Header.name h' ->
  RequestMinimizer.header_is_fixed cfg h
  = RequestMinimizer.header_is_fixed cfg h'.
Proof. unfold RequestMinimizer.header_is_fixed. intros ->. reflexivity. Qed.

Lemma split_headers_candidate (cfg : HeadersConfig.t) (hs : list Header.t)
    (h : Header.t) :
  h ∈ (RequestMinimizer.split_headers cfg hs).1 <->
  h ∈ hs /\ RequestMinimizer.header_is_fixed cfg h = false.
Proof.
  rewrite split_headers_filter. simpl.
  rewrite list_elem_of_In, filter_In, <- list_elem_of_In, negb_true_iff.
  reflexivity.
Qed.

Lemma split_headers_fixed (cfg : HeadersConfig.t) (hs : list Header.t)
    (h : Header.t) :
  h ∈ (RequestMinimizer.split_headers cfg hs).2 <->
  h ∈ hs /\ RequestMinimizer.header_is_fixed cfg h = true.
Proof.
  rewrite split_headers_filter. simpl.
  rewrite list_elem_of_In, filter_In, <- list_elem_of_In. reflexivity.
Qed.

(** No active candidate bears the name of a fixed entry. *)
Lemma active_names_differ (cfg : HeadersConfig.t) (hs active : list Header.t)
    (h : Header.t) (n : string) :
  active `sublist_of` (RequestMinimizer.split_headers cfg hs).1 ->
  h ∈ (RequestMinimizer.split_headers cfg hs).2 ->
  Header.name h = Some n ->
  Forall (fun h' => Header.name h' <> Some n) active.
Proof.
  intros Hactive Hfixed Hname. apply Forall_forall. intros h' Hin Hname'.
  apply split_headers_fixed in Hfixed. destruct Hfixed as [_ Hfixed].
  assert (Hcand : h' ∈ (RequestMinimizer.split_headers cfg hs).1)
    by (eapply elem_of_sublist; eassumption).
  apply split_headers_candidate in Hcand. destruct Hcand as [_ Hcand].
  rewrite (header_is_fixed_name cfg h' h) in Hcand by congruence.
  congruence.
Qed.
End HeaderSplit.

(** ** The header reduction *)

Section HeaderReduction.
Context `{PyLib} {Server : Type}.
Variable session_request : Server -> Exchange.t -> net_result * Server.
Variable config : Config.t.
Variable comparator : ComparatorConfig.t.

Local Abbreviation Net := (HttpClient.t Server).

Lemma header_test_sends (request : RequestData.t)
    (baseline : ResponseSnapshot.t) (fixed candidates active : list Header.t)
    (net0 : Net) (st : (list Header.t * ResponseSnapshot.t) * Net) :
  active `sublist_of` candidates ->
  sends (header_probe fixed candidates) net0 st.2 ->
  sends (header_probe fixed candidates) net0
    (RequestMinimizer.header_test session_request comparator request baseline
       fixed active st).2.2.
Proof.
  intros Hactive Hst. destruct st as [best net]. simpl in Hst.
  unfold RequestMinimizer.header_test.
  pose proof (send_sends session_request (header_probe fixed candidates)
                request (_headers_list_to_dict (fixed ++ active))
                (RequestData.body_text request) net) as Hsend.
  destruct (HttpClient.send _ _ _ _ net) as [response net'].
  simpl in Hsend.
  assert (Hnet' : sends (header_probe fixed candidates) net0 net').
  { eapply sends_trans; [exact Hst|]. apply Hsend.
    intros x Hx. exists active. auto. }
  destruct (equivalent comparator baseline response); exact Hnet'.
Qed.

Lemma minimize_headers_sends (request : RequestData.t)
    (current_headers : list Header.t) (baseline : ResponseSnapshot.t)
    (max_tests : Z) (net : Net) :
  sends
    (header_probe
       (RequestMinimizer.split_headers
          (MinimizationConfig.headers (Config.minimization config))
          current_headers).2
       (RequestMinimizer.split_headers
          (MinimizationConfig.headers (Config.minimization config))
          current_headers).1)
    net
    (RequestMinimizer._minimize_headers session_request config comparator
       request current_headers baseline max_tests net).2.
Proof.
  unfold RequestMinimizer._minimize_headers.
  destruct (RequestMinimizer.split_headers _ current_headers)
    as [candidates fixed].
  simpl. destruct candidates as [|c candidates]; [apply sends_refl|].
  pose proof (ddmin_state_inv_sub
                (RequestMinimizer.header_test session_request comparator
                   request baseline fixed)
                (Some max_tests)
                (fun st => sends (header_probe fixed (c :: candidates)) net st.2)
                (c :: candidates) ((current_headers, baseline), net)) as Hinv.
  destruct (_ddmin _ _ (c :: candidates) _) as [[minimized tests] [best net']].
  simpl in *. apply Hinv; [|apply sends_refl].
  intros r st Hr Hst. apply header_test_sends; assumption.
Qed.

(** What goes into a probe is made of entries of [current_headers]. *)
Lemma probe_headers_subseteq (cfg : HeadersConfig.t)
    (current_headers active : list Header.t) :
  active `sublist_of` (RequestMinimizer.split_headers cfg current_headers).1 ->
  (RequestMinimizer.split_headers cfg current_headers).2 ++ active
  ⊆ current_headers.
Proof.
  intros Hactive h Hh. apply elem_of_app in Hh. destruct Hh as [Hh|Hh].
  - apply split_headers_fixed in Hh. tauto.
  - apply (elem_of_sublist _ _ _ Hh) in Hactive.
    apply split_headers_candidate in Hactive. tauto.
Qed.

(** The headers [_minimize_headers] returns and those of the state it
    remembers are made of entries of [current_headers]. *)
Lemma minimize_headers_result (request : RequestData.t)
    (current_headers : list Header.t) (baseline : ResponseSnapshot.t)
    (max_tests : Z) (net : Net) :
  let out :=
    (RequestMinimizer._minimize_headers session_request config comparator
       request current_headers baseline max_tests net).1 in
  out.1.1.1 ⊆ current_headers /\ out.1.2.1 ⊆ current_headers.
Proof.
  unfold RequestMinimizer._minimize_headers.
  pose proof (probe_headers_subseteq
                (MinimizationConfig.headers (Config.minimization config))
                current_headers) as Hprobe.
  destruct (RequestMinimizer.split_headers _ current_headers)
    as [candidates fixed].
  simpl in Hprobe. destruct candidates as [|c candidates]; [simpl; auto|].
  pose proof (ddmin_state_inv_sub
                (RequestMinimizer.header_test session_request comparator
                   request baseline fixed)
                (Some max_tests)
                (fun st => st.1.1 ⊆ current_headers)
                (c :: candidates) ((current_headers, baseline), net)) as Hinv.
  pose proof (ddmin_sublist
                (RequestMinimizer.header_test session_request comparator
                   request baseline fixed)
                (Some max_tests) (c :: candidates)
                ((current_headers, baseline), net)) as Hsub.
  destruct (_ddmin _ _ (c :: candidates) _) as [[minimized tests] [best net']].
  simpl in *.
  assert (Hbest : best.1 ⊆ current_headers).
  { apply Hinv; [|reflexivity].
    intros r [best0 net0] Hr Hbest0. unfold RequestMinimizer.header_test.
    destruct (HttpClient.send _ _ _ _ net0) as [response net1].
    destruct (equivalent comparator baseline response); simpl;
      [apply Hprobe; exact Hr|exact Hbest0]. }
  split; [|exact Hbest].
  destruct (negb (headers_eqb best.1 (fixed ++ minimized)));
    [exact Hbest|apply Hprobe; exact Hsub].
Qed.
End HeaderReduction.

(** The second half of C2 as it stands fails when two fixed entries share
    a name: with the two protected entries [Cookie: a] and [Cookie: b]
    the probe of the header reduction carries [Cookie: b] only, so the
    fixed entry [Cookie: a] is not in it. *)
Lemma fixed_duplicate_overwritten :
  ~ (forall (L : PyLib) (Server : Type)
       (session_request : Server -> Exchange.t -> net_result * Server)
       (config : Config.t) (comparator : ComparatorConfig.t)
       (request : RequestData.t) (current_headers : list Header.t)
       (baseline : ResponseSnapshot.t) (max_tests : Z)
       (net : HttpClient.t Server) (new : list Exchange.t)
       (x : Exchange.t) (h : Header.t) (n v : string),
       HttpClient.sent
         (RequestMinimizer._minimize_headers session_request config
            comparator request current_headers baseline max_tests net).2
       = HttpClient.sent net ++ new ->
       x ∈ new ->
       h ∈ (RequestMinimizer.split_headers
              (MinimizationConfig.headers (Config.minimization config))
              current_headers).2 ->
       Header.name h = Some n -> Header.value h = Some v ->
       PyDict.get n (Exchange.headers x) = Some v).
Proof.
  intros Hclaim.
  specialize (Hclaim ExampleLib.lib unit Example.always_ok
                Example.protect_cookie Example.status_only
                Example.cookie_request Example.cookie_headers
                (snapshot_200 "ok") 5%Z Example.fresh
                [Exchange.mk "GET" "http://example.test/"
                   [("Cookie", "b")] None]
                (Exchange.mk "GET" "http://example.test/"
                   [("Cookie", "b")] None)
                (Example.header "Cookie" "a") "Cookie" "a").
  assert (Hget : PyDict.get "Cookie" [("Cookie", "b")] = Some "a").
  { apply Hclaim.
    - vm_compute. reflexivity.
    - apply list_elem_of_singleton. reflexivity.
    - vm_compute. apply list_elem_of_here.
    - reflexivity.
    - reflexivity. }
  vm_compute in Hget. discriminate.
Qed.

(** C2, amended. The header entries sorted as candidates and those
    sorted as fixed (protected, ignored, or left out by the candidate
    patterns) are disjoint. Every request sent during the header
    reduction carries the name-to-value mapping of the fixed entries
    followed by some of the candidates in their order; in it each fixed
    entry's name, when not empty, has the value of the last fixed entry
    of that name, whichever candidates are active. That is the entry's
    own value (the empty string for a missing value) when no later fixed
    entry repeats its name. *)
Theorem header_classes_and_probes `{PyLib} {Server : Type}
    (session_request : Server -> Exchange.t -> net_result * Server)
    (config : Config.t) (comparator : ComparatorConfig.t)
    (request : RequestData.t) (current_headers : list Header.t)
    (baseline : ResponseSnapshot.t) (max_tests : Z)
    (net : HttpClient.t Server) :
  let cfg := MinimizationConfig.headers (Config.minimization config) in
  let candidates := (RequestMinimizer.split_headers cfg current_headers).1 in
  let fixed := (RequestMinimizer.split_headers cfg current_headers).2 in
  (forall h, h ∈ candidates -> h ∈ fixed -> False)
  /\ (exists new,
        HttpClient.sent
          (RequestMinimizer._minimize_headers session_request config
             comparator request current_headers baseline max_tests net).2
        = HttpClient.sent net ++ new
        /\ Forall
             (fun x =>
                exists active,
                  active `sublist_of` candidates
                  /\ Exchange.headers x
                     = _headers_list_to_dict (fixed ++ active)
                  /\ forall h n,
                       h ∈ fixed -> Header.name h = Some n ->
                       n <> EmptyString ->
                       PyDict.get n (Exchange.headers x)
                       = header_value_for n fixed)
             new)
  /\ (forall n before after h,
        fixed = before ++ h :: after ->
        Header.name h = Some n ->
        Forall (fun h' => Header.name h' <> Some n) after ->
        header_value_for n fixed = Some (default "" (Header.value h))).
Proof.
  intros cfg candidates fixed. split; [|split].
  - intros h Hc Hf.
    apply split_headers_candidate in Hc. apply split_headers_fixed in Hf.
    destruct Hc as [_ Hc]. destruct Hf as [_ Hf]. congruence.
  - destruct (minimize_headers_sends session_request config comparator
                request current_headers baseline max_tests net)
      as [new [Hnew Hall]].
    exists new. split; [exact Hnew|].
    eapply Forall_impl; [exact Hall|].
    intros x [active [Hactive Hx]]. exists active.
    split; [exact Hactive|]. split; [exact Hx|].
    intros h n Hh Hname Hn.
    rewrite Hx, headers_dict_get by exact Hn.
    apply header_value_for_app_others.
    eapply active_names_differ; eassumption.
  - intros n before after h -> Hname Hafter.
    apply header_value_for_last; assumption.
Qed.

Lemma header_classes_and_probes_witness :
  header_value_for "Cookie"
    (@RequestMinimizer.split_headers ExampleLib.lib
       (MinimizationConfig.headers
          (Config.minimization Example.protect_cookie))
       Example.cookie_headers).2
  = Some "b".
Proof.
  apply (proj2 (proj2
           (@header_classes_and_probes ExampleLib.lib unit Example.always_ok
              Example.protect_cookie Example.status_only
              Example.cookie_request Example.cookie_headers
              (snapshot_200 "ok") 5%Z Example.fresh))
           "Cookie" [Example.header "Cookie" "a"] []
           (Example.header "Cookie" "b")).
  - vm_compute. reflexivity.
  - reflexivity.
  - constructor.
Defined.

(** ** The body reduction, the refinement and the orchestrator *)

Section Orchestrator.
Context `{PyLib} {Server : Type}.
Variable session_request : Server -> Exchange.t -> net_result * Server.
Variable config : Config.t.
Variable comparator : ComparatorConfig.t.


(** The header list of the request being minimized. *)
Variable orig : list Header.t.

Local Abbreviation Net := (HttpClient.t Server).
Local Abbreviation send := (HttpClient.send session_request).

Lemma send_mapping (request : RequestData.t) (hs : list Header.t)
    (body : option string) (net0 net : Net) :
  hs ⊆ orig ->
  sends (sends_mapping orig) net0 net ->
  sends (sends_mapping orig) net0
    (send request (_headers_list_to_dict hs) body net).2.
Proof.
  intros Hhs Hnet. eapply sends_trans; [exact Hnet|].
  apply send_sends. intros x Hx. exists hs. split; assumption.
Qed.

Lemma send_body_map_sends {B : Type} (request : RequestData.t)
    (headers : list Header.t) (baseline : ResponseSnapshot.t) (kind : string)
    (accept : option string -> ResponseSnapshot.t -> B)
    (body_map : PyDict.t value) (net0 : Net) (st : B * Net) :
  headers ⊆ orig ->
  sends (sends_mapping orig) net0 st.2 ->
  sends (sends_mapping orig) net0
    (RequestMinimizer.send_body_map session_request comparator request
       headers baseline kind accept body_map st).2.2.
Proof.
  intros Hhs Hst. destruct st as [best net]. simpl in Hst.
  unfold RequestMinimizer.send_body_map.
  pose proof (send_mapping request headers
                (_build_body_text kind (Some body_map)) net0 net Hhs Hst)
    as Hsend.
  destruct (HttpClient.send _ _ _ _ net) as [response net'].
  simpl in Hsend.
  destruct (equivalent comparator baseline response); exact Hsend.
Qed.

Lemma minimize_headers_mapping (request : RequestData.t)
    (current_headers : list Header.t) (baseline : ResponseSnapshot.t)
    (max_tests : Z) (net : Net) :
  current_headers ⊆ orig ->
  sends (sends_mapping orig) net
    (RequestMinimizer._minimize_headers session_request config comparator
       request current_headers baseline max_tests net).2.
Proof.
  intros Hcur. eapply sends_weaken; [|apply minimize_headers_sends].
  intros x [active [Hactive Hx]]. eexists. split; [|exact Hx].
  etransitivity; [|exact Hcur]. apply probe_headers_subseteq. exact Hactive.
Qed.

Lemma minimize_body_mapping (request : RequestData.t)
    (headers : list Header.t) (baseline : ResponseSnapshot.t)
    (max_tests : Z) (net : Net) :
  headers ⊆ orig ->
  sends (sends_mapping orig) net
    (RequestMinimizer._minimize_body session_request config comparator
       request headers baseline max_tests net).2.
Proof.
  intros Hhs. unfold RequestMinimizer._minimize_body.
  destruct (_parse_body request _) as [kind [parsed|]]; [|apply sends_refl].
  destruct (PyDict.is_empty parsed); [apply sends_refl|].
  destruct (PyDict.is_empty (PyDict.filter_keys _ parsed));
    [apply sends_refl|].
  match goal with
  | |- context [_ddmin ?t ?m ?items ?s0] =>
      pose proof (ddmin_state_inv t m
                    (fun st => sends (sends_mapping orig) net st.2) items s0) as Hinv;
      destruct (_ddmin t m items s0) as [[minimized tests] [best net']]
  end.
  simpl in *. apply Hinv; [|apply sends_refl].
  intros r st Hst. apply send_body_map_sends; assumption.
Qed.

(** The refinement issues mappings too, and what it returns was accepted
    by the comparator. *)
Lemma try_blank_spec (request : RequestData.t) (headers : list Header.t)
    (baseline : ResponseSnapshot.t) (body_kind : string)
    (current_body : option string) (net : Net) :
  headers ⊆ orig ->
  sends (sends_mapping orig) net
    (RequestMinimizer._try_blank_body_values session_request config
       comparator request headers baseline body_kind current_body net).2
  /\ match (RequestMinimizer._try_blank_body_values session_request config
              comparator request headers baseline body_kind current_body
              net).1 with
     | Some (_, response) => equivalent comparator baseline response = true
     | None => True
     end.
Proof.
  intros Hhs. unfold RequestMinimizer._try_blank_body_values.
  destruct (negb (str_in body_kind _) || opt_str_falsy current_body);
    [split; [apply sends_refl|exact I]|].
  match goal with
  | |- context [match ?p with Some _ => _ | None => (None, net) end] =>
      destruct p as [parsed|]; [|split; [apply sends_refl|exact I]]
  end.
  destruct (List.filter _ (PyDict.keys parsed)) as [|k keys];
    [split; [apply sends_refl|exact I]|].
  set (good := fun st : (option string * option ResponseSnapshot.t) * Net =>
                 sends (sends_mapping orig) net st.2
                 /\ match st.1.2 with
                    | Some response =>
                        equivalent comparator baseline response = true
                    | None => True
                    end).
  assert (Hstep : forall body_map st,
             good st ->
             good (RequestMinimizer.send_body_map session_request comparator
                     request headers baseline body_kind
                     (fun b r => (b, Some r)) body_map st).2).
  { intros body_map st [Hsends Hbest]. split.
    - apply send_body_map_sends; assumption.
    - destruct st as [best net1]. unfold RequestMinimizer.send_body_map.
      destruct (HttpClient.send _ _ _ _ net1) as [response net2].
      destruct (equivalent comparator baseline response) eqn:Heq;
        simpl; [exact Heq|exact Hbest]. }
  match goal with
  | |- context [_ddmin ?t ?m ?items ?s0] =>
      pose proof (ddmin_state_inv t m good items s0) as Hinv;
      destruct (_ddmin t m items s0) as [[minimized tests] st1]
  end.
  simpl in Hinv.
  assert (Hst1 : good st1).
  { apply Hinv; [|split; [apply sends_refl|exact I]].
    intros r st Hst. apply Hstep. exact Hst. }
  specialize (Hstep (RequestMinimizer.blank_build_body parsed (k :: keys)
                       minimized) st1 Hst1).
  destruct (RequestMinimizer.send_body_map _ _ _ _ _ _ _ _ st1)
    as [ok [best net2]].
  destruct Hstep as [Hsends Hbest]. simpl in Hsends, Hbest. simpl.
  destruct (best.2) as [response|]; [|split; [exact Hsends|exact I]].
  destruct (negb (bool_decide (best.1 = current_body)));
    split; simpl; auto.
Qed.

Lemma run_phases_mapping (request : RequestData.t)
    (original_headers : list Header.t) (baseline : ResponseSnapshot.t)
    (net : Net) :
  original_headers ⊆ orig ->
  let out :=
    RequestMinimizer.run_phases session_request config comparator request
      original_headers baseline net in
  sends (sends_mapping orig) net out.2
  /\ RequestMinimizer.headers_state out.1 ⊆ orig
  /\ (RequestMinimizer.best_header_combo out.1).1 ⊆ orig.
Proof.
  intros Horig. unfold RequestMinimizer.run_phases.
  destruct (str_in "headers" _ && HeadersConfig.enabled _).
  - pose proof (minimize_headers_mapping request original_headers baseline
                  (Z.max 0 (Config.max_rounds_per_request config)) net Horig)
      as Hh.
    pose proof (minimize_headers_result session_request config comparator
                  request original_headers baseline
                  (Z.max 0 (Config.max_rounds_per_request config)) net)
      as [Hhs Hbh].
    destruct (RequestMinimizer._minimize_headers _ _ _ _ _ _ _ net)
      as [[[[hs hc] bh] tests] net1].
    simpl in Hh, Hhs, Hbh.
    assert (Hhs' : hs ⊆ orig) by (etransitivity; eassumption).
    assert (Hbh' : bh.1 ⊆ orig) by (etransitivity; eassumption).
    destruct (str_in "body" _ && BodyConfig.enabled _); [|simpl; auto].
    match goal with
    | |- context [RequestMinimizer._minimize_body ?sr ?c ?cmp ?r ?h ?b ?m net1] =>
        pose proof (minimize_body_mapping r h b m net1 Hhs') as Hb;
        destruct (RequestMinimizer._minimize_body sr c cmp r h b m net1)
          as [[[[bs bc] bb] tests'] net2]
    end.
    simpl in *. split; [eapply sends_trans; eassumption|auto].
  - destruct (str_in "body" _ && BodyConfig.enabled _);
      [|simpl; split; [apply sends_refl|auto]].
    match goal with
    | |- context [RequestMinimizer._minimize_body ?sr ?c ?cmp ?r ?h ?b ?m net] =>
        pose proof (minimize_body_mapping r h b m net Horig) as Hb;
        destruct (RequestMinimizer._minimize_body sr c cmp r h b m net)
          as [[[[bs bc] bb] tests'] net2]
    end.
    simpl in *. auto.
Qed.

(** The final check sends the reduced headers with the reduced body,
    once; the outcome is that state when the comparator accepts the
    response, and the fallback otherwise. Either way it is matched. *)
Lemma cross_validate_unfold (request : RequestData.t)
    (original_headers : list Header.t) (baseline : ResponseSnapshot.t)
    (p : RequestMinimizer.phases) (net : Net) :
  RequestMinimizer.cross_validate session_request comparator request
    original_headers baseline p net
  = (let sent :=
       send request
            (_headers_list_to_dict (RequestMinimizer.headers_state p))
            (RequestMinimizer.body_state p) net in
     (if equivalent comparator baseline sent.1
      then (RequestMinimizer.headers_state p, RequestMinimizer.body_state p,
            sent.1, true)
      else RequestMinimizer.fallback comparator request original_headers
             baseline (RequestMinimizer.headers_state p)
             (RequestMinimizer.best_header_combo p)
             (RequestMinimizer.best_body_combo p),
      sent.2)).
Proof.
  unfold RequestMinimizer.cross_validate.
  destruct (HttpClient.send _ _ _ _ net) as [response net1]. simpl.
  destruct (equivalent comparator baseline response); reflexivity.
Qed.

Lemma fallback_matched (request : RequestData.t)
    (original_headers : list Header.t) (baseline : ResponseSnapshot.t)
    (final_headers : list Header.t)
    (best_header_combo : list Header.t * ResponseSnapshot.t)
    (best_body_combo : option string * ResponseSnapshot.t) :
  (RequestMinimizer.fallback comparator request original_headers baseline
     final_headers best_header_combo best_body_combo).2 = true.
Proof.
  unfold RequestMinimizer.fallback.
  destruct best_header_combo as [fh fr]. destruct best_body_combo as [fb fbr].
  destruct (equivalent comparator baseline fbr); [reflexivity|].
  destruct (equivalent comparator baseline fr); reflexivity.
Qed.

Lemma cross_validate_matched (request : RequestData.t)
    (original_headers : list Header.t) (baseline : ResponseSnapshot.t)
    (p : RequestMinimizer.phases) (net : Net) :
  (RequestMinimizer.cross_validate session_request comparator request
     original_headers baseline p net).1.2 = true.
Proof.
  rewrite cross_validate_unfold. simpl.
  destruct (equivalent comparator baseline _); [reflexivity|].
  apply fallback_matched.
Qed.

Lemma cross_validate_mapping (request : RequestData.t)
    (original_headers : list Header.t) (baseline : ResponseSnapshot.t)
    (p : RequestMinimizer.phases) (net0 net : Net) :
  original_headers ⊆ orig ->
  RequestMinimizer.headers_state p ⊆ orig ->
  (RequestMinimizer.best_header_combo p).1 ⊆ orig ->
  sends (sends_mapping orig) net0 net ->
  let out :=
    RequestMinimizer.cross_validate session_request comparator request
      original_headers baseline p net in
  sends (sends_mapping orig) net0 out.2 /\ out.1.1.1.1 ⊆ orig.
Proof.
  intros Horig Hhs Hbh Hnet. cbv zeta. rewrite cross_validate_unfold. simpl.
  split; [apply send_mapping; assumption|].
  destruct (equivalent comparator baseline _); [exact Hhs|].
  unfold RequestMinimizer.fallback.
  destruct (RequestMinimizer.best_header_combo p) as [fh fr].
  destruct (RequestMinimizer.best_body_combo p) as [fb fbr].
  destruct (equivalent comparator baseline fbr); [exact Hhs|].
  destruct (equivalent comparator baseline fr); assumption.
Qed.

(** [minimize], one stage after the other. *)
Lemma minimize_unfold (request : RequestData.t) (net : Net) :
  RequestMinimizer.minimize session_request config comparator request net
  = (let original_headers := RequestData.headers request in
     let b := send request (_headers_list_to_dict original_headers)
                   (RequestData.body_text request) net in
     if ResponseSnapshot.ok b.1 then
       let body_cfg := MinimizationConfig.body (Config.minimization config) in
       let body_kind :=
         resolve_body_kind request (BodyConfig.body_type body_cfg) in
       let ph := RequestMinimizer.run_phases session_request config comparator
                   request original_headers b.1 b.2 in
       let cv := RequestMinimizer.cross_validate session_request comparator
                   request original_headers b.1 ph.1 ph.2 in
       let bl :=
         if cv.1.2 && BodyConfig.try_blank_values body_cfg then
           RequestMinimizer._try_blank_body_values session_request config
             comparator request cv.1.1.1.1 b.1 body_kind cv.1.1.1.2 cv.2
         else (None, cv.2) in
       let final :=
         match bl.1 with
         | Some (blank_body, blank_response) =>
             (blank_body, blank_response,
              equivalent comparator b.1 blank_response)
         | None => (cv.1.1.1.2, cv.1.1.2, cv.1.2)
         end in
       ((b.1,
         MinimizationResult.mk cv.1.1.1.1 final.1.1 (Some final.1.2) final.2
           (RequestMinimizer.header_candidates ph.1)
           (RequestMinimizer.body_candidates ph.1)
           (length cv.1.1.1.1) (count_body_fields body_kind final.1.1)),
        bl.2)
     else
       ((b.1,
         MinimizationResult.mk original_headers (RequestData.body_text request)
           (Some b.1) false (length original_headers) 0
           (length original_headers) 0),
        b.2)).
Proof.
  unfold RequestMinimizer.minimize.
  destruct (HttpClient.send _ _ _ _ net) as [baseline net1]. simpl.
  destruct (ResponseSnapshot.ok baseline); simpl; [|reflexivity].
  destruct (RequestMinimizer.run_phases _ _ _ _ _ _ net1) as [p net2]. simpl.
  destruct (RequestMinimizer.cross_validate _ _ _ _ _ p net2)
    as [[[[fh fb] fr] matched] net3].
  simpl.
  destruct (matched && BodyConfig.try_blank_values _); [|reflexivity].
  destruct (RequestMinimizer._try_blank_body_values _ _ _ _ _ _ _ _ net3)
    as [[[bb br]|] net4]; reflexivity.
Qed.
End Orchestrator.

(** ** The orchestrator's outcome *)

Lemma minimize_mapping `{PyLib} {Server : Type}
    (session_request : Server -> Exchange.t -> net_result * Server)
    (config : Config.t) (comparator : ComparatorConfig.t)
    (request : RequestData.t) (net : HttpClient.t Server) :
  sends (sends_mapping (RequestData.headers request)) net
    (RequestMinimizer.minimize session_request config comparator request
       net).2.
Proof.
  rewrite minimize_unfold. cbv zeta.
  set (orig := RequestData.headers request).
  assert (Horig : orig ⊆ orig) by reflexivity.
  pose proof (send_mapping session_request orig request orig
                (RequestData.body_text request) net net Horig
                (sends_refl _ _)) as Hbase.
  destruct (HttpClient.send _ _ _ _ net) as [baseline net1].
  simpl in Hbase. simpl.
  destruct (ResponseSnapshot.ok baseline); [|exact Hbase].
  pose proof (run_phases_mapping session_request config comparator orig
                request orig baseline net1 Horig) as [Hph [Hhs Hbh]].
  destruct (RequestMinimizer.run_phases _ _ _ _ _ _ net1) as [p net2].
  simpl in Hph, Hhs, Hbh. simpl.
  assert (Hnet2 : sends (sends_mapping orig) net net2)
    by (eapply sends_trans; eassumption).
  pose proof (cross_validate_mapping session_request comparator orig request
                orig baseline p net net2 Horig Hhs Hbh Hnet2) as [Hcv Hfh].
  destruct (RequestMinimizer.cross_validate _ _ _ _ _ p net2)
    as [[[[fh fb] fr] matched] net3].
  simpl in Hcv, Hfh. simpl.
  destruct (matched && BodyConfig.try_blank_values _); [|exact Hcv].
  eapply sends_trans; [exact Hcv|].
  apply (try_blank_spec session_request config comparator orig). exact Hfh.
Qed.

(** C1. The final check sends the reduced headers with the reduced body
    once, and nothing more is sent whatever follows. When the comparator
    accepts the response, the outcome is that state, matched. When it
    does not, exactly one of three branches is taken, in this order: (a)
    the remembered response of the best body state is accepted: the
    outcome is that body with the reduced headers and that response; (b)
    it is not, and the remembered response of the best header state is
    accepted: the outcome is those headers with the original body and
    that response; (c) neither is accepted: the outcome is the original
    headers and the original body with the baseline response. In all
    three the outcome is matched, in (c) without asking the comparator
    about the baseline. With a healthy baseline and the blank-value pass
    off, this outcome is what [minimize] returns. *)
Theorem fallback_cascade `{PyLib} {Server : Type}
    (session_request : Server -> Exchange.t -> net_result * Server)
    (config : Config.t) (comparator : ComparatorConfig.t)
    (request : RequestData.t) (original_headers : list Header.t)
    (baseline : ResponseSnapshot.t) (p : RequestMinimizer.phases)
    (net : HttpClient.t Server) :
  let check :=
    HttpClient.send session_request request
      (_headers_list_to_dict (RequestMinimizer.headers_state p))
      (RequestMinimizer.body_state p) net in
  let out :=
    RequestMinimizer.cross_validate session_request comparator request
      original_headers baseline p net in
  let body_ok :=
    equivalent comparator baseline (RequestMinimizer.best_body_combo p).2 in
  let header_ok :=
    equivalent comparator baseline (RequestMinimizer.best_header_combo p).2 in
  out.2 = check.2
  /\ out.1.2 = true
  /\ (equivalent comparator baseline check.1 = true ->
      out.1 = (RequestMinimizer.headers_state p,
               RequestMinimizer.body_state p, check.1, true))
  /\ (equivalent comparator baseline check.1 = false ->
      (body_ok = true ->
       out.1 = (RequestMinimizer.headers_state p,
                (RequestMinimizer.best_body_combo p).1,
                (RequestMinimizer.best_body_combo p).2, true))
      /\ (body_ok = false -> header_ok = true ->
          out.1 = ((RequestMinimizer.best_header_combo p).1,
                   RequestData.body_text request,
                   (RequestMinimizer.best_header_combo p).2, true))
      /\ (body_ok = false -> header_ok = false ->
          out.1 = (original_headers, RequestData.body_text request,
                   baseline, true)))
  /\ (forall net0 : HttpClient.t Server,
        let b :=
          HttpClient.send session_request request
            (_headers_list_to_dict (RequestData.headers request))
            (RequestData.body_text request) net0 in
        let ph :=
          RequestMinimizer.run_phases session_request config comparator
            request (RequestData.headers request) b.1 b.2 in
        let cv :=
          RequestMinimizer.cross_validate session_request comparator request
            (RequestData.headers request) b.1 ph.1 ph.2 in
        let result :=
          (RequestMinimizer.minimize session_request config comparator
             request net0).1.2 in
        ResponseSnapshot.ok b.1 = true ->
        BodyConfig.try_blank_values
          (MinimizationConfig.body (Config.minimization config)) = false ->
        (MinimizationResult.headers result,
         MinimizationResult.body_text result,
         MinimizationResult.response result,
         MinimizationResult.matched result)
        = (cv.1.1.1.1, cv.1.1.1.2, Some cv.1.1.2, cv.1.2)).
Proof.
  intros check out body_ok header_ok.
  assert (Hout : out
                 = (if equivalent comparator baseline check.1
                    then (RequestMinimizer.headers_state p,
                          RequestMinimizer.body_state p, check.1, true)
                    else RequestMinimizer.fallback comparator request
                           original_headers baseline
                           (RequestMinimizer.headers_state p)
                           (RequestMinimizer.best_header_combo p)
                           (RequestMinimizer.best_body_combo p),
                    check.2))
    by apply cross_validate_unfold.
  split; [rewrite Hout; reflexivity|].
  split; [apply cross_validate_matched|].
  split; [intros Hcheck; rewrite Hout, Hcheck; reflexivity|].
  split.
  - intros Hcheck. rewrite Hout, Hcheck. simpl.
    unfold RequestMinimizer.fallback. subst body_ok header_ok.
    destruct (RequestMinimizer.best_header_combo p) as [fh fr].
    destruct (RequestMinimizer.best_body_combo p) as [fb fbr]. simpl.
    split; [intros ->; reflexivity|].
    split; intros -> ->; reflexivity.
  - intros net0 b ph cv result Hok Hblank. subst result.
    rewrite minimize_unfold. cbv zeta. fold b. rewrite Hok.
    fold ph. fold cv. rewrite Hblank, andb_false_r. reflexivity.
Qed.

Lemma fallback_cascade_witness :
  (@RequestMinimizer.cross_validate ExampleLib.lib nat (Example.flaky 0)
     Example.status_only Example.cookie_request Example.cookie_headers
     (snapshot_200 "ok") Example.remembered_body (HttpClient.mk 0 [])).1
  = (Example.cookie_headers, Some "b", snapshot_200 "ok", true).
Proof.
  apply (proj1 (proj1 (proj2 (proj2 (proj2
           (@fallback_cascade ExampleLib.lib nat (Example.flaky 0)
              Example.protect_cookie Example.status_only
              Example.cookie_request Example.cookie_headers
              (snapshot_200 "ok") Example.remembered_body
              (HttpClient.mk 0 []))))) eq_refl)).
  reflexivity.
Defined.

(** An endpoint that fails from its third request on: the baseline and
    the probe without [X-Trace] are accepted, the final check is not, and
    branch (a) adopts the reduced headers with the remembered response. *)
Example fallback_after_failed_check :
  let run :=
    @RequestMinimizer.minimize ExampleLib.lib nat (Example.flaky 2)
      Example.protect_cookie Example.status_only Example.cookie_request
      (HttpClient.mk 0 []) in
  MinimizationResult.headers run.1.2
  = [Example.header "Cookie" "a"; Example.header "Cookie" "b"]
  /\ MinimizationResult.response run.1.2 = Some (snapshot_200 "ok")
  /\ MinimizationResult.matched run.1.2 = true
  /\ length (HttpClient.sent run.2) = 3.
Proof. vm_compute. repeat split; reflexivity. Qed.

(** A baseline that the comparator does not accept against itself: every
    probe and the final check fail, branch (c) returns the original
    request, and the outcome is matched all the same. *)
Example fallback_to_baseline_unchecked :
  let run :=
    @RequestMinimizer.minimize ExampleLib.lib unit Example.always_ok
      Example.protect_cookie Example.needs_word Example.cookie_request
      Example.fresh in
  @equivalent ExampleLib.lib Example.needs_word run.1.1 run.1.1 = false
  /\ MinimizationResult.headers run.1.2 = Example.cookie_headers
  /\ MinimizationResult.response run.1.2 = Some run.1.1
  /\ MinimizationResult.matched run.1.2 = true.
Proof. vm_compute. repeat split; reflexivity. Qed.

(** C5. [minimize] returns the baseline snapshot, and its [matched] flag
    is the health of that snapshot: false exactly when the baseline
    exchange is unhealthy, true for every healthy baseline. For an
    unhealthy baseline the outcome carries the original headers and the
    original body, [header_candidates] is the number of original headers,
    [body_candidates] is 0, and no exchange but the baseline was
    issued. *)
Theorem minimize_matched_iff_healthy `{PyLib} {Server : Type}
    (session_request : Server -> Exchange.t -> net_result * Server)
    (config : Config.t) (comparator : ComparatorConfig.t)
    (request : RequestData.t) (net : HttpClient.t Server) :
  let b :=
    HttpClient.send session_request request
      (_headers_list_to_dict (RequestData.headers request))
      (RequestData.body_text request) net in
  let run :=
    RequestMinimizer.minimize session_request config comparator request net in
  run.1.1 = b.1
  /\ MinimizationResult.matched run.1.2 = ResponseSnapshot.ok b.1
  /\ (ResponseSnapshot.ok b.1 = false ->
      MinimizationResult.headers run.1.2 = RequestData.headers request
      /\ MinimizationResult.body_text run.1.2 = RequestData.body_text request
      /\ MinimizationResult.response run.1.2 = Some b.1
      /\ MinimizationResult.header_candidates run.1.2
         = length (RequestData.headers request)
      /\ MinimizationResult.body_candidates run.1.2 = 0
      /\ run.2 = b.2).
Proof.
  intros b run. subst run. rewrite minimize_unfold. cbv zeta. fold b.
  destruct (ResponseSnapshot.ok b.1) eqn:Hok.
  - split; [reflexivity|]. split; [|discriminate].
    simpl. rewrite cross_validate_matched. simpl.
    destruct (BodyConfig.try_blank_values _);
      [|simpl; reflexivity].
    match goal with
    | |- context [RequestMinimizer._try_blank_body_values
                    ?sr ?c ?cmp ?r ?h ?bl ?k ?cb ?n] =>
        pose proof (proj2 (try_blank_spec sr c cmp h r h bl k cb n
                             (reflexivity h))) as Hblank;
        destruct (RequestMinimizer._try_blank_body_values
                    sr c cmp r h bl k cb n) as [[[bb br]|] net4]
    end.
    + simpl in *. exact Hblank.
    + simpl. reflexivity.
  - split; [reflexivity|]. split; [reflexivity|].
    intros _. repeat split; reflexivity.
Qed.

Lemma minimize_matched_iff_healthy_witness :
  let run :=
    @RequestMinimizer.minimize ExampleLib.lib nat (fun served x =>
        (NetError "timeout" 0%float, S served))
      Example.protect_cookie Example.status_only Example.cookie_request
      (HttpClient.mk 0 []) in
  MinimizationResult.headers run.1.2 = Example.cookie_headers
  /\ MinimizationResult.body_text run.1.2 = None
  /\ MinimizationResult.matched run.1.2 = false.
Proof.
  pose proof (@minimize_matched_iff_healthy ExampleLib.lib nat
                (fun served x => (NetError "timeout" 0%float, S served))
                Example.protect_cookie Example.status_only
                Example.cookie_request (HttpClient.mk 0 [])) as Hm.
  cbv zeta in Hm. destruct Hm as [_ [Hmatched Hbad]].
  specialize (Hbad eq_refl). destruct Hbad as [Hh [Hb _]].
  cbv zeta. split; [exact Hh|]. split; [exact Hb|exact Hmatched].
Defined.

(** ** The JSON scenario: three fields of which only [c] is required *)

Lemma ddmin_keeps_third {A St : Type} (test_func : list A -> St -> bool * St)
    (m : Z) (x1 x2 x3 : A) (st st1 st2 : St) :
  (2 <= m)%Z ->
  test_func [x3] st = (true, st1) ->
  test_func [] st1 = (false, st2) ->
  _ddmin test_func (Some m) [x1; x2; x3] st = ([x3], 2, st2).
Proof.
  intros Hm H1 H2.
  assert (Hm0 : (m <=? 0)%Z = false) by (apply Z.leb_gt; lia).
  assert (Hm1 : (m <=? 1)%Z = false) by (apply Z.leb_gt; lia).
  unfold _ddmin, ddmin_fuel. rewrite Hm0.
  unfold ddmin_gas. simpl length.
  cbn -[Z.leb Z.of_nat].
  change (Z.of_nat 0) with 0%Z. rewrite Hm0, H1.
  cbn -[Z.leb Z.of_nat].
  change (Z.of_nat 1) with 1%Z. rewrite Hm1, H2. reflexivity.
Qed.

Section JsonBody.
Context `{PyLib} {Server : Type}.
Variable session_request : Server -> Exchange.t -> net_result * Server.
Variable config : Config.t.
Variable comparator : ComparatorConfig.t.
Variable request : RequestData.t.
Variable headers : list Header.t.
Variable baseline : ResponseSnapshot.t.
Variable text : string.

Local Abbreviation body_cfg :=
  (MinimizationConfig.body (Config.minimization config)).

Hypothesis kind_json :
  resolve_body_kind request (BodyConfig.body_type body_cfg) = "json".
Hypothesis body_is_text : RequestData.body_text request = Some text.
Hypothesis text_nonempty : str_is_empty text = false.
Hypothesis text_decodes :
  json_loads text
  = JsonDict [("a", v_str "1"); ("b", v_str "2"); ("c", v_str "3")].
Hypothesis no_protected : BodyConfig.protected_keys body_cfg = [].
Hypothesis no_only : BodyConfig.only_keys body_cfg = [].

(** Only [c] is required: a probe is accepted when it keeps the field
    [c] and rejected when it does not. *)
Hypothesis c_suffices : forall (active : list (string * value)) net,
  active `sublist_of` [("a", v_str "1"); ("b", v_str "2"); ("c", v_str "3")] ->
  ("c", v_str "3") ∈ active ->
  equivalent comparator baseline
    (HttpClient.send session_request request (_headers_list_to_dict headers)
       (Some (json_dumps
                (RequestMinimizer.build_body body_cfg [] ["a"; "b"; "c"]
                   active)))
       net).1 = true.
Hypothesis c_needed : forall (active : list (string * value)) net,
  active `sublist_of` [("a", v_str "1"); ("b", v_str "2"); ("c", v_str "3")] ->
  ("c", v_str "3") ∉ active ->
  equivalent comparator baseline
    (HttpClient.send session_request request (_headers_list_to_dict headers)
       (Some (json_dumps
                (RequestMinimizer.build_body body_cfg [] ["a"; "b"; "c"]
                   active)))
       net).1 = false.

Lemma parse_body_abc :
  _parse_body request (BodyConfig.body_type body_cfg)
  = ("json", Some [("a", v_str "1"); ("b", v_str "2"); ("c", v_str "3")]).
Proof.
  unfold _parse_body. rewrite kind_json, body_is_text. simpl.
  rewrite text_nonempty, text_decodes. reflexivity.
Qed.

Lemma body_test_verdict (verdict : bool) (active : list (string * value))
    (best : option string * ResponseSnapshot.t) (net : HttpClient.t Server) :
  let body :=
    Some (json_dumps
            (RequestMinimizer.build_body body_cfg [] ["a"; "b"; "c"] active)) in
  let sent :=
    HttpClient.send session_request request (_headers_list_to_dict headers)
      body net in
  equivalent comparator baseline sent.1 = verdict ->
  RequestMinimizer.body_test session_request comparator request headers
    baseline "json" body_cfg [] ["a"; "b"; "c"] active (best, net)
  = (verdict, (if verdict then (body, sent.1) else best, sent.2)).
Proof.
  intros body sent Hv. subst body sent.
  unfold RequestMinimizer.body_test, RequestMinimizer.send_body_map.
  simpl _build_body_text.
  destruct (HttpClient.send _ _ _ _ net) as [resp net1].
  simpl in *. rewrite Hv. destruct verdict; reflexivity.
Qed.

Lemma minimize_body_abc (max_tests : Z) (net : HttpClient.t Server) :
  (2 <= max_tests)%Z ->
  let out :=
    (RequestMinimizer._minimize_body session_request config comparator
       request headers baseline max_tests net).1 in
  out.1.1.1
  = Some (json_dumps
            (if BodyConfig.treat_empty_as_absent body_cfg
             then [("c", v_str "3")]
             else [("c", v_str "3"); ("a", v_str ""); ("b", v_str "")]))
  /\ out.1.1.2 = 3
  /\ out.2 = 2.
Proof.
  intros Hm. unfold RequestMinimizer._minimize_body.
  rewrite parse_body_abc. cbn [PyDict.is_empty].
  unfold RequestMinimizer.body_key_is_candidate.
  rewrite no_protected, no_only. cbn -[_ddmin RequestMinimizer.body_test].
  erewrite ddmin_keeps_third;
    [|exact Hm
     |apply (body_test_verdict true), c_suffices
     |apply (body_test_verdict false), c_needed].
  - simpl. split; [|split; reflexivity].
    unfold RequestMinimizer.build_body.
    destruct (BodyConfig.treat_empty_as_absent body_cfg); reflexivity.
  - do 2 apply sublist_cons. apply sublist_skip, sublist_nil_l.
  - apply list_elem_of_here.
  - apply sublist_nil_l.
  - apply not_elem_of_nil.
Qed.
End JsonBody.

(** The text of the final body under "removed means blank": the same
    object, but not the text that lists the fields in their original
    order, [a], [b], [c]; the kept field is written first. *)
Lemma blank_policy_reorders_fields :
  MinimizationResult.body_text
    (@RequestMinimizer.minimize ExampleLib.lib unit Example.requires_c
       (Example.json_config false) Example.status_only Example.abc_request
       Example.fresh).1.2
  <> Some Example.body_blank_in_place.
Proof. vm_compute. discriminate. Qed.

(** The whole run of the scenario, under either policy: the blank fields
    come after the field that was kept, and the body decodes to the three
    fields [c], [a], [b]; with "removed means absent" only [c] is left. *)
Example json_scenario_runs :
  let blank :=
    (@RequestMinimizer.minimize ExampleLib.lib unit Example.requires_c
       (Example.json_config false) Example.status_only Example.abc_request
       Example.fresh).1.2 in
  let absent :=
    (@RequestMinimizer.minimize ExampleLib.lib unit Example.requires_c
       (Example.json_config true) Example.status_only Example.abc_request
       Example.fresh).1.2 in
  MinimizationResult.body_text blank = Some Example.body_blank_after
  /\ ExampleLib.loads Example.body_blank_after
     = JsonDict [("c", "3"); ("a", ""); ("b", "")]
  /\ MinimizationResult.matched blank = true
  /\ MinimizationResult.minimized_body_fields blank = 3
  /\ MinimizationResult.body_text absent = Some Example.body_only_c
  /\ MinimizationResult.matched absent = true
  /\ MinimizationResult.minimized_body_fields absent = 1.
Proof. vm_compute. repeat split; reflexivity. Qed.

(** The two arrangements of the scenario's result hold the same
    fields. *)
Lemma blanked_fields_same `{PyLib} :
  let built := [("c", v_str "3"); ("a", v_str ""); ("b", v_str "")] in
  let claimed := [("a", v_str ""); ("b", v_str ""); ("c", v_str "3")] in
  built ≡ₚ claimed
  /\ forall k, PyDict.get k built = PyDict.get k claimed.
Proof.
  cbv zeta. split.
  - change ([("a", v_str ""); ("b", v_str ""); ("c", v_str "3")])
      with ([("a", v_str ""); ("b", v_str "")] ++ [("c", v_str "3")]).
    apply Permutation_cons_append.
  - intros k. simpl.
    destruct (String.eqb k "c") eqn:Hc; [|reflexivity].
    apply String.eqb_eq in Hc. subst k. reflexivity.
Qed.

(** C8. For a JSON body that decodes to the fields [a], [b], [c] with
    the values ["1"], ["2"], ["3"], all of them candidates, and an
    endpoint for which only [c] is required (a probe is accepted exactly
    when it keeps [c]), the body reduction, given a budget of two tests
    or more, uses two tests and produces a body that reads back as the
    claimed object: with "removed means blank" the object with the
    fields [a], [b], [c] and the values [""], [""], ["3"]; with "removed
    means absent" the object with the single field [c] and the value
    ["3"]. The object is compared as a dictionary is: the same keys with
    the same values. The text itself is what [json.dumps] writes for the
    fields in the order [c], [a], [b]: the kept field first, then the
    blanked ones. *)
Theorem body_reduction_keeps_required `{PyLib} {Server : Type}
    (session_request : Server -> Exchange.t -> net_result * Server)
    (config : Config.t) (comparator : ComparatorConfig.t)
    (request : RequestData.t) (headers : list Header.t)
    (baseline : ResponseSnapshot.t) (text : string)
    (max_tests : Z) (net : HttpClient.t Server) :
  let body_cfg := MinimizationConfig.body (Config.minimization config) in
  let fields := [("a", v_str "1"); ("b", v_str "2"); ("c", v_str "3")] in
  let claimed : PyDict.t value :=
    if BodyConfig.treat_empty_as_absent body_cfg
    then [("c", v_str "3")]
    else [("a", v_str ""); ("b", v_str ""); ("c", v_str "3")] in
  let probe := fun (active : list (string * value)) net' =>
    (HttpClient.send session_request request (_headers_list_to_dict headers)
       (Some (json_dumps
                (RequestMinimizer.build_body body_cfg [] ["a"; "b"; "c"]
                   active)))
       net').1 in
  resolve_body_kind request (BodyConfig.body_type body_cfg) = "json" ->
  RequestData.body_text request = Some text ->
  str_is_empty text = false ->
  json_loads text = JsonDict fields ->
  BodyConfig.protected_keys body_cfg = [] ->
  BodyConfig.only_keys body_cfg = [] ->
  (forall active net',
     active `sublist_of` fields -> ("c", v_str "3") ∈ active ->
     equivalent comparator baseline (probe active net') = true) ->
  (forall active net',
     active `sublist_of` fields -> ("c", v_str "3") ∉ active ->
     equivalent comparator baseline (probe active net') = false) ->
  (forall d : PyDict.t value,
     d ≡ₚ claimed -> json_loads (json_dumps d) = JsonDict d) ->
  (2 <= max_tests)%Z ->
  let out :=
    (RequestMinimizer._minimize_body session_request config comparator
       request headers baseline max_tests net).1 in
  (exists final d,
     out.1.1.1 = Some final
     /\ json_loads final = JsonDict d
     /\ d ≡ₚ claimed
     /\ forall k, PyDict.get k d = PyDict.get k claimed)
  /\ out.1.1.1
     = Some (json_dumps
               (if BodyConfig.treat_empty_as_absent body_cfg
                then [("c", v_str "3")]
                else [("c", v_str "3"); ("a", v_str ""); ("b", v_str "")]))
  /\ out.1.1.2 = 3
  /\ out.2 = 2.
Proof.
  intros body_cfg fields claimed probe Hkind Hbody Htext Hloads Hprot Honly
    Hyes Hno Hback Hm.
  pose proof (minimize_body_abc session_request config comparator request
                headers baseline text Hkind Hbody Htext Hloads Hprot Honly
                Hyes Hno max_tests net Hm) as [Hfinal Hcounts].
  cbv zeta. split; [|split; [exact Hfinal|exact Hcounts]].
  subst claimed. fold body_cfg in Hback, Hfinal |- *.
  destruct (BodyConfig.treat_empty_as_absent body_cfg).
  - exists (json_dumps [("c", v_str "3")]), [("c", v_str "3")].
    split; [exact Hfinal|]. split; [apply Hback; reflexivity|].
    split; [reflexivity|]. intros k. reflexivity.
  - destruct blanked_fields_same as [Hperm Hget].
    exists (json_dumps [("c", v_str "3"); ("a", v_str ""); ("b", v_str "")]),
      [("c", v_str "3"); ("a", v_str ""); ("b", v_str "")].
    split; [exact Hfinal|]. split; [apply Hback; exact Hperm|].
    split; [exact Hperm|exact Hget].
Qed.

(** The probes of the scenario: the eight subsequences of the fields. *)
Ltac probe_cases H :=
  repeat match type of H with
         | sublist _ (_ :: _) =>
             apply sublist_cons_r in H;
             destruct H as [H|[? [-> H]]]
         | sublist _ [] => apply sublist_nil_r in H; subst
         end.

Ltac not_a_member H :=
  exfalso;
  repeat (rewrite elem_of_cons in H; destruct H as [H|H]; [discriminate H|]);
  rewrite elem_of_nil in H; exact H.

(** The arrangements of three fields. *)
Lemma permutation_of_three {X : Type} (x y z : X) (d : list X) :
  d ≡ₚ [x; y; z] ->
  d = [x; y; z] \/ d = [x; z; y] \/ d = [y; x; z]
  \/ d = [y; z; x] \/ d = [z; x; y] \/ d = [z; y; x].
Proof.
  intros Hd.
  pose proof (Permutation_length Hd) as Hlen.
  destruct d as [|p [|q [|r [|? ?]]]]; try discriminate Hlen.
  assert (Hp : p ∈ [x; y; z]) by (rewrite <- Hd; apply list_elem_of_here).
  rewrite !elem_of_cons, elem_of_nil in Hp.
  destruct Hp as [->|[->|[->|[]]]].
  - apply Permutation_cons_inv in Hd.
    apply Permutation_length_2_inv in Hd. destruct Hd as [Hd|Hd];
      inversion Hd; subst; auto.
  - assert (Hd' : [q; r] ≡ₚ [x; z]).
    { apply (Permutation_cons_inv (a := y)).
      rewrite Hd. apply perm_swap. }
    apply Permutation_length_2_inv in Hd'. destruct Hd' as [Hd'|Hd'];
      inversion Hd'; subst; auto 10.
  - assert (Hd' : [q; r] ≡ₚ [x; y]).
    { apply (Permutation_cons_inv (a := z)).
      rewrite Hd.
      change [x; y; z] with ([x; y] ++ [z]).
      symmetry. apply Permutation_cons_append. }
    apply Permutation_length_2_inv in Hd'. destruct Hd' as [Hd'|Hd'];
      inversion Hd'; subst; auto 10.
Qed.

Lemma body_reduction_keeps_required_witness :
  let final :=
    (@RequestMinimizer._minimize_body ExampleLib.lib unit Example.requires_c
       (Example.json_config false) Example.status_only Example.abc_request
       Example.json_headers (snapshot_200 "ok") 50%Z Example.fresh).1.1.1.1 in
  final = Some Example.body_blank_after
  /\ exists text d,
       final = Some text
       /\ ExampleLib.loads text = JsonDict d
       /\ d ≡ₚ [("a", ""); ("b", ""); ("c", "3")].
Proof.
  cbv zeta.
  assert (Hrun :=
    @body_reduction_keeps_required ExampleLib.lib unit
      Example.requires_c (Example.json_config false)
      Example.status_only Example.abc_request Example.json_headers
      (snapshot_200 "ok") Example.body_abc 50%Z Example.fresh).
  cbv zeta in Hrun.
  destruct Hrun as [[text [d [Hfinal [Hloads [Hperm _]]]]] [Htext _]];
    try (vm_compute; reflexivity).
  - intros active net' Hsub Hin. probe_cases Hsub;
      first [ vm_compute; reflexivity | not_a_member Hin ].
  - intros active net' Hsub Hin. probe_cases Hsub;
      first [ vm_compute; reflexivity
            | exfalso; apply Hin; rewrite ?elem_of_cons; auto ].
  - intros d Hd. apply permutation_of_three in Hd.
    destruct Hd as [->|[->|[->|[->|[->| ->]]]]]; vm_compute; reflexivity.
  - lia.
  - split; [exact Htext|]. exists text, d. auto.
Defined.

(** * Further properties of the code *)

(** ** The engine under predicates of a known verdict *)

Section DdminVerdicts.
Context {A St : Type}.
Variable test_func : list A -> St -> bool * St.
Variable max_tests : option Z.

(** *** A predicate that accepts everything *)

Lemma ddmin_rounds_accepting (fuel : nat) :
  (forall r s, (test_func r s).1 = true) ->
  forall (c : list A) (n tests : nat) (st : St),
    1 <= n -> length c < fuel ->
    (forall b, max_tests = Some b -> (Z.of_nat (tests + length c) <= b)%Z) ->
    exists tests' st',
      ddmin_rounds test_func max_tests fuel c n tests st
      = Some ([], tests', st')
      /\ tests' <= tests + length c.
Proof.
  intros Hacc. induction fuel as [|fuel IH]; intros c n tests st Hn Hfuel Hb;
    [lia|].
  cbn [ddmin_rounds]. unfold ddmin_round.
  destruct c as [|x c].
  - simpl. exists tests, st. split; [reflexivity|lia].
  - assert (Hsize : 1 <= ceil_div (length (x :: c)) n)
      by (apply ceil_div_pos; simpl; lia).
    change (1 <=? length (x :: c)) with true. cbv iota.
    cbn [ddmin_scan]. change (0 <? length (x :: c)) with true. cbv iota.
    assert (Hspent : budget_spent max_tests tests = false).
    { unfold budget_spent. destruct max_tests as [b|]; [|reflexivity].
      apply Z.leb_gt. specialize (Hb b eq_refl). simpl in Hb. lia. }
    rewrite Hspent.
    pose proof (Hacc (take 0 (x :: c)
                      ++ drop (0 + ceil_div (length (x :: c)) n) (x :: c)) st)
      as Hok.
    destruct (test_func _ st) as [ok st1]. simpl in Hok. subst ok.
    set (rest := take 0 (x :: c) ++ drop (0 + ceil_div (length (x :: c)) n) (x :: c)).
    assert (Hrest : length rest < length (x :: c))
      by (apply remainder_shorter; [simpl; lia|exact Hsize]).
    destruct (IH rest (Nat.max (n - 1) 2) (S tests) st1) as [t' [s' [Hrun Ht']]];
      [lia|lia| |].
    + intros b Hmt. specialize (Hb b Hmt). lia.
    + exists t', s'. split; [exact Hrun|lia].
Qed.

Lemma ddmin_accepting (items : list A) (st : St) :
  (forall r s, (test_func r s).1 = true) ->
  (forall b, max_tests = Some b -> (Z.of_nat (length items) <= b)%Z) ->
  (_ddmin test_func max_tests items st).1.1 = []
  /\ (_ddmin test_func max_tests items st).1.2 <= length items.
Proof.
  intros Hacc Hb.
  pose proof (ddmin_fuel_enough test_func max_tests _ items st (le_n _)) as Hr.
  destruct (_ddmin test_func max_tests items st) as [[c t] s]. simpl.
  unfold ddmin_fuel in Hr. destruct items as [|x items].
  - inversion Hr; subst. split; [reflexivity|simpl; lia].
  - destruct (ddmin_rounds_accepting (ddmin_gas (length (x :: items))) Hacc
                (x :: items) 2 0 st) as [t' [s' [Hrun Ht']]];
      [lia|unfold ddmin_gas; lia|exact Hb|].
    assert (Hsame : ddmin_rounds test_func max_tests
                      (ddmin_gas (length (x :: items))) (x :: items) 2 0 st
                    = Some (c, t, s)).
    { destruct max_tests as [b|]; [|exact Hr].
      specialize (Hb b eq_refl). simpl in Hb.
      destruct (b <=? 0)%Z eqn:Hb0; [apply Z.leb_le in Hb0; lia|exact Hr]. }
    rewrite Hrun in Hsame. inversion Hsame; subst. split; [reflexivity|exact Ht'].
Qed.

(** *** A predicate that rejects everything *)

Lemma ddmin_rejecting (items : list A) (st : St) :
  (forall r s, (test_func r s).1 = false) ->
  (_ddmin test_func max_tests items st).1.1 = items.
Proof.
  intros Hrej.
  apply (ddmin_inv test_func max_tests (fun c _ _ => c = items));
    [|reflexivity].
  intros c tests s r ok s' Hc _ _ _ Ht.
  specialize (Hrej r s). rewrite Ht in Hrej. simpl in Hrej. subst ok. exact Hc.
Qed.

(** *** A predicate whose verdict does not depend on its state *)

Variable P : list A -> bool.
Hypothesis verdict : forall r s, (test_func r s).1 = P r.

Lemma ddmin_result_accepted (items : list A) (st : St) :
  (_ddmin test_func max_tests items st).1.1 = items
  \/ P (_ddmin test_func max_tests items st).1.1 = true.
Proof.
  apply (ddmin_inv test_func max_tests
           (fun c _ _ => c = items \/ P c = true)); [|left; reflexivity].
  intros c tests s r ok s' Hc _ _ _ Ht.
  pose proof (verdict r s) as Hv. rewrite Ht in Hv. simpl in Hv.
  destruct ok; [right; symmetry; exact Hv|exact Hc].
Qed.

Lemma ddmin_scan_exhausted (fuel : nat) :
  forall (c : list A) (size start tests : nat) (st : St) t s,
    ddmin_scan test_func max_tests fuel c size start tests st
    = Some (ScanExhausted t s) ->
    budget_spent max_tests t = true.
Proof.
  induction fuel as [|fuel IH]; intros c size start tests st t s Hr;
    [discriminate|].
  simpl in Hr. destruct (start <? length c); [|discriminate].
  destruct (budget_spent max_tests tests) eqn:Hb.
  - inversion Hr; subst. exact Hb.
  - destruct (test_func _ st) as [[] st']; [discriminate|].
    eapply IH; eassumption.
Qed.

Lemma ddmin_scan_done (fuel : nat) :
  forall (c : list A) (start tests : nat) (st : St) t s,
    ddmin_scan test_func max_tests fuel c 1 start tests st
    = Some (ScanDone t s) ->
    forall i, start <= i -> i < length c ->
      P (take i c ++ drop (S i) c) = false.
Proof.
  induction fuel as [|fuel IH]; intros c start tests st t s Hr i Hi Hlen;
    [discriminate|].
  simpl in Hr. destruct (start <? length c) eqn:Hlt.
  - destruct (budget_spent max_tests tests); [discriminate|].
    pose proof (verdict (take start c ++ drop (start + 1) c) st) as Hv.
    destruct (test_func _ st) as [[] st']; [discriminate|].
    simpl in Hv.
    destruct (decide (i = start)) as [->|Hne].
    + replace (S start) with (start + 1) by lia. symmetry. exact Hv.
    + eapply IH; [exact Hr|lia|exact Hlen].
  - apply Nat.ltb_ge in Hlt. lia.
Qed.

Lemma ceil_div_one (len n : nat) : 1 <= len -> len <= n -> ceil_div len n = 1.
Proof.
  intros Hlen Hn. unfold ceil_div.
  symmetry. apply (Nat.div_unique _ n 1 (len - 1)); lia.
Qed.

Lemma ddmin_rounds_minimal (fuel : nat) :
  forall (c : list A) (n tests : nat) (st : St) c' tests' st',
    2 <= n ->
    ddmin_rounds test_func max_tests fuel c n tests st
    = Some (c', tests', st') ->
    budget_spent max_tests tests' = false ->
    forall i, i < length c' -> P (take i c' ++ drop (S i) c') = false.
Proof.
  induction fuel as [|fuel IH]; intros c n tests st c' tests' st' Hn Hr Hb;
    [discriminate|].
  cbn [ddmin_rounds] in Hr.
  destruct (ddmin_round _ _ (S fuel) c n tests st) as [rr|] eqn:Hround;
    [|discriminate].
  destruct rr as [c1 t1 s1|c1 n1 t1 s1].
  - inversion Hr; subst. clear Hr.
    unfold ddmin_round in Hround.
    destruct (1 <=? length c) eqn:Hlen.
    + apply Nat.leb_le in Hlen.
      destruct (ddmin_scan _ _ (S fuel) c _ 0 tests st)
        as [[t s|r t s|t s]|] eqn:Hs; try discriminate.
      * inversion Hround; subst.
        apply ddmin_scan_exhausted in Hs. congruence.
      * destruct (length c <=? n) eqn:Hcap; [|discriminate].
        apply Nat.leb_le in Hcap. inversion Hround; subst.
        rewrite (ceil_div_one _ _ Hlen Hcap) in Hs.
        intros i Hi. eapply ddmin_scan_done; [exact Hs|lia|exact Hi].
    + apply Nat.leb_gt in Hlen. inversion Hround; subst.
      intros i Hi. lia.
  - destruct (ddmin_round_progress _ _ _ _ _ _ _ _ _ _ _ Hn Hround) as [Hn' _].
    eapply IH; eassumption.
Qed.

Lemma ddmin_minimal (items : list A) (st : St) :
  budget_spent max_tests (_ddmin test_func max_tests items st).1.2 = false ->
  forall i, i < length (_ddmin test_func max_tests items st).1.1 ->
    P (take i (_ddmin test_func max_tests items st).1.1
       ++ drop (S i) (_ddmin test_func max_tests items st).1.1) = false.
Proof.
  pose proof (ddmin_fuel_enough test_func max_tests _ items st (le_n _)) as Hr.
  destruct (_ddmin test_func max_tests items st) as [[c t] s]. simpl.
  intros Hb. unfold ddmin_fuel in Hr. destruct items as [|x items].
  - inversion Hr; subst. simpl. intros i Hi. lia.
  - assert (Hrounds : ddmin_rounds test_func max_tests
                        (ddmin_gas (length (x :: items))) (x :: items) 2 0 st
                      = Some (c, t, s) ->
                      forall i, i < length c ->
                        P (take i c ++ drop (S i) c) = false)
      by (intros H; eapply ddmin_rounds_minimal; [|exact H|exact Hb]; lia).
    unfold budget_spent in Hb.
    destruct max_tests as [m|]; [|auto].
    destruct (m <=? 0)%Z eqn:Hm0; [|auto].
    inversion Hr; subst. change (Z.of_nat 0) with 0%Z in Hb. congruence.
Qed.
End DdminVerdicts.

(** X1. A predicate that accepts every collection makes [_ddmin] return
    the empty collection, when there is no budget or the budget is at
    least the length of the input; it takes at most as many tests as the
    input has items. *)
Theorem ddmin_accepting_predicate {A St : Type}
    (test_func : list A -> St -> bool * St) (max_tests : option Z)
    (items : list A) (st : St) :
  (forall r s, (test_func r s).1 = true) ->
  (forall b, max_tests = Some b -> (Z.of_nat (length items) <= b)%Z) ->
  (_ddmin test_func max_tests items st).1.1 = []
  /\ (_ddmin test_func max_tests items st).1.2 <= length items.
Proof. apply ddmin_accepting. Qed.

Lemma ddmin_accepting_predicate_witness :
  (_ddmin (fun (_ : list nat) (st : unit) => (true, st)) (Some 5%Z)
          [1; 2; 3; 4; 5] tt).1.1 = [].
Proof.
  apply (ddmin_accepting_predicate
           (fun (_ : list nat) (st : unit) => (true, st)) (Some 5%Z)
           [1; 2; 3; 4; 5] tt).
  - intros r s. reflexivity.
  - intros b Hb. inversion Hb; subst. simpl. lia.
Defined.

(** X2. A predicate that rejects every collection makes [_ddmin] return
    its input unchanged, whatever the budget. *)
Theorem ddmin_rejecting_predicate {A St : Type}
    (test_func : list A -> St -> bool * St) (max_tests : option Z)
    (items : list A) (st : St) :
  (forall r s, (test_func r s).1 = false) ->
  (_ddmin test_func max_tests items st).1.1 = items.
Proof. apply ddmin_rejecting. Qed.

Lemma ddmin_rejecting_predicate_witness :
  (_ddmin (fun (_ : list nat) (st : unit) => (false, st)) None
          [1; 2; 3] tt).1.1 = [1; 2; 3].
Proof.
  apply (ddmin_rejecting_predicate
           (fun (_ : list nat) (st : unit) => (false, st)) None [1; 2; 3] tt).
  intros r s. reflexivity.
Defined.

(** X3. When the verdict of the predicate depends on the collection
    alone, and [_ddmin] returns with budget left (or has none), the
    collection returned is 1-minimal: the predicate rejects it with any
    single item taken out. *)
Theorem ddmin_one_minimal {A St : Type}
    (test_func : list A -> St -> bool * St) (max_tests : option Z)
    (P : list A -> bool) (items : list A) (st : St) :
  (forall r s, (test_func r s).1 = P r) ->
  budget_spent max_tests (_ddmin test_func max_tests items st).1.2 = false ->
  forall i, i < length (_ddmin test_func max_tests items st).1.1 ->
    P (take i (_ddmin test_func max_tests items st).1.1
       ++ drop (S i) (_ddmin test_func max_tests items st).1.1) = false.
Proof. intros Hv. apply ddmin_minimal. exact Hv. Qed.

Lemma ddmin_one_minimal_witness :
  (_ddmin (Example.stateless (Example.holds_all [2; 5])) None
          [1; 2; 3; 4; 5; 6] tt).1.1 = [2; 5]
  /\ Example.holds_all [2; 5]
       (take 0 (_ddmin (Example.stateless (Example.holds_all [2; 5])) None
                       [1; 2; 3; 4; 5; 6] tt).1.1
        ++ drop 1 (_ddmin (Example.stateless (Example.holds_all [2; 5])) None
                          [1; 2; 3; 4; 5; 6] tt).1.1)
     = false.
Proof.
  split; [vm_compute; reflexivity|].
  apply (ddmin_one_minimal (Example.stateless (Example.holds_all [2; 5]))
           None (Example.holds_all [2; 5]) [1; 2; 3; 4; 5; 6] tt
           (fun r s => eq_refl) eq_refl 0).
  vm_compute. lia.
Defined.

(** X4. When the verdict of the predicate depends on the collection
    alone, [_ddmin] returns its input or a collection the predicate
    accepts; so a property that holds of the input holds of the
    result. *)
Theorem ddmin_keeps_property {A St : Type}
    (test_func : list A -> St -> bool * St) (max_tests : option Z)
    (P : list A -> bool) (items : list A) (st : St) :
  (forall r s, (test_func r s).1 = P r) ->
  ((_ddmin test_func max_tests items st).1.1 = items
   \/ P (_ddmin test_func max_tests items st).1.1 = true)
  /\ (P items = true -> P (_ddmin test_func max_tests items st).1.1 = true).
Proof.
  intros Hv.
  pose proof (ddmin_result_accepted test_func max_tests P Hv items st) as Hr.
  split; [exact Hr|].
  intros Hitems. destruct Hr as [->|Hr]; assumption.
Qed.

Lemma ddmin_keeps_property_witness :
  Example.holds_all [2]
    (_ddmin (Example.stateless (Example.holds_all [2])) (Some 1%Z)
            [1; 2; 3; 4] tt).1.1
  = true.
Proof.
  apply (proj2 (ddmin_keeps_property
                  (Example.stateless (Example.holds_all [2])) (Some 1%Z)
                  (Example.holds_all [2]) [1; 2; 3; 4] tt
                  (fun r s => eq_refl))).
  reflexivity.
Defined.

(** ** The comparator: how the signals combine *)

Lemma equivalent_normal `{PyLib} (config : ComparatorConfig.t)
    (a b : ResponseSnapshot.t) :
  equivalent config a b
  = ResponseSnapshot.ok a && ResponseSnapshot.ok b
    && (if String.eqb (str_upper (ComparatorConfig.logic config)) "OR"
        then
          negb (signals_enabled config)
          || ComparatorConfig.status_code config && _status_equal a b
          || ComparatorConfig.length_check config && _length_within config a b
          || nonempty (ComparatorConfig.need_all config) && _need_all config b
          || nonempty (ComparatorConfig.need_any config) && _need_any config b
          || nonempty (ComparatorConfig.regex config) && _regex_match config b
        else
          implb (ComparatorConfig.status_code config) (_status_equal a b)
          && implb (ComparatorConfig.length_check config)
                   (_length_within config a b)
          && implb (nonempty (ComparatorConfig.need_all config))
                   (_need_all config b)
          && implb (nonempty (ComparatorConfig.need_any config))
                   (_need_any config b)
          && implb (nonempty (ComparatorConfig.regex config))
                   (_regex_match config b)).
Proof.
  unfold equivalent, signals_enabled, checks.
  destruct (ResponseSnapshot.ok a); [|reflexivity].
  destruct (ResponseSnapshot.ok b); [|reflexivity].
  simpl negb. simpl orb. cbv iota.
  destruct (String.eqb (str_upper (ComparatorConfig.logic config)) "OR");
    destruct (ComparatorConfig.status_code config);
    destruct (ComparatorConfig.length_check config);
    destruct (nonempty (ComparatorConfig.need_all config));
    destruct (nonempty (ComparatorConfig.need_any config));
    destruct (nonempty (ComparatorConfig.regex config));
    simpl;
    destruct (_status_equal a b); destruct (_length_within config a b);
    destruct (_need_all config b); destruct (_need_any config b);
    destruct (_regex_match config b); reflexivity.
Qed.

Lemma all_pass_some_passes (e1 e2 e3 e4 e5 r1 r2 r3 r4 r5 : bool) :
  implb e1 r1 && implb e2 r2 && implb e3 r3 && implb e4 r4 && implb e5 r5
  = true ->
  negb (e1 || e2 || e3 || e4 || e5)
  || e1 && r1 || e2 && r2 || e3 && r3 || e4 && r4 || e5 && r5 = true.
Proof.
  destruct e1, e2, e3, e4, e5, r1, r2, r3, r4, r5; simpl;
    intros Hall; first [reflexivity|discriminate Hall].
Qed.

(** X5. The logic [AND] is at least as strict as [OR]: of two
    comparators that differ in [logic] only, the second one spelling
    [OR] in any case of the letters, the second accepts every pair of
    snapshots that the first accepts. *)
Theorem equivalent_and_implies_or `{PyLib} (status_code length_check : bool)
    (length_tolerance : float) (need_all need_any regex : list string)
    (logic logic_or : string) (a b : ResponseSnapshot.t) :
  str_upper logic_or = "OR" ->
  equivalent
    (ComparatorConfig.mk status_code length_check length_tolerance
       need_all need_any regex logic) a b = true ->
  equivalent
    (ComparatorConfig.mk status_code length_check length_tolerance
       need_all need_any regex logic_or) a b = true.
Proof.
  intros Hor. rewrite !equivalent_normal. unfold signals_enabled.
  cbn [ComparatorConfig.status_code ComparatorConfig.length_check
       ComparatorConfig.need_all ComparatorConfig.need_any
       ComparatorConfig.regex ComparatorConfig.logic].
  rewrite Hor, String.eqb_refl.
  destruct (ResponseSnapshot.ok a && ResponseSnapshot.ok b); [|discriminate].
  destruct (String.eqb (str_upper logic) "OR"); [tauto|].
  cbn [andb]. intros Hall. apply all_pass_some_passes in Hall. exact Hall.
Qed.

Lemma equivalent_and_implies_or_witness :
  @equivalent ExampleLib.lib
    (ComparatorConfig.mk true false 0%float ["ok"] [] [] "or")
    (snapshot_200 "ok") (snapshot_200 "ok, again") = true.
Proof.
  apply (@equivalent_and_implies_or ExampleLib.lib true false 0%float ["ok"]
           [] [] "and" "or"); reflexivity.
Defined.

(** X6. With the status and the length signal off, the baseline matters
    through its health only: two healthy baselines give the same answer
    for every candidate. *)
Theorem equivalent_ignores_baseline `{PyLib} (config : ComparatorConfig.t)
    (a a' c : ResponseSnapshot.t) :
  ComparatorConfig.status_code config = false ->
  ComparatorConfig.length_check config = false ->
  ResponseSnapshot.ok a = true -> ResponseSnapshot.ok a' = true ->
  equivalent config a c = equivalent config a' c.
Proof.
  intros Hstatus Hlength Ha Ha'.
  rewrite !equivalent_normal, Hstatus, Hlength, Ha, Ha'. reflexivity.
Qed.

Lemma equivalent_ignores_baseline_witness :
  @equivalent ExampleLib.lib Example.words_only
    (snapshot_200 "first") (snapshot_200 "zzz")
  = @equivalent ExampleLib.lib Example.words_only
      (ResponseSnapshot.mk (Some 404%Z) None None 0%float PyDict.empty)
      (snapshot_200 "zzz").
Proof.
  apply (@equivalent_ignores_baseline ExampleLib.lib Example.words_only);
    reflexivity.
Defined.

(** ** The mapping of a header list: what is kept *)

Lemma dict_set_fresh {V : Type} (k : string) (v : V) (d : PyDict.t V) :
  k ∉ PyDict.keys d -> PyDict.set k v d = d ++ [(k, v)].
Proof.
  unfold PyDict.keys. induction d as [|[k' v'] d IH]; simpl; intros Hk.
  - reflexivity.
  - rewrite not_elem_of_cons in Hk. destruct Hk as [Hne Hk].
    apply String.eqb_neq in Hne. rewrite Hne, IH by exact Hk. reflexivity.
Qed.

Lemma dict_set_length {V : Type} (k : string) (v : V) (d : PyDict.t V) :
  length (PyDict.set k v d) <= S (length d).
Proof.
  induction d as [|[k' v'] d IH]; simpl; [lia|].
  destruct (String.eqb k k'); simpl; lia.
Qed.

Lemma headers_dict_keys (hs : list Header.t) (k : string) :
  k ∈ PyDict.keys (_headers_list_to_dict hs) <->
  k <> EmptyString /\ exists h, h ∈ hs /\ Header.name h = Some k.
Proof.
  induction hs as [|h hs IH] using rev_ind.
  - simpl. rewrite elem_of_nil. split; [tauto|].
    intros [_ [h [Hh _]]]. apply elem_of_nil in Hh. exact Hh.
  - rewrite headers_dict_snoc.
    assert (Hsplit : (exists h', h' ∈ hs ++ [h] /\ Header.name h' = Some k)
                     <-> (exists h', h' ∈ hs /\ Header.name h' = Some k)
                         \/ Header.name h = Some k).
    { split.
      - intros [h' [Hin Hname]]. apply elem_of_app in Hin.
        destruct Hin as [Hin|Hin]; [left; eauto|].
        apply list_elem_of_singleton in Hin. subst h'. right. exact Hname.
      - intros [[h' [Hin Hname]]|Hname].
        + exists h'. split; [apply elem_of_app; left; exact Hin|exact Hname].
        + exists h. split; [|exact Hname].
          apply elem_of_app. right. apply list_elem_of_singleton. reflexivity. }
    rewrite Hsplit. clear Hsplit.
    destruct (Header.name h) as [name|] eqn:Hname.
    + destruct (str_is_empty name) eqn:Hempty.
      * destruct name; [|discriminate]. rewrite IH.
        split; [tauto|]. intros [Hk [Hex|Heq]]; [tauto|].
        exfalso. apply Hk. inversion Heq. reflexivity.
      * rewrite dict_keys_set, IH.
        assert (Hne : name <> EmptyString)
          by (intros ->; simpl in Hempty; discriminate).
        split.
        -- intros [->|[Hk Hex]]; [split; [exact Hne|right; reflexivity]|tauto].
        -- intros [Hk [Hex|Heq]]; [right; tauto|left; congruence].
    + rewrite IH. split; [tauto|].
      intros [Hk [Hex|Heq]]; [tauto|discriminate].
Qed.

Lemma headers_dict_length (hs : list Header.t) :
  length (_headers_list_to_dict hs) <= length hs.
Proof.
  induction hs as [|h hs IH] using rev_ind; [simpl; lia|].
  rewrite headers_dict_snoc, length_app. simpl.
  destruct (Header.name h) as [name|]; [|lia].
  destruct (str_is_empty name); [lia|].
  pose proof (dict_set_length name (default "" (Header.value h))
                (_headers_list_to_dict hs)). lia.
Qed.

Lemma headers_dict_distinct (hs : list Header.t) :
  Forall (fun h => exists n, Header.name h = Some n /\ n <> EmptyString) hs ->
  NoDup (map Header.name hs) ->
  _headers_list_to_dict hs
  = map (fun h => (default "" (Header.name h), default "" (Header.value h)))
        hs.
Proof.
  induction hs as [|h hs IH] using rev_ind; intros Hnames Hdistinct;
    [reflexivity|].
  rewrite Forall_app, Forall_singleton in Hnames.
  destruct Hnames as [Hnames [n [Hn Hne]]].
  rewrite map_app in Hdistinct. simpl in Hdistinct.
  apply NoDup_app in Hdistinct. destruct Hdistinct as [Hhs [Hfresh _]].
  rewrite headers_dict_snoc, Hn, map_app. simpl. rewrite Hn. simpl.
  assert (Hempty : str_is_empty n = false)
    by (destruct n; [contradiction|reflexivity]).
  rewrite Hempty, <- IH by assumption.
  apply dict_set_fresh. rewrite headers_dict_keys.
  intros [_ [h' [Hin Hname']]].
  apply (Hfresh (Some n)).
  - apply list_elem_of_fmap. exists h'. split; [symmetry; exact Hname'|exact Hin].
  - rewrite Hn. apply list_elem_of_singleton. reflexivity.
Qed.

(** X7. The names the mapping of a header list has are the non-empty
    names of the list; it is never longer than the list; and for a list
    whose entries all have a non-empty name, no name twice, nothing is
    lost: the mapping is the list of the name and value pairs, in
    order. *)
Theorem headers_mapping_keeps (hs : list Header.t) :
  (forall k,
     k ∈ PyDict.keys (_headers_list_to_dict hs) <->
     k <> EmptyString /\ exists h, h ∈ hs /\ Header.name h = Some k)
  /\ length (_headers_list_to_dict hs) <= length hs
  /\ (Forall (fun h => exists n, Header.name h = Some n /\ n <> EmptyString)
             hs ->
      NoDup (map Header.name hs) ->
      _headers_list_to_dict hs
      = map (fun h => (default "" (Header.name h),
                       default "" (Header.value h))) hs).
Proof.
  split; [intros k; apply headers_dict_keys|].
  split; [apply headers_dict_length|apply headers_dict_distinct].
Qed.

Lemma headers_mapping_keeps_witness :
  _headers_list_to_dict
    [Example.header "Accept" "*/*"; Example.header "X-Trace" "1"]
  = [("Accept", "*/*"); ("X-Trace", "1")].
Proof.
  apply (proj2 (proj2 (headers_mapping_keeps
                         [Example.header "Accept" "*/*";
                          Example.header "X-Trace" "1"]))).
  - repeat constructor; eexists; (split; [reflexivity|discriminate]).
  - simpl. apply NoDup_cons. split; [|apply NoDup_singleton].
    rewrite list_elem_of_singleton. discriminate.
Defined.

(** ** Decoding a body *)

(** X8. [_parse_body] answers with one of the kinds [json], [form] and
    [raw], whatever the configured mode; it has fields exactly when the
    kind is not [raw], and the kind is then the one [resolve_body_kind]
    gives. Under the kind [json] a missing or empty body is the empty
    object, without decoding; a body that does not decode, or decodes to
    something that is not an object, is [raw]. *)
Theorem parse_body_kinds `{PyLib} (request : RequestData.t) (mode : string) :
  ((_parse_body request mode).1 = "json"
   \/ (_parse_body request mode).1 = "form"
   \/ (_parse_body request mode).1 = "raw")
  /\ ((_parse_body request mode).2 = None
      <-> (_parse_body request mode).1 = "raw")
  /\ ((_parse_body request mode).1 <> "raw" ->
      (_parse_body request mode).1 = resolve_body_kind request mode)
  /\ (resolve_body_kind request mode = "json" ->
      opt_str_falsy (RequestData.body_text request) = true ->
      _parse_body request mode = ("json", Some PyDict.empty))
  /\ (resolve_body_kind request mode = "json" ->
      forall text,
        RequestData.body_text request = Some text ->
        str_is_empty text = false ->
        json_loads text = JsonDecodeError \/ json_loads text = JsonNotDict ->
        _parse_body request mode = ("raw", None)).
Proof.
  unfold _parse_body.
  destruct (String.eqb (resolve_body_kind request mode) "json") eqn:Hjson.
  - apply String.eqb_eq in Hjson.
    split; [|split; [|split; [|split]]].
    + destruct (if str_is_empty _ then _ else _); simpl; auto.
    + destruct (if str_is_empty _ then _ else _); simpl;
        split; intros Hx; try reflexivity; discriminate.
    + destruct (if str_is_empty _ then _ else _); simpl; intros Hx;
        [contradiction|contradiction|congruence].
    + intros _ Hfalsy. destruct (RequestData.body_text request) as [text|];
        simpl in *; [rewrite Hfalsy|]; reflexivity.
    + intros _ text Htext Hempty Hloads. rewrite Htext. simpl.
      rewrite Hempty. destruct Hloads as [->| ->]; reflexivity.
  - assert (Hnot : resolve_body_kind request mode <> "json")
      by (apply String.eqb_neq; exact Hjson).
    destruct (String.eqb (resolve_body_kind request mode) "form") eqn:Hform.
    + apply String.eqb_eq in Hform. simpl.
      split; [auto|]. split; [split; intros Hx; discriminate|].
      split; [intros _; congruence|].
      split; [intros Hx; contradiction|intros Hx; contradiction].
    + simpl. split; [auto|]. split; [tauto|].
      split; [intros Hx; contradiction|].
      split; [intros Hx; contradiction|intros Hx; contradiction].
Qed.

Lemma parse_body_kinds_witness :
  @_parse_body ExampleLib.lib
    (RequestData.mk 0 "POST" "http://example.test/" "/" []
       (Some "[1,2]") (Some "application/json"))
    "auto"
  = ("raw", None).
Proof.
  apply (proj2 (proj2 (proj2 (proj2
           (@parse_body_kinds ExampleLib.lib
              (RequestData.mk 0 "POST" "http://example.test/" "/" []
                 (Some "[1,2]") (Some "application/json"))
              "auto")))) eq_refl "[1,2]" eq_refl eq_refl).
  right. reflexivity.
Defined.

(** ** What the header reduction returns *)

Lemma header_eqb_eq (a b : Header.t) : Header.eqb a b = true <-> a = b.
Proof.
  unfold Header.eqb. rewrite andb_true_iff, !bool_decide_eq_true.
  destruct a as [an av], b as [bn bv]. simpl.
  split; [intros [-> ->]; reflexivity|intros Heq; inversion Heq; auto].
Qed.

Lemma headers_eqb_eq (a b : list Header.t) : headers_eqb a b = true <-> a = b.
Proof.
  revert b. induction a as [|x a IH]; intros [|y b]; simpl;
    try (split; [discriminate|discriminate]); [tauto|].
  rewrite andb_true_iff, header_eqb_eq, IH.
  split; [intros [-> ->]; reflexivity|intros Heq; inversion Heq; auto].
Qed.

Lemma filter_split_permutation {X : Type} (f : X -> bool) (l : list X) :
  List.filter f l ++ List.filter (fun x => negb (f x)) l ≡ₚ l.
Proof.
  induction l as [|x l IH]; simpl; [reflexivity|].
  destruct (f x); simpl.
  - rewrite IH. reflexivity.
  - rewrite <- Permutation_middle, IH. reflexivity.
Qed.

Lemma filter_sublist {X : Type} (f : X -> bool) (l : list X) :
  List.filter f l `sublist_of` l.
Proof.
  induction l as [|x l IH]; simpl; [reflexivity|].
  destruct (f x); [apply sublist_skip|apply sublist_cons]; exact IH.
Qed.

Section HeaderOutcome.
Context `{PyLib} {Server : Type}.
Variable session_request : Server -> Exchange.t -> net_result * Server.
Variable config : Config.t.
Variable comparator : ComparatorConfig.t.

Local Abbreviation Net := (HttpClient.t Server).
Local Abbreviation hcfg :=
  (MinimizationConfig.headers (Config.minimization config)).

Lemma send_length (request : RequestData.t) (headers : PyDict.t string)
    (body : option string) (net : Net) :
  length (HttpClient.sent
            (HttpClient.send session_request request headers body net).2)
  = S (length (HttpClient.sent net)).
Proof. rewrite send_sent, length_app. simpl. lia. Qed.

Lemma minimize_headers_outcome (request : RequestData.t)
    (current_headers : list Header.t) (baseline : ResponseSnapshot.t)
    (max_tests : Z) (net : Net) :
  let candidates :=
    (RequestMinimizer.split_headers hcfg current_headers).1 in
  let fixed := (RequestMinimizer.split_headers hcfg current_headers).2 in
  let run :=
    RequestMinimizer._minimize_headers session_request config comparator
      request current_headers baseline max_tests net in
  run.1.1.1.1 = run.1.1.2.1
  /\ (run.1.1.2 = (current_headers, baseline)
      \/ exists active,
           active `sublist_of` candidates
           /\ run.1.1.2.1 = fixed ++ active
           /\ equivalent comparator baseline run.1.1.2.2 = true)
  /\ run.1.1.1.2 = length candidates
  /\ (Z.of_nat run.1.2 <= Z.max 0 max_tests)%Z
  /\ length (HttpClient.sent run.2)
     = length (HttpClient.sent net) + run.1.2.
Proof.
  cbv zeta. unfold RequestMinimizer._minimize_headers.
  destruct (RequestMinimizer.split_headers hcfg current_headers)
    as [candidates fixed].
  simpl fst. simpl snd.
  destruct candidates as [|c0 candidates].
  { simpl. repeat split; auto; lia. }
  set (cands := c0 :: candidates).
  set (test := RequestMinimizer.header_test session_request comparator
                 request baseline fixed).
  set (J := fun (c : list Header.t) (t : nat)
                (st : (list Header.t * ResponseSnapshot.t) * Net) =>
              c `sublist_of` cands
              /\ (st.1 = (current_headers, baseline)
                  \/ exists active,
                       active `sublist_of` cands
                       /\ st.1.1 = fixed ++ active
                       /\ equivalent comparator baseline st.1.2 = true)
              /\ length (HttpClient.sent st.2)
                 = length (HttpClient.sent net) + t).
  assert (Hstep : forall c tests st r ok st',
             J c tests st -> budget_spent (Some max_tests) tests = false ->
             r `sublist_of` c -> length r < length c ->
             test r st = (ok, st') ->
             J (if ok then r else c) (S tests) st').
  { intros c t [[bh br] n0] r ok st' [Hc [Hb Hs]] _ Hr _ Htest.
    assert (Hrc : r `sublist_of` cands) by (etransitivity; eassumption).
    unfold test, RequestMinimizer.header_test in Htest.
    pose proof (send_length request (_headers_list_to_dict (fixed ++ r))
                  (RequestData.body_text request) n0) as Hlen.
    destruct (HttpClient.send _ _ _ _ n0) as [response n1].
    simpl in Hlen, Hs.
    destruct (equivalent comparator baseline response) eqn:Heq;
      inversion Htest; subst; unfold J; simpl.
    - split; [exact Hrc|]. split; [right; exists r; auto|lia].
    - split; [exact Hc|]. split; [exact Hb|lia]. }
  assert (Hinit : J cands 0 ((current_headers, baseline), net)).
  { unfold J. split; [reflexivity|]. split; [left; reflexivity|simpl; lia]. }
  pose proof (ddmin_inv test (Some max_tests) J Hstep cands _ Hinit) as Hinv.
  assert (Hbound : (Z.of_nat (_ddmin test (Some max_tests) cands
                                ((current_headers, baseline), net)).1.2
                    <= Z.max 0 max_tests)%Z).
  { destruct (Z_lt_le_dec 0 max_tests) as [Hpos|Hnon].
    - pose proof (ddmin_tests_bound test (Some max_tests) max_tests cands
                    ((current_headers, baseline), net) eq_refl Hpos). lia.
    - rewrite ddmin_nonpositive_budget by exact Hnon. simpl. lia. }
  destruct (_ddmin test (Some max_tests) cands _)
    as [[minimized tests] [best net']].
  unfold J in Hinv. simpl in Hinv, Hbound.
  destruct Hinv as [Hmin [Hbest Hsent]].
  simpl.
  split.
  { destruct (negb (headers_eqb best.1 (fixed ++ minimized))) eqn:Hneq;
      [reflexivity|].
    apply negb_false_iff, headers_eqb_eq in Hneq. symmetry. exact Hneq. }
  split; [exact Hbest|]. split; [reflexivity|]. split; [exact Hbound|exact Hsent].
Qed.

Lemma probe_submseteq (current_headers active : list Header.t) :
  active `sublist_of` (RequestMinimizer.split_headers hcfg current_headers).1 ->
  (RequestMinimizer.split_headers hcfg current_headers).2 ++ active
  ⊆+ current_headers.
Proof.
  intros Hactive. rewrite split_headers_filter in *. simpl in *.
  etransitivity;
    [apply submseteq_skips_l, sublist_submseteq; exact Hactive|].
  apply Permutation_submseteq, filter_split_permutation.
Qed.

Lemma minimize_headers_kept (request : RequestData.t)
    (current_headers : list Header.t) (baseline : ResponseSnapshot.t)
    (max_tests : Z) (net : Net) :
  let fixed := (RequestMinimizer.split_headers hcfg current_headers).2 in
  let run :=
    RequestMinimizer._minimize_headers session_request config comparator
      request current_headers baseline max_tests net in
  run.1.1.1.1 = run.1.1.2.1
  /\ run.1.1.1.1 ⊆+ current_headers
  /\ fixed `sublist_of` run.1.1.1.1.
Proof.
  cbv zeta.
  destruct (minimize_headers_outcome request current_headers baseline
              max_tests net) as [Hsame [Hbest _]].
  split; [exact Hsame|]. rewrite Hsame.
  destruct Hbest as [->|[active [Hactive [-> _]]]]; simpl.
  - split; [reflexivity|].
    rewrite split_headers_filter. simpl. apply filter_sublist.
  - split; [apply probe_submseteq; exact Hactive|].
    apply sublist_inserts_r. reflexivity.
Qed.
End HeaderOutcome.

(** ** What the body reduction returns *)

Section BodyOutcome.
Context `{PyLib} {Server : Type}.
Variable session_request : Server -> Exchange.t -> net_result * Server.
Variable config : Config.t.
Variable comparator : ComparatorConfig.t.

Local Abbreviation Net := (HttpClient.t Server).

(** One probe of a body: one exchange, and the state remembered changes
    exactly when the comparator accepts the response. *)
Lemma send_body_map_step {B : Type} (request : RequestData.t)
    (headers : list Header.t) (baseline : ResponseSnapshot.t) (kind : string)
    (accept : option string -> ResponseSnapshot.t -> B)
    (body_map : PyDict.t value) (best : B) (net : Net) :
  let out :=
    RequestMinimizer.send_body_map session_request comparator request
      headers baseline kind accept body_map (best, net) in
  length (HttpClient.sent out.2.2) = S (length (HttpClient.sent net))
  /\ (out.1 = false /\ out.2.1 = best
      \/ out.1 = true
         /\ exists response,
              equivalent comparator baseline response = true
              /\ out.2.1
                 = accept (_build_body_text kind (Some body_map)) response).
Proof.
  cbv zeta. unfold RequestMinimizer.send_body_map.
  pose proof (send_length session_request request
                (_headers_list_to_dict headers)
                (_build_body_text kind (Some body_map)) net) as Hlen.
  destruct (HttpClient.send _ _ _ _ net) as [response net1]. simpl in Hlen.
  destruct (equivalent comparator baseline response) eqn:Heq; simpl.
  - split; [exact Hlen|]. right. split; [reflexivity|]. eauto.
  - split; [exact Hlen|]. left. auto.
Qed.

Lemma minimize_body_outcome (request : RequestData.t)
    (headers : list Header.t) (baseline : ResponseSnapshot.t)
    (max_tests : Z) (net : Net) :
  let run :=
    RequestMinimizer._minimize_body session_request config comparator
      request headers baseline max_tests net in
  (Z.of_nat run.1.2 <= Z.max 0 max_tests)%Z
  /\ length (HttpClient.sent run.2)
     = length (HttpClient.sent net) + run.1.2
  /\ (run.1.1.2 = (RequestData.body_text request, baseline)
      \/ equivalent comparator baseline run.1.1.2.2 = true)
  /\ (run.1.1.2.1 = None \/ run.1.1.1.1 = run.1.1.2.1).
Proof.
  cbv zeta. unfold RequestMinimizer._minimize_body.
  assert (Hskip : forall b : option string,
             (Z.of_nat 0 <= Z.max 0 max_tests)%Z
             /\ length (HttpClient.sent net) = length (HttpClient.sent net) + 0
             /\ ((RequestData.body_text request, baseline)
                 = (RequestData.body_text request, baseline)
                 \/ equivalent comparator baseline baseline = true)
             /\ (RequestData.body_text request = None
                 \/ RequestData.body_text request
                    = RequestData.body_text request))
    by (intros _; repeat split; auto; lia).
  destruct (_parse_body request _) as [kind [parsed|]];
    [|simpl; apply Hskip; exact None].
  destruct (PyDict.is_empty parsed); [simpl; apply Hskip; exact None|].
  destruct (PyDict.is_empty (PyDict.filter_keys _ parsed));
    [simpl; apply Hskip; exact None|].
  clear Hskip.
  match goal with
  | |- context [_ddmin ?t ?m ?l ?s0] =>
      set (test := t); set (items := l) in *
  end.
  set (J := fun (c : list (string * value)) (t : nat)
                (st : (option string * ResponseSnapshot.t) * Net) =>
              (st.1 = (RequestData.body_text request, baseline)
               \/ equivalent comparator baseline st.1.2 = true)
              /\ length (HttpClient.sent st.2)
                 = length (HttpClient.sent net) + t).
  assert (Hstep : forall c tests st r ok st',
             J c tests st -> budget_spent (Some max_tests) tests = false ->
             r `sublist_of` c -> length r < length c ->
             test r st = (ok, st') ->
             J (if ok then r else c) (S tests) st').
  { intros c t [best n0] r ok st' [Hb Hs] _ _ _ Htest.
    unfold test, RequestMinimizer.body_test in Htest.
    match type of Htest with
    | RequestMinimizer.send_body_map ?sr ?cmp ?rq ?hs ?bl ?k ?acc ?bm _ = _ =>
        pose proof (send_body_map_step rq hs bl k acc bm best n0) as Hprobe
    end.
    cbv zeta in Hprobe. rewrite Htest in Hprobe. simpl in Hprobe, Hs.
    destruct Hprobe as [Hlen [[-> Hsame]|[-> [response [Heq Hnew]]]]];
      unfold J; simpl.
    - rewrite Hsame. split; [exact Hb|lia].
    - rewrite Hnew. simpl. split; [right; exact Heq|lia]. }
  assert (Hinit : J items 0 ((RequestData.body_text request, baseline), net))
    by (unfold J; split; [left; reflexivity|simpl; lia]).
  pose proof (ddmin_inv test (Some max_tests) J Hstep items _ Hinit) as Hinv.
  assert (Hbound : (Z.of_nat (_ddmin test (Some max_tests) items
                                ((RequestData.body_text request, baseline),
                                 net)).1.2
                    <= Z.max 0 max_tests)%Z).
  { destruct (Z_lt_le_dec 0 max_tests) as [Hpos|Hnon].
    - pose proof (ddmin_tests_bound test (Some max_tests) max_tests items
                    ((RequestData.body_text request, baseline), net)
                    eq_refl Hpos). lia.
    - rewrite ddmin_nonpositive_budget by exact Hnon. simpl. lia. }
  destruct (_ddmin test (Some max_tests) items _)
    as [[minimized tests] [best net']].
  unfold J in Hinv. simpl in Hinv, Hbound. destruct Hinv as [Hbest Hsent].
  simpl. split; [exact Hbound|]. split; [exact Hsent|].
  split; [exact Hbest|].
  destruct (best.1); [right; reflexivity|left; reflexivity].
Qed.
End BodyOutcome.

(** ** The body maps the probes are built from *)

Lemma str_in_elem (x : string) (xs : list string) :
  str_in x xs = true <-> x ∈ xs.
Proof.
  unfold str_in. induction xs as [|y xs IH]; simpl.
  - rewrite elem_of_nil. split; [discriminate|tauto].
  - rewrite orb_true_iff, IH, elem_of_cons, String.eqb_eq. tauto.
Qed.

Section BodyMaps.
Context {V : Type}.

Lemma dict_get_absent (k : string) (d : PyDict.t V) :
  PyDict.get k d = None <-> k ∉ PyDict.keys d.
Proof.
  unfold PyDict.keys. induction d as [|[k' v'] d IH]; simpl.
  - rewrite elem_of_nil. tauto.
  - rewrite not_elem_of_cons, <- IH.
    destruct (String.eqb k k') eqn:Hk.
    + apply String.eqb_eq in Hk. split; [discriminate|tauto].
    + apply String.eqb_neq in Hk. tauto.
Qed.

Lemma dict_mem_keys (k : string) (d : PyDict.t V) :
  PyDict.mem k d = true <-> k ∈ PyDict.keys d.
Proof.
  unfold PyDict.mem. pose proof (dict_get_absent k d) as Habs.
  destruct (PyDict.get k d).
  - split; [intros _|reflexivity].
    destruct (decide (k ∈ PyDict.keys d)) as [Hin|Hout]; [exact Hin|].
    apply Habs in Hout. discriminate.
  - split; [discriminate|]. intros Hin. apply Habs in Hin; [tauto|reflexivity].
Qed.

(** Assigning to a key the dictionary has keeps the keys, in order. *)
Lemma dict_set_present (k : string) (v : V) (d : PyDict.t V) :
  k ∈ PyDict.keys d -> PyDict.keys (PyDict.set k v d) = PyDict.keys d.
Proof.
  unfold PyDict.keys. induction d as [|[k' v'] d IH]; simpl; intros Hk.
  - apply elem_of_nil in Hk. contradiction.
  - destruct (String.eqb k k') eqn:Heq; simpl.
    + apply String.eqb_eq in Heq. subst k'. reflexivity.
    + apply elem_of_cons in Hk. destruct Hk as [->|Hk].
      * rewrite String.eqb_refl in Heq. discriminate.
      * rewrite IH by exact Hk. reflexivity.
Qed.

Lemma dict_of_list_nodup (l : list (string * V)) :
  NoDup (PyDict.keys (PyDict.of_list l)).
Proof.
  unfold PyDict.of_list.
  assert (Hgen : forall d : PyDict.t V,
             NoDup (PyDict.keys d) ->
             NoDup (PyDict.keys
                      (fold_left (fun d kv => PyDict.set kv.1 kv.2 d) l d))).
  { induction l as [|[k v] l IH]; intros d Hd; simpl; [exact Hd|].
    apply IH, dict_set_nodup, Hd. }
  apply Hgen. apply NoDup_nil_2.
Qed.


(** [for key, value in lookup.items(): merged[key] = value], for a
    dictionary [lookup]: a key of [lookup] gets its value, any other
    key keeps what [merged] had. *)
Lemma dict_update_get (k : string) (lookup merged : PyDict.t V) :
  NoDup (PyDict.keys lookup) ->
  PyDict.get k
    (fold_left (fun merged kv => PyDict.set kv.1 kv.2 merged)
               (PyDict.items lookup) merged)
  = match PyDict.get k lookup with
    | Some v => Some v
    | None => PyDict.get k merged
    end.
Proof.
  unfold PyDict.items. revert merged.
  induction lookup as [|[k' v'] lookup IH]; intros merged Hnd; simpl;
    [reflexivity|].
  unfold PyDict.keys in Hnd. simpl in Hnd.
  apply NoDup_cons in Hnd. destruct Hnd as [Hfresh Hnd].
  rewrite IH by exact Hnd. rewrite dict_get_set.
  destruct (String.eqb k k') eqn:Hk; [|reflexivity].
  apply String.eqb_eq in Hk. subst k'.
  apply dict_get_absent in Hfresh. rewrite Hfresh. reflexivity.
Qed.
End BodyMaps.

Section BuildBody.
Context `{PyLib}.

(** The loop that blanks the candidate keys outside [lookup]. *)
Lemma blank_missing_get (k : string) (lookup merged : PyDict.t value)
    (candidate_keys : list string) :
  PyDict.get k
    (fold_left
       (fun merged key =>
          if negb (PyDict.mem key lookup)
          then PyDict.set key (v_str "") merged else merged)
       candidate_keys merged)
  = if str_in k candidate_keys && negb (PyDict.mem k lookup)
    then Some (v_str "") else PyDict.get k merged.
Proof.
  revert merged.
  induction candidate_keys as [|key keys IH]; intros merged; simpl;
    [reflexivity|].
  rewrite IH. destruct (String.eqb k key) eqn:Hk; simpl.
  - apply String.eqb_eq in Hk. subst key.
    destruct (PyDict.mem k lookup); simpl.
    + rewrite andb_false_r. reflexivity.
    + rewrite dict_get_set, String.eqb_refl.
      destruct (str_in k keys); reflexivity.
  - destruct (negb (PyDict.mem key lookup)); [|reflexivity].
    rewrite dict_get_set, Hk. reflexivity.
Qed.

(** X12. The body map that [build_body] of [_minimize_body] makes for a
    probe, read key by key: a key of the active items has the value of
    its last active item; any other key of [candidate_keys] has the empty
    string when [treat_empty_as_absent] is off; every remaining key has
    what [fixed] has for it, if anything. *)
Theorem build_body_fields (cfg : BodyConfig.t) (fixed : PyDict.t value)
    (candidate_keys : list string) (active_items : list (string * value))
    (k : string) :
  PyDict.get k
    (RequestMinimizer.build_body cfg fixed candidate_keys active_items)
  = match PyDict.get k (PyDict.of_list active_items) with
    | Some v => Some v
    | None =>
        if negb (BodyConfig.treat_empty_as_absent cfg)
           && str_in k candidate_keys
        then Some (v_str "") else PyDict.get k fixed
    end.
Proof.
  unfold RequestMinimizer.build_body.
  pose proof (dict_of_list_nodup active_items) as Hnd.
  destruct (BodyConfig.treat_empty_as_absent cfg); simpl.
  - apply dict_update_get, Hnd.
  - rewrite blank_missing_get, dict_update_get by exact Hnd.
    unfold PyDict.mem.
    destruct (PyDict.get k (PyDict.of_list active_items));
      [rewrite andb_false_r; reflexivity|].
    rewrite andb_true_r. reflexivity.
Qed.

(** The loop of the refinement's [build_body]. *)
Lemma blank_build_body_get (parsed : PyDict.t value)
    (candidate_keys active_keys : list string) (k : string) :
  PyDict.get k
    (RequestMinimizer.blank_build_body parsed candidate_keys active_keys)
  = if str_in k candidate_keys && negb (str_in k active_keys)
    then Some (v_str "") else PyDict.get k parsed.
Proof.
  unfold RequestMinimizer.blank_build_body. revert parsed.
  induction candidate_keys as [|key keys IH]; intros parsed; simpl;
    [reflexivity|].
  rewrite IH. destruct (String.eqb k key) eqn:Hk; simpl.
  - apply String.eqb_eq in Hk. subst key.
    destruct (str_in k active_keys); simpl.
    + rewrite andb_false_r. reflexivity.
    + rewrite dict_get_set, String.eqb_refl.
      destruct (str_in k keys); reflexivity.
  - destruct (negb (str_in key active_keys)); [|reflexivity].
    rewrite dict_get_set, Hk. reflexivity.
Qed.

Lemma blank_build_body_keys (parsed : PyDict.t value)
    (candidate_keys active_keys : list string) :
  candidate_keys ⊆ PyDict.keys parsed ->
  PyDict.keys
    (RequestMinimizer.blank_build_body parsed candidate_keys active_keys)
  = PyDict.keys parsed.
Proof.
  unfold RequestMinimizer.blank_build_body. revert parsed.
  induction candidate_keys as [|key keys IH]; intros parsed Hsub; simpl;
    [reflexivity|].
  assert (Hkey : key ∈ PyDict.keys parsed)
    by (apply Hsub, list_elem_of_here).
  assert (Hkeys : keys ⊆ PyDict.keys parsed)
    by (intros x Hx; apply Hsub, elem_of_cons; right; exact Hx).
  destruct (negb (str_in key active_keys)); [|apply IH, Hkeys].
  rewrite IH; [apply dict_set_present, Hkey|].
  rewrite dict_set_present by exact Hkey. exact Hkeys.
Qed.

End BuildBody.


(** X13. The body map that [build_body] of [_try_blank_body_values] makes
    for a probe: when the candidate keys are keys of the parsed body, it
    has the keys of the parsed body in their order; a candidate key
    outside [active_keys] has the empty string, and every other key has
    its parsed value. *)
Theorem blank_build_body_fields `{PyLib} (parsed : PyDict.t value)
    (candidate_keys active_keys : list string) :
  candidate_keys ⊆ PyDict.keys parsed ->
  let body_map :=
    RequestMinimizer.blank_build_body parsed candidate_keys active_keys in
  PyDict.keys body_map = PyDict.keys parsed
  /\ forall k,
       PyDict.get k body_map
       = if str_in k candidate_keys && negb (str_in k active_keys)
         then Some (v_str "") else PyDict.get k parsed.
Proof.
  intros Hsub. cbv zeta. split.
  - apply blank_build_body_keys, Hsub.
  - intros k. apply blank_build_body_get.
Qed.

Lemma blank_build_body_fields_witness :
  PyDict.keys
    (@RequestMinimizer.blank_build_body ExampleLib.lib
       [("a", "1"); ("b", "2"); ("c", "3")] ["a"; "c"] ["c"])
  = ["a"; "b"; "c"].
Proof.
  refine (proj1 (@blank_build_body_fields ExampleLib.lib
                   [("a", "1"); ("b", "2"); ("c", "3")] ["a"; "c"] ["c"] _)).
  intros k Hk. apply str_in_elem in Hk. apply str_in_elem.
  destruct (String.eqb k "a") eqn:Ha;
    [apply String.eqb_eq in Ha; subst k; reflexivity|].
  destruct (String.eqb k "c") eqn:Hc;
    [apply String.eqb_eq in Hc; subst k; reflexivity|].
  simpl in Hk. rewrite Ha, Hc in Hk. discriminate.
Defined.

(** ** What the two phases and the final check leave *)

Section PhasesOutcome.
Context `{PyLib} {Server : Type}.
Variable session_request : Server -> Exchange.t -> net_result * Server.
Variable config : Config.t.
Variable comparator : ComparatorConfig.t.

Local Abbreviation Net := (HttpClient.t Server).
Local Abbreviation hcfg :=
  (MinimizationConfig.headers (Config.minimization config)).
Local Abbreviation budget := (Config.max_rounds_per_request config).

Lemma run_phases_outcome (request : RequestData.t)
    (original_headers : list Header.t) (baseline : ResponseSnapshot.t)
    (net : Net) :
  let fixed := (RequestMinimizer.split_headers hcfg original_headers).2 in
  let candidates := (RequestMinimizer.split_headers hcfg original_headers).1 in
  let ph :=
    RequestMinimizer.run_phases session_request config comparator request
      original_headers baseline net in
  RequestMinimizer.headers_state ph.1 ⊆+ original_headers
  /\ fixed `sublist_of` RequestMinimizer.headers_state ph.1
  /\ (RequestMinimizer.best_header_combo ph.1).1
     = RequestMinimizer.headers_state ph.1
  /\ RequestMinimizer.header_candidates ph.1 <= length candidates
  /\ length original_headers
     <= length (RequestMinimizer.headers_state ph.1)
        + RequestMinimizer.header_candidates ph.1
  /\ ((RequestMinimizer.best_header_combo ph.1).2 = baseline
      \/ equivalent comparator baseline
           (RequestMinimizer.best_header_combo ph.1).2 = true)
  /\ ((RequestMinimizer.best_body_combo ph.1).2 = baseline
      \/ equivalent comparator baseline
           (RequestMinimizer.best_body_combo ph.1).2 = true)
  /\ length (HttpClient.sent net) <= length (HttpClient.sent ph.2)
  /\ (Z.of_nat (length (HttpClient.sent ph.2))
      <= Z.of_nat (length (HttpClient.sent net)) + Z.max 0 budget)%Z.
Proof.
  cbv zeta. unfold RequestMinimizer.run_phases.
  set (body_on := str_in "body" _ && BodyConfig.enabled _).
  assert (Hcount : length (RequestMinimizer.split_headers hcfg
                             original_headers).2
                   + length (RequestMinimizer.split_headers hcfg
                               original_headers).1
                   = length original_headers).
  { rewrite split_headers_filter. simpl. rewrite <- length_app.
    apply Permutation_length, filter_split_permutation. }
  destruct (str_in "headers" _ && HeadersConfig.enabled _).
  - pose proof (minimize_headers_outcome session_request config comparator
                  request original_headers baseline (Z.max 0 budget) net)
      as Hout.
    pose proof (minimize_headers_kept session_request config comparator
                  request original_headers baseline (Z.max 0 budget) net)
      as Hkept.
    cbv zeta in Hout, Hkept.
    destruct (RequestMinimizer._minimize_headers _ _ _ _ _ _ _ net)
      as [[[[hs nc] [bh br]] tests] net1].
    simpl in Hout, Hkept.
    destruct Hout as [_ [Hbest [-> [Htests Hsent]]]].
    destruct Hkept as [-> [Hsub Hfixed]].
    pose proof (sublist_length _ _ Hfixed) as Hlen.
    assert (Hbr : br = baseline \/ equivalent comparator baseline br = true).
    { destruct Hbest as [Hb|[active [_ [_ Heq]]]];
        [left; congruence|right; exact Heq]. }
    destruct body_on.
    + pose proof (minimize_body_outcome session_request config comparator
                    request bh baseline
                    (Z.max 0 (Z.max 0 (budget - Z.of_nat tests))) net1)
        as Hbody.
      cbv zeta in Hbody.
      destruct (RequestMinimizer._minimize_body _ _ _ _ _ _ _ net1)
        as [[[[fb nb] [bb bbr]] tests2] net2].
      simpl in Hbody. destruct Hbody as [Ht2 [Hs2 [Hbb _]]]. simpl.
      repeat split; try assumption; try reflexivity; try lia.
      destruct Hbb as [Hb|Hb]; [left; congruence|right; exact Hb].
    + simpl. repeat split; try assumption; try reflexivity; try lia.
  - assert (Hfixed : (RequestMinimizer.split_headers hcfg original_headers).2
                     `sublist_of` original_headers)
      by (rewrite split_headers_filter; simpl; apply filter_sublist).
    destruct body_on.
    + pose proof (minimize_body_outcome session_request config comparator
                    request original_headers baseline
                    (Z.max 0 budget) net) as Hbody.
      cbv zeta in Hbody.
      destruct (RequestMinimizer._minimize_body _ _ _ _ _ _ _ net)
        as [[[[fb nb] [bb bbr]] tests2] net2].
      simpl in Hbody. destruct Hbody as [Ht2 [Hs2 [Hbb _]]]. simpl.
      repeat split; try assumption; try reflexivity; try lia; auto.
      destruct Hbb as [Hb|Hb]; [left; congruence|right; exact Hb].
    + simpl. repeat split; try assumption; try reflexivity; try lia; auto.
Qed.

(** The final check sends one exchange; the headers it settles on are
    those of the header phase or the original ones, and the response it
    settles on is the baseline or one the comparator accepted. *)
Lemma cross_validate_outcome (request : RequestData.t)
    (original_headers : list Header.t) (baseline : ResponseSnapshot.t)
    (p : RequestMinimizer.phases) (net : Net) :
  let cv :=
    RequestMinimizer.cross_validate session_request comparator request
      original_headers baseline p net in
  length (HttpClient.sent cv.2) = S (length (HttpClient.sent net))
  /\ (cv.1.1.1.1 = RequestMinimizer.headers_state p
      \/ cv.1.1.1.1 = (RequestMinimizer.best_header_combo p).1
      \/ cv.1.1.1.1 = original_headers)
  /\ (cv.1.1.2 = baseline \/ equivalent comparator baseline cv.1.1.2 = true).
Proof.
  cbv zeta. rewrite cross_validate_unfold. cbv zeta. simpl.
  split; [apply send_length|].
  destruct (equivalent comparator baseline _) eqn:Hcheck; simpl.
  - split; [left; reflexivity|right; exact Hcheck].
  - unfold RequestMinimizer.fallback.
    destruct (RequestMinimizer.best_header_combo p) as [fh fr].
    destruct (RequestMinimizer.best_body_combo p) as [fb fbr].
    destruct (equivalent comparator baseline fbr) eqn:Hb; simpl;
      [split; [left; reflexivity|right; exact Hb]|].
    destruct (equivalent comparator baseline fr) eqn:Hh; simpl;
      [split; [right; left; reflexivity|right; exact Hh]|].
    split; [right; right; reflexivity|left; reflexivity].
Qed.

(** The refinement never shrinks the log, and what it returns is a body
    other than [current_body] with a response the comparator accepted. *)
Lemma try_blank_outcome (request : RequestData.t) (headers : list Header.t)
    (baseline : ResponseSnapshot.t) (body_kind : string)
    (current_body : option string) (net : Net) :
  let out :=
    RequestMinimizer._try_blank_body_values session_request config
      comparator request headers baseline body_kind current_body net in
  length (HttpClient.sent net) <= length (HttpClient.sent out.2)
  /\ match out.1 with
     | Some (body, response) =>
         body <> current_body
         /\ equivalent comparator baseline response = true
         /\ length (HttpClient.sent net) < length (HttpClient.sent out.2)
     | None => True
     end.
Proof.
  cbv zeta. unfold RequestMinimizer._try_blank_body_values.
  destruct (negb (str_in body_kind _) || opt_str_falsy current_body);
    [split; [reflexivity|exact I]|].
  match goal with
  | |- context [match ?p with Some _ => _ | None => (None, net) end] =>
      destruct p as [parsed|]; [|split; [reflexivity|exact I]]
  end.
  destruct (List.filter _ (PyDict.keys parsed)) as [|k keys];
    [split; [reflexivity|exact I]|].
  set (good := fun st : (option string * option ResponseSnapshot.t) * Net =>
                 length (HttpClient.sent net) <= length (HttpClient.sent st.2)
                 /\ match st.1.2 with
                    | Some response =>
                        equivalent comparator baseline response = true
                    | None => True
                    end).
  assert (Hstep : forall body_map st,
             good st ->
             let out :=
               RequestMinimizer.send_body_map session_request comparator
                 request headers baseline body_kind
                 (fun b r => (b, Some r)) body_map st in
             good out.2
             /\ length (HttpClient.sent net) < length (HttpClient.sent out.2.2)).
  { intros body_map [best net1] [Hlen Hbest]. cbv zeta.
    pose proof (send_body_map_step session_request comparator request headers
                  baseline body_kind (fun b r => (b, Some r)) body_map best
                  net1) as Hprobe.
    cbv zeta in Hprobe. simpl in Hlen, Hbest.
    destruct Hprobe as [Hs [[_ Hsame]|[_ [response [Heq Hnew]]]]];
      unfold good.
    - rewrite Hsame, !Hs. repeat split; [lia|exact Hbest|lia].
    - rewrite Hnew, !Hs. simpl. repeat split; [lia|exact Heq|lia]. }
  match goal with
  | |- context [_ddmin ?t ?m ?items ?s0] =>
      pose proof (ddmin_state_inv t m good items s0) as Hinv;
      destruct (_ddmin t m items s0) as [[minimized tests] st1]
  end.
  simpl in Hinv.
  assert (Hst1 : good st1).
  { apply Hinv; [|split; [reflexivity|exact I]].
    intros r st Hst. apply (Hstep _ st Hst). }
  specialize (Hstep (RequestMinimizer.blank_build_body parsed (k :: keys)
                       minimized) st1 Hst1).
  cbv zeta in Hstep.
  destruct (RequestMinimizer.send_body_map _ _ _ _ _ _ _ _ st1)
    as [ok [best net2]].
  destruct Hstep as [[Hlen Hbest] Hgrew]. simpl in Hlen, Hbest, Hgrew. simpl.
  destruct (best.2) as [response|]; [|split; [exact Hlen|exact I]].
  destruct (bool_decide (best.1 = current_body)) eqn:Hsame; simpl;
    [split; [exact Hlen|exact I]|].
  apply bool_decide_eq_false in Hsame. auto.
Qed.

(** What [minimize] returns, whatever the endpoint answers. *)
Lemma minimize_outcome (request : RequestData.t) (net : Net) :
  let original := RequestData.headers request in
  let fixed := (RequestMinimizer.split_headers hcfg original).2 in
  let run :=
    RequestMinimizer.minimize session_request config comparator request net in
  MinimizationResult.headers run.1.2 ⊆+ original
  /\ fixed `sublist_of` MinimizationResult.headers run.1.2
  /\ MinimizationResult.minimized_headers run.1.2
     = length (MinimizationResult.headers run.1.2)
  /\ length original
     <= MinimizationResult.minimized_headers run.1.2
        + MinimizationResult.header_candidates run.1.2
  /\ (exists response,
        MinimizationResult.response run.1.2 = Some response
        /\ (response = run.1.1
            \/ equivalent comparator run.1.1 response = true))
  /\ length (HttpClient.sent net) < length (HttpClient.sent run.2)
  /\ (BodyConfig.try_blank_values
        (MinimizationConfig.body (Config.minimization config)) = false ->
      (Z.of_nat (length (HttpClient.sent run.2))
       <= Z.of_nat (length (HttpClient.sent net)) + 2 + Z.max 0 budget)%Z).
Proof.
  cbv zeta. rewrite minimize_unfold. cbv zeta.
  pose proof (send_length session_request request
                (_headers_list_to_dict (RequestData.headers request))
                (RequestData.body_text request) net) as Hbase.
  destruct (HttpClient.send _ _ _ _ net) as [baseline net1].
  simpl in Hbase. simpl fst. simpl snd.
  assert (Hfixed : (RequestMinimizer.split_headers hcfg
                      (RequestData.headers request)).2
                   `sublist_of` RequestData.headers request)
    by (rewrite split_headers_filter; simpl; apply filter_sublist).
  destruct (ResponseSnapshot.ok baseline);
    [|simpl; repeat split; try reflexivity; try assumption; try lia;
      eexists; split; [reflexivity|left; reflexivity]].
  pose proof (run_phases_outcome request (RequestData.headers request)
                baseline net1) as Hph.
  cbv zeta in Hph.
  destruct (RequestMinimizer.run_phases _ _ _ _ _ _ net1) as [p net2].
  simpl in Hph.
  destruct Hph as [Hsub [Hfix [Hbh [Hnc [Hcount [_ [_ [Hmono Hbudget]]]]]]]].
  pose proof (cross_validate_outcome request (RequestData.headers request)
                baseline p net2) as Hcv.
  cbv zeta in Hcv. simpl fst. simpl snd.
  destruct (RequestMinimizer.cross_validate _ _ _ _ _ p net2)
    as [[[[fh fb] fr] matched] net3].
  simpl in Hcv. destruct Hcv as [Hsent [Hfh Hfr]]. simpl fst. simpl snd.
  assert (Hheaders : fh ⊆+ RequestData.headers request
                     /\ (RequestMinimizer.split_headers hcfg
                           (RequestData.headers request)).2 `sublist_of` fh
                     /\ length (RequestData.headers request)
                        <= length fh + RequestMinimizer.header_candidates p).
  { destruct Hfh as [->|[->| ->]]; [auto|rewrite Hbh; auto|].
    split; [reflexivity|]. split; [exact Hfixed|lia]. }
  destruct Hheaders as [H1 [H2 H3]].
  destruct (matched && BodyConfig.try_blank_values _) eqn:Hblank.
  - pose proof (try_blank_outcome request fh baseline
                  (resolve_body_kind request
                     (BodyConfig.body_type
                        (MinimizationConfig.body
                           (Config.minimization config))))
                  fb net3) as Htb.
    cbv zeta in Htb.
    destruct (RequestMinimizer._try_blank_body_values _ _ _ _ _ _ _ _ net3)
      as [[[bb br]|] net4]; simpl in Htb; destruct Htb as [Hm4 Htb]; simpl.
    + destruct Htb as [_ [Hacc _]].
      repeat split; try assumption; try lia.
      * eexists; split; [reflexivity|right; exact Hacc].
      * intros Hoff. rewrite Hoff, andb_false_r in Hblank. discriminate.
    + repeat split; try assumption; try lia.
      * eexists; split; [reflexivity|exact Hfr].
      * intros Hoff. rewrite Hoff, andb_false_r in Hblank. discriminate.
  - simpl. repeat split; try assumption; try lia.
    eexists; split; [reflexivity|exact Hfr].
Qed.
End PhasesOutcome.

(** ** The reductions and the orchestrator, seen from their callers *)

(** X9. The header list [_minimize_headers] returns is the one it
    remembers in [best_state]. It is made of entries of the list it was
    given, none more often than it occurs there, and the fixed headers
    (protected, ignored, or matched by no candidate pattern) are all in
    it, in the order of the given list: only candidate headers are ever
    dropped. *)
Theorem header_reduction_keeps_fixed `{PyLib} {Server : Type}
    (session_request : Server -> Exchange.t -> net_result * Server)
    (config : Config.t) (comparator : ComparatorConfig.t)
    (request : RequestData.t) (current_headers : list Header.t)
    (baseline : ResponseSnapshot.t) (max_tests : Z)
    (net : HttpClient.t Server) :
  let cfg := MinimizationConfig.headers (Config.minimization config) in
  let '((minimized_headers, _, best_state, _), _) :=
    RequestMinimizer._minimize_headers session_request config comparator
      request current_headers baseline max_tests net in
  minimized_headers = best_state.1
  /\ minimized_headers ⊆+ current_headers
  /\ List.filter (RequestMinimizer.header_is_fixed cfg) current_headers
     `sublist_of` minimized_headers.
Proof.
  cbv zeta.
  pose proof (minimize_headers_kept session_request config comparator request
                current_headers baseline max_tests net) as Hkept.
  cbv zeta in Hkept. rewrite split_headers_filter in Hkept.
  destruct (RequestMinimizer._minimize_headers _ _ _ _ _ _ _ net)
    as [[[[minimized_headers n] best_state] tests] net'].
  exact Hkept.
Qed.

(** X10. The counts of [_minimize_headers]: the number of candidates it
    reports is the number of headers that are not fixed; the number of
    tests it reports is at most [max(0, max_tests)] and is exactly the
    number of exchanges it issued; and the state it remembers is the
    given header list with the baseline, or carries a response that the
    comparator accepted against the baseline. *)
Theorem header_reduction_accounting `{PyLib} {Server : Type}
    (session_request : Server -> Exchange.t -> net_result * Server)
    (config : Config.t) (comparator : ComparatorConfig.t)
    (request : RequestData.t) (current_headers : list Header.t)
    (baseline : ResponseSnapshot.t) (max_tests : Z)
    (net : HttpClient.t Server) :
  let cfg := MinimizationConfig.headers (Config.minimization config) in
  let '((_, n_candidates, best_state, tests), net') :=
    RequestMinimizer._minimize_headers session_request config comparator
      request current_headers baseline max_tests net in
  n_candidates
  = length (List.filter
              (fun h => negb (RequestMinimizer.header_is_fixed cfg h))
              current_headers)
  /\ (Z.of_nat tests <= Z.max 0 max_tests)%Z
  /\ length (HttpClient.sent net') = length (HttpClient.sent net) + tests
  /\ (best_state = (current_headers, baseline)
      \/ equivalent comparator baseline best_state.2 = true).
Proof.
  cbv zeta.
  pose proof (minimize_headers_outcome session_request config comparator
                request current_headers baseline max_tests net) as Hout.
  cbv zeta in Hout. rewrite split_headers_filter in Hout.
  destruct (RequestMinimizer._minimize_headers _ _ _ _ _ _ _ net)
    as [[[[minimized_headers n] best_state] tests] net'].
  simpl in Hout. destruct Hout as [_ [Hbest [Hn [Htests Hsent]]]].
  split; [exact Hn|]. split; [exact Htests|]. split; [exact Hsent|].
  destruct Hbest as [Hb|[active [_ [_ Hacc]]]]; [left; exact Hb|right; exact Hacc].
Qed.

(** X11. The counts of [_minimize_body]: the number of tests it reports
    is at most [max(0, max_tests)] and is exactly the number of exchanges
    it issued; the state it remembers is the body of the request with the
    baseline, or carries a response that the comparator accepted against
    the baseline; and the body it returns is the remembered one, unless
    the remembered one is [None]. *)
Theorem body_reduction_accounting `{PyLib} {Server : Type}
    (session_request : Server -> Exchange.t -> net_result * Server)
    (config : Config.t) (comparator : ComparatorConfig.t)
    (request : RequestData.t) (headers : list Header.t)
    (baseline : ResponseSnapshot.t) (max_tests : Z)
    (net : HttpClient.t Server) :
  let '((final_body, _, best_state, tests), net') :=
    RequestMinimizer._minimize_body session_request config comparator
      request headers baseline max_tests net in
  (Z.of_nat tests <= Z.max 0 max_tests)%Z
  /\ length (HttpClient.sent net') = length (HttpClient.sent net) + tests
  /\ (best_state = (RequestData.body_text request, baseline)
      \/ equivalent comparator baseline best_state.2 = true)
  /\ (best_state.1 = None \/ final_body = best_state.1).
Proof.
  pose proof (minimize_body_outcome session_request config comparator
                request headers baseline max_tests net) as Hout.
  cbv zeta in Hout.
  destruct (RequestMinimizer._minimize_body _ _ _ _ _ _ _ net)
    as [[[[final_body n] best_state] tests] net'].
  exact Hout.
Qed.

(** X15. What [_try_blank_body_values] returns is a body other than
    [current_body], together with a response that the comparator
    accepted against the baseline, and at least one exchange was issued
    for it; whatever it returns, no exchange of the log is lost. *)
Theorem blank_refinement_outcome `{PyLib} {Server : Type}
    (session_request : Server -> Exchange.t -> net_result * Server)
    (config : Config.t) (comparator : ComparatorConfig.t)
    (request : RequestData.t) (headers : list Header.t)
    (baseline : ResponseSnapshot.t) (body_kind : string)
    (current_body : option string) (net : HttpClient.t Server) :
  let '(attempt, net') :=
    RequestMinimizer._try_blank_body_values session_request config
      comparator request headers baseline body_kind current_body net in
  length (HttpClient.sent net) <= length (HttpClient.sent net')
  /\ match attempt with
     | Some (body, response) =>
         body <> current_body
         /\ equivalent comparator baseline response = true
         /\ length (HttpClient.sent net) < length (HttpClient.sent net')
     | None => True
     end.
Proof.
  pose proof (try_blank_outcome session_request config comparator request
                headers baseline body_kind current_body net) as Hout.
  cbv zeta in Hout.
  destruct (RequestMinimizer._try_blank_body_values _ _ _ _ _ _ _ _ net)
    as [attempt net'].
  exact Hout.
Qed.

(** X16. The headers of the outcome of [minimize], whatever the endpoint
    answers: they are entries of the request's header list, none more
    often than it occurs there; every fixed header of the request is
    among them, in order; [minimized_headers] is their number; and at
    most [header_candidates] headers of the request are missing. *)
Theorem minimize_result_headers `{PyLib} {Server : Type}
    (session_request : Server -> Exchange.t -> net_result * Server)
    (config : Config.t) (comparator : ComparatorConfig.t)
    (request : RequestData.t) (net : HttpClient.t Server) :
  let cfg := MinimizationConfig.headers (Config.minimization config) in
  let result :=
    (RequestMinimizer.minimize session_request config comparator request
       net).1.2 in
  MinimizationResult.headers result ⊆+ RequestData.headers request
  /\ List.filter (RequestMinimizer.header_is_fixed cfg)
       (RequestData.headers request)
     `sublist_of` MinimizationResult.headers result
  /\ MinimizationResult.minimized_headers result
     = length (MinimizationResult.headers result)
  /\ MinimizationResult.minimized_headers result
     <= length (RequestData.headers request)
  /\ length (RequestData.headers request)
     <= MinimizationResult.minimized_headers result
        + MinimizationResult.header_candidates result.
Proof.
  cbv zeta.
  pose proof (minimize_outcome session_request config comparator request net)
    as Hout.
  cbv zeta in Hout. rewrite split_headers_filter in Hout. simpl in Hout.
  destruct Hout as [Hsub [Hfixed [Hn [Hcount _]]]].
  split; [exact Hsub|]. split; [exact Hfixed|]. split; [exact Hn|].
  split; [|exact Hcount].
  rewrite Hn. apply submseteq_length, Hsub.
Qed.

(** X17. The response of the outcome of [minimize] is always present,
    and it is the baseline snapshot that [minimize] returns beside the
    outcome, or a response that the comparator accepted against that
    baseline. *)
Theorem minimize_response_accepted `{PyLib} {Server : Type}
    (session_request : Server -> Exchange.t -> net_result * Server)
    (config : Config.t) (comparator : ComparatorConfig.t)
    (request : RequestData.t) (net : HttpClient.t Server) :
  let run :=
    RequestMinimizer.minimize session_request config comparator request net in
  exists response,
    MinimizationResult.response run.1.2 = Some response
    /\ (response = run.1.1
        \/ equivalent comparator run.1.1 response = true).
Proof.
  cbv zeta.
  pose proof (minimize_outcome session_request config comparator request net)
    as Hout.
  cbv zeta in Hout. destruct Hout as [_ [_ [_ [_ [Hresp _]]]]]. exact Hresp.
Qed.

(** X18. With the blank-value pass off, [max_rounds_per_request] bounds
    the probes of the header phase and of the body phase together:
    [minimize] issues at least one exchange and at most
    [2 + max(0, max_rounds_per_request)], the two being the baseline and
    the final check. *)
Theorem minimize_exchange_budget `{PyLib} {Server : Type}
    (session_request : Server -> Exchange.t -> net_result * Server)
    (config : Config.t) (comparator : ComparatorConfig.t)
    (request : RequestData.t) (net : HttpClient.t Server) :
  BodyConfig.try_blank_values
    (MinimizationConfig.body (Config.minimization config)) = false ->
  let net' :=
    (RequestMinimizer.minimize session_request config comparator request
       net).2 in
  length (HttpClient.sent net) < length (HttpClient.sent net')
  /\ (Z.of_nat (length (HttpClient.sent net'))
      <= Z.of_nat (length (HttpClient.sent net)) + 2
         + Z.max 0 (Config.max_rounds_per_request config))%Z.
Proof.
  intros Hoff. cbv zeta.
  pose proof (minimize_outcome session_request config comparator request net)
    as Hout.
  cbv zeta in Hout. destruct Hout as [_ [_ [_ [_ [_ [Hgrew Hbudget]]]]]].
  split; [exact Hgrew|exact (Hbudget Hoff)].
Qed.

Lemma minimize_exchange_budget_witness :
  let net' :=
    (@RequestMinimizer.minimize ExampleLib.lib unit Example.always_ok
       Example.protect_cookie Example.status_only Example.cookie_request
       Example.fresh).2 in
  0 < length (HttpClient.sent net')
  /\ (Z.of_nat (length (HttpClient.sent net')) <= 52)%Z.
Proof.
  exact (@minimize_exchange_budget ExampleLib.lib unit Example.always_ok
           Example.protect_cookie Example.status_only Example.cookie_request
           Example.fresh eq_refl).
Defined.

(** ** An endpoint that is down *)

Section EndpointDown.
Context `{PyLib} {Server : Type}.
Variable session_request : Server -> Exchange.t -> net_result * Server.
Variable config : Config.t.
Variable comparator : ComparatorConfig.t.

Local Abbreviation Net := (HttpClient.t Server).

Hypothesis down :
  forall srv x, exists msg elapsed srv',
    session_request srv x = (NetError msg elapsed, srv').

Lemma send_down (request : RequestData.t) (headers : PyDict.t string)
    (body : option string) (net : Net) :
  ResponseSnapshot.ok
    (HttpClient.send session_request request headers body net).1 = false.
Proof.
  unfold HttpClient.send.
  match goal with
  | |- context [session_request ?s ?x] =>
      destruct (down s x) as [msg [elapsed [srv' ->]]]
  end.
  reflexivity.
Qed.

Lemma header_test_down (request : RequestData.t)
    (baseline : ResponseSnapshot.t) (fixed active : list Header.t)
    (st : (list Header.t * ResponseSnapshot.t) * Net) :
  (RequestMinimizer.header_test session_request comparator request baseline
     fixed active st).2.1 = st.1.
Proof.
  destruct st as [best net]. unfold RequestMinimizer.header_test.
  pose proof (send_down request (_headers_list_to_dict (fixed ++ active))
                (RequestData.body_text request) net) as Hdown.
  destruct (HttpClient.send _ _ _ _ net) as [response net1]. simpl in Hdown.
  rewrite equivalent_unhealthy by (right; exact Hdown). reflexivity.
Qed.

Lemma send_body_map_down {B : Type} (request : RequestData.t)
    (headers : list Header.t) (baseline : ResponseSnapshot.t) (kind : string)
    (accept : option string -> ResponseSnapshot.t -> B)
    (body_map : PyDict.t value) (st : B * Net) :
  (RequestMinimizer.send_body_map session_request comparator request headers
     baseline kind accept body_map st).2.1 = st.1.
Proof.
  destruct st as [best net]. unfold RequestMinimizer.send_body_map.
  pose proof (send_down request (_headers_list_to_dict headers)
                (_build_body_text kind (Some body_map)) net) as Hdown.
  destruct (HttpClient.send _ _ _ _ net) as [response net1]. simpl in Hdown.
  rewrite equivalent_unhealthy by (right; exact Hdown). reflexivity.
Qed.

Lemma minimize_headers_down (request : RequestData.t)
    (current_headers : list Header.t) (baseline : ResponseSnapshot.t)
    (max_tests : Z) (net : Net) :
  let run :=
    RequestMinimizer._minimize_headers session_request config comparator
      request current_headers baseline max_tests net in
  run.1.1.1.1 = current_headers /\ run.1.1.2 = (current_headers, baseline).
Proof.
  cbv zeta.
  assert (Hbest : (RequestMinimizer._minimize_headers session_request config
                     comparator request current_headers baseline max_tests
                     net).1.1.2 = (current_headers, baseline)).
  { unfold RequestMinimizer._minimize_headers.
    destruct (RequestMinimizer.split_headers _ current_headers)
      as [candidates fixed].
    destruct candidates as [|c0 candidates]; [reflexivity|].
    match goal with
    | |- context [_ddmin ?t ?m ?l ?s0] =>
        pose proof (ddmin_state_inv t m
                      (fun st => st.1 = (current_headers, baseline)) l s0)
          as Hinv;
        destruct (_ddmin t m l s0) as [[minimized tests] [best net']]
    end.
    simpl in Hinv. simpl. apply Hinv; [|reflexivity].
    intros r s Hs. rewrite header_test_down. exact Hs. }
  split; [|exact Hbest].
  pose proof (minimize_headers_outcome session_request config comparator
                request current_headers baseline max_tests net) as Hout.
  cbv zeta in Hout. destruct Hout as [-> _]. rewrite Hbest. reflexivity.
Qed.

Lemma minimize_body_down (request : RequestData.t)
    (headers : list Header.t) (baseline : ResponseSnapshot.t)
    (max_tests : Z) (net : Net) :
  let run :=
    RequestMinimizer._minimize_body session_request config comparator
      request headers baseline max_tests net in
  run.1.1.2 = (RequestData.body_text request, baseline)
  /\ (RequestData.body_text request <> None ->
      run.1.1.1.1 = RequestData.body_text request).
Proof.
  cbv zeta.
  assert (Hbest : (RequestMinimizer._minimize_body session_request config
                     comparator request headers baseline max_tests
                     net).1.1.2 = (RequestData.body_text request, baseline)).
  { unfold RequestMinimizer._minimize_body.
    destruct (_parse_body request _) as [kind [parsed|]]; [|reflexivity].
    destruct (PyDict.is_empty parsed); [reflexivity|].
    destruct (PyDict.is_empty (PyDict.filter_keys _ parsed)); [reflexivity|].
    match goal with
    | |- context [_ddmin ?t ?m ?l ?s0] =>
        pose proof (ddmin_state_inv t m
                      (fun st => st.1 = (RequestData.body_text request,
                                         baseline)) l s0)
          as Hinv;
        destruct (_ddmin t m l s0) as [[minimized tests] [best net']]
    end.
    simpl in Hinv. simpl. apply Hinv; [|reflexivity].
    intros r s Hs. unfold RequestMinimizer.body_test.
    rewrite send_body_map_down. exact Hs. }
  split; [exact Hbest|]. intros Hbody.
  pose proof (minimize_body_outcome session_request config comparator
                request headers baseline max_tests net) as Hout.
  cbv zeta in Hout. destruct Hout as [_ [_ [_ [Hnone| ->]]]].
  - rewrite Hbest in Hnone. simpl in Hnone. contradiction.
  - rewrite Hbest. reflexivity.
Qed.
End EndpointDown.

(** X19. When every exchange fails in transport, no probe is accepted:
    [_minimize_headers] returns the header list it was given and
    [_minimize_body] the body of the request (when it has one), and both
    remember the state they started from. *)
Theorem reductions_keep_request_when_down `{PyLib} {Server : Type}
    (session_request : Server -> Exchange.t -> net_result * Server)
    (config : Config.t) (comparator : ComparatorConfig.t)
    (request : RequestData.t) (headers : list Header.t)
    (baseline : ResponseSnapshot.t) (max_tests : Z)
    (net : HttpClient.t Server) :
  (forall srv x, exists msg elapsed srv',
      session_request srv x = (NetError msg elapsed, srv')) ->
  let h :=
    RequestMinimizer._minimize_headers session_request config comparator
      request headers baseline max_tests net in
  let b :=
    RequestMinimizer._minimize_body session_request config comparator
      request headers baseline max_tests net in
  h.1.1.1.1 = headers
  /\ h.1.1.2 = (headers, baseline)
  /\ b.1.1.2 = (RequestData.body_text request, baseline)
  /\ (RequestData.body_text request <> None ->
      b.1.1.1.1 = RequestData.body_text request).
Proof.
  intros Hdown. cbv zeta.
  destruct (minimize_headers_down session_request config comparator Hdown
              request headers baseline max_tests net) as [Hh Hbest].
  destruct (minimize_body_down session_request config comparator Hdown
              request headers baseline max_tests net) as [Hb Hbody].
  auto.
Qed.

Lemma reductions_keep_request_when_down_witness :
  (@RequestMinimizer._minimize_headers ExampleLib.lib nat
     (fun served x => (NetError "timeout" 0%float, S served))
     (Example.config_with [] "auto" true) Example.status_only Example.cookie_request
     Example.cookie_headers (snapshot_200 "ok") 50 (HttpClient.mk 0 [])).1.1.1.1
  = Example.cookie_headers.
Proof.
  refine (proj1 (@reductions_keep_request_when_down ExampleLib.lib nat
                   (fun served x => (NetError "timeout" 0%float, S served))
                   (Example.config_with [] "auto" true) Example.status_only
                   Example.cookie_request Example.cookie_headers
                   (snapshot_200 "ok") 50 (HttpClient.mk 0 []) _)).
  intros srv x. exists "timeout", 0%float, (S srv). reflexivity.
Defined.

(** ** The exchanges keep the order of the request *)





Section RequestOrder.
Context `{PyLib}.
Variable cfg : HeadersConfig.t.
Variable orig : list Header.t.


End RequestOrder.

Section Carrying.
Context `{PyLib} {Server : Type}.
Variable session_request : Server -> Exchange.t -> net_result * Server.
Variable config : Config.t.
Variable comparator : ComparatorConfig.t.

(** What the header lists of the exchanges are to satisfy. *)
Variable good : list Header.t -> Prop.

Local Abbreviation Net := (HttpClient.t Server).
Local Abbreviation hcfg :=
  (MinimizationConfig.headers (Config.minimization config)).








End Carrying.




(** The order within a name is part of the statement: the two [Cookie]
    entries the other way round are not in the order of the request. *)
Example reversed_entries_not_in_order :
  ~ in_request_order
      [Example.header "Cookie" "a"; Example.header "Cookie" "b"]
      [Example.header "Cookie" "b"; Example.header "Cookie" "a"].
Proof.
  intros [_ Horder]. specialize (Horder "Cookie"). simpl in Horder.
  apply sublist_cons_r in Horder.
  destruct Horder as [Horder|[l [Heq _]]]; [|discriminate Heq].
  apply sublist_length in Horder. simpl in Horder. lia.
Qed.
